(** * SSD1306 display engine of mt32-pi (src/ssd1306.cpp)

    A shallow embedding of the OLED driver: the compile-time font
    conversion, the page-addressed framebuffer with its pixel and
    character primitives, the part level meters, the message overlay and
    the I2C transfers.

    Conventions.
    - [u8], [u16] values are integers in [Z] with the wrap-around of the
      C++ type written out ([to_u8], [to_u16]); bit operations are the
      [Z] ones.
    - Fixed-size C arrays are lists.  A store through an index outside the
      array is undefined behaviour in C++; it is modelled as failure
      ([None]) so that no theorem silently relies on it.
    - Declarations that live in headers which are not part of the
      translated file (font6x8.h, ssd1306.h, mt32synth.h) are parameters
      of the development: the glyph catalog [Font6x8], the framebuffer and
      message buffer capacities, and the velocity scaling. *)

From Stdlib Require Import ZArith Lia Bool.
From stdpp Require Import base numbers option list.

Local Open Scope Z_scope.

(** ** Machine integers *)

Definition to_u8 (z : Z) : Z := z mod 256.
Definition to_u16 (z : Z) : Z := z mod 65536.

(** Conversion of an integer to C++ [bool], read back as 0 or 1. *)
Definition to_bool (z : Z) : Z := if z =? 0 then 0 else 1.

(** Read of a fixed-size array at an index the loop bounds keep in range. *)
Definition rd (l : list Z) (i : Z) : Z := default 0 (l !! Z.to_nat i).

(** ** Counted loops

    [for (u8 i = lo; i < lo + n; ++i) body] with the loop state threaded
    through. *)

Fixpoint for_loop {S : Type} (n : nat) (i : Z) (body : Z -> S -> S) (s : S) : S :=
  match n with
  | O => s
  | Datatypes.S n' => for_loop n' (i + 1) body (body i s)
  end.

(** The same loop when the body may step outside an array. *)
Fixpoint for_loop_opt {S : Type} (n : nat) (i : Z)
    (body : Z -> S -> option S) (s : S) : option S :=
  match n with
  | O => Some s
  | Datatypes.S n' =>
      match body i s with
      | Some s' => for_loop_opt n' (i + 1) body s'
      | None => None
      end
  end.

Notation "'do' x <- m ; k" := (match m with Some x => k | None => None end)
  (at level 10, x name, m at level 100, k at level 200, only parsing).

(** ** Font conversion (anonymous namespace of ssd1306.cpp) *)

(** [CharData = u8[8]]: the eight rows of a glyph, top row first. *)
Abbreviation CharData := (list Z) (only parsing).

Definition SingleColumn (pCharData : CharData) (pColumn : Z) : Z :=
  let bit := to_u8 (5 - pColumn) in
  for_loop 8 0
    (fun i column =>
       to_u8 (Z.lor column
                (Z.shiftl (Z.land (Z.shiftr (rd pCharData i) bit) 1) i)))
    0.

Definition DoubleColumn (pCharData : CharData) (pColumn : Z) : Z :=
  let singleColumn := SingleColumn pCharData pColumn in
  for_loop 8 0
    (fun i column =>
       let bit := to_bool (Z.land (Z.shiftr singleColumn i) 1) in
       to_u16 (Z.lor column
                 (Z.lor (Z.shiftl bit (i * 2)) (Z.shiftl bit (i * 2 + 1)))))
    0.

(** The [Font] class template: entry [i][j] is [pFunction(pCharData[i], j)]
    for the six columns of each glyph. *)
Definition Font (pCharData : list CharData) (pFunction : CharData -> Z -> Z)
  : list (list Z) :=
  map (fun g => map (pFunction g) (seqZ 0 6)) pCharData.

(** Row form of a column table: bit [5 - j] of row [r] is bit [r] of
    column [j].  This is the inverse direction of [SingleColumn]; it is
    not part of the driver and only serves to state the round trip. *)
Definition row_of_columns (cols : list Z) (r : Z) : Z :=
  for_loop 6 0
    (fun j row => Z.lor row (Z.shiftl (Z.land (Z.shiftr (rd cols j) r) 1) (5 - j)))
    0.

Definition rows_of_columns (cols : list Z) : CharData :=
  map (row_of_columns cols) (seqZ 0 8).

(** A glyph of the 6x8 catalog: eight rows, each using the low six bits. *)
Definition glyph_wf (g : CharData) : Prop :=
  length g = 8%nat /\ Forall (fun r => 0 <= r < 64) g.

(** ** Collaborators *)

(** [CI2CMaster]: [Write (address, buffer, count)] sends the bytes and
    returns the number of bytes written, or a negative error code.  The
    bus is a black box; [B] is whatever state it has. *)
Class I2CMaster (B : Type) := Write : B -> Z -> list Z -> B * Z.

(** [CMT32SynthBase] as one update samples it. *)
Record CMT32SynthBase := {
  GetPartStates : Z;
  GetVelocityForPart : Z -> Z;
  GetMasterVolume : Z
}.

(** ** The driver object *)

(** Modelled from the spec: the members of [CSSD1306] are declared in
    ssd1306.h.  The three meter arrays are taken as nine [u8] each, the
    width of every other integer of the driver and the one the
    wrap-around of the hold timer is described with.  [mI2CMaster] is
    the bus behind the pointer. *)
Record CSSD1306 (B : Type) := mkCSSD1306 {
  mI2CMaster : B;
  mAddress : Z;
  mHeight : Z;
  mMessageFlag : bool;
  mMessageText : list Z;
  mPartLevels : list Z;
  mPeakLevels : list Z;
  mPeakTimes : list Z;
  mFramebuffer : list Z
}.

Arguments mkCSSD1306 {B}.
Arguments mI2CMaster {B}.
Arguments mAddress {B}.
Arguments mHeight {B}.
Arguments mMessageFlag {B}.
Arguments mMessageText {B}.
Arguments mPartLevels {B}.
Arguments mPeakLevels {B}.
Arguments mPeakTimes {B}.
Arguments mFramebuffer {B}.

Definition set_bus {B} (st : CSSD1306 B) (b : B) : CSSD1306 B :=
  mkCSSD1306 b (mAddress st) (mHeight st) (mMessageFlag st) (mMessageText st)
    (mPartLevels st) (mPeakLevels st) (mPeakTimes st) (mFramebuffer st).

Definition set_fb {B} (st : CSSD1306 B) (fb : list Z) : CSSD1306 B :=
  mkCSSD1306 (mI2CMaster st) (mAddress st) (mHeight st) (mMessageFlag st)
    (mMessageText st) (mPartLevels st) (mPeakLevels st) (mPeakTimes st) fb.

Definition set_meters {B} (st : CSSD1306 B) (lv pk tm : list Z) : CSSD1306 B :=
  mkCSSD1306 (mI2CMaster st) (mAddress st) (mHeight st) (mMessageFlag st)
    (mMessageText st) lv pk tm (mFramebuffer st).

Definition set_message {B} (st : CSSD1306 B) (flag : bool) (text : list Z)
  : CSSD1306 B :=
  mkCSSD1306 (mI2CMaster st) (mAddress st) (mHeight st) flag text
    (mPartLevels st) (mPeakLevels st) (mPeakTimes st) (mFramebuffer st).

(** [mFramebuffer[i]] as an rvalue and [mFramebuffer[i] = v]. *)
Definition load {B} (i : Z) (st : CSSD1306 B) : option Z :=
  if decide (0 <= i) then mFramebuffer st !! Z.to_nat i else None.

Definition store {B} (i v : Z) (st : CSSD1306 B) : option (CSSD1306 B) :=
  if decide (0 <= i < Z.of_nat (length (mFramebuffer st)))
  then Some (set_fb st (<[Z.to_nat i := v]> (mFramebuffer st)))
  else None.

Definition InitSequence : list Z :=
  [ 0xAE; 0x81; 0x7F;
    0xA6;
    0x20; 0x0; 0x21; 0x00; 0x7F; 0x22; 0x00; 0x03;
    0xA1; 0xA8; 0x1F;
    0xC8; 0xD3; 0x00; 0xDA; 0x02;
    0xD5; 0x80; 0xD9; 0x22; 0xDB; 0x20;
    0x8D; 0x14;
    0xA4; 0xAF ].

(** A C string: the characters before the first NUL (or the end of the
    array that holds it). *)
Fixpoint cstr (s : list Z) : list Z :=
  match s with
  | [] => []
  | c :: rest => if c =? 0 then [] else c :: cstr rest
  end.

(** [strncpy (dst, src, n)] into an [n]-byte array: at most [n]
    characters of [src], NUL padded. *)
Definition strncpy (n : nat) (src : list Z) : list Z :=
  take n (cstr src ++ replicate n 0).

(** Decimal digits of a non-negative integer, most significant first. *)
Fixpoint dec_digits (fuel : nat) (n : Z) (acc : list Z) : list Z :=
  match fuel with
  | O => acc
  | Datatypes.S f =>
      let acc' := (48 + n mod 10) :: acc in
      if n / 10 =? 0 then acc' else dec_digits f (n / 10) acc'
  end.

(** [sprintf] conversion [%3d] of a non-negative value: right-justified
    in a field of three, padded with spaces. *)
Definition fmt_3d (n : Z) : list Z :=
  let ds := dec_digits 12 n [] in
  replicate (3 - length ds) 32 ++ ds.

(** [sprintf (buf, "|vol:%3d", n)] *)
Definition sprintf_vol (n : Z) : list Z :=
  [124; 118; 111; 108; 58] ++ fmt_3d n.

(** Modelled from the spec: the default arguments of [DrawChar] and
    [Print] are declared in ssd1306.h.  The spec renders plain glyphs in
    twenty six-column cells per row and has exactly one transfer per
    update, which is what [false] for each of them gives. *)
Definition default_pInverted : bool := false.
Definition default_pDoubleWidth : bool := false.
Definition default_pClearLine : bool := false.
Definition default_pImmediate : bool := false.

Section Driver.

(** The glyph catalog of font6x8.h, first glyph at the space character. *)
Variable Font6x8 : list CharData.

(** Capacities of [mFramebuffer] and [mMessageText] (ssd1306.h). *)
Variable FramebufferSize : nat.
Variable MessageTextSize : nat.

(** [VelocityLevel v] is [floor (VelocityScale * v)], the scale being a
    floating-point constant of ssd1306.h. *)
Variable VelocityLevel : Z -> Z.

Context {B : Type} `{I2CMaster B}.

Definition FontSingle : list (list Z) := Font Font6x8 SingleColumn.
Definition FontDouble : list (list Z) := Font Font6x8 DoubleColumn.

(** Constructor.  [mFramebuffer{0x40}] sets the first byte and zeroes
    the rest; [mMessageText] is left uninitialised by the source and is
    taken empty here. *)
Definition CSSD1306_new (pI2CMaster : B) (pAddress pHeight : Z) : CSSD1306 B :=
  mkCSSD1306 pI2CMaster pAddress pHeight
    false []
    (replicate 9 0) (replicate 9 0) (replicate 9 0)
    (<[0%nat := 0x40]> (replicate FramebufferSize 0)).

(** The result of each [Write] is dropped, as in the source. *)
Definition Initialize (st : CSSD1306 B) : bool * CSSD1306 B :=
  if negb ((mHeight st =? 32) || (mHeight st =? 64)) then (false, st)
  else
    let bus :=
      fold_left (fun b byte => fst (Write b (mAddress st) [0x80; byte]))
                InitSequence (mI2CMaster st) in
    (true, set_bus st bus).

Definition WriteFramebuffer (st : CSSD1306 B) : option (CSSD1306 B) :=
  let count := Z.to_nat (mHeight st * 16 + 1) in
  if decide (count <= length (mFramebuffer st))%nat
  then Some (set_bus st
               (fst (Write (mI2CMaster st) (mAddress st)
                       (take count (mFramebuffer st)))))
  else None.

Definition pixel_index (pX pY : Z) : Z :=
  Z.shiftl (Z.land pY 0xf8) 4 + pX + 1.

Definition SetPixel (pX pY : Z) (st : CSSD1306 B) : option (CSSD1306 B) :=
  let pX := to_u8 (Z.land pX 0x7f) in
  let pY := to_u8 (Z.land pY 0x3f) in
  do old <- load (pixel_index pX pY) st;
  store (pixel_index pX pY)
        (to_u8 (Z.lor old (Z.shiftl 1 (Z.land pY 7)))) st.

Definition ClearPixel (pX pY : Z) (st : CSSD1306 B) : option (CSSD1306 B) :=
  let pX := to_u8 (Z.land pX 0x7f) in
  let pY := to_u8 (Z.land pY 0x3f) in
  do old <- load (pixel_index pX pY) st;
  store (pixel_index pX pY)
        (to_u8 (Z.land old (Z.lnot (Z.shiftl 1 (Z.land pY 7))))) st.

(** [FontDouble[static_cast<u8>(pChar - ' ')][i]]; a character outside
    the catalog reads outside the table. *)
Definition font_column (pChar i : Z) : option Z :=
  do g <- FontDouble !! Z.to_nat (to_u8 (pChar - 32));
  g !! Z.to_nat i.

Definition DrawChar (pChar pCursorX pCursorY : Z) (pInverted pDoubleWidth : bool)
    (st : CSSD1306 B) : option (CSSD1306 B) :=
  let rowOffset := pCursorY * 128 * 2 in
  let columnOffset := pCursorX * (if pDoubleWidth then 12 else 6) + 4 in
  for_loop_opt 6 0
    (fun i st =>
       do col <- font_column pChar i;
       let fontColumn :=
         if (0 <? i) && pInverted then to_u16 (Z.lxor col 0x3FFF) else col in
       let offset := rowOffset + columnOffset + (if pDoubleWidth then i * 2 else i) in
       do st1 <- store offset (Z.land fontColumn 0xFF) st;
       do st2 <- store (offset + 128) (Z.land (Z.shiftr fontColumn 8) 0xFF) st1;
       if pDoubleWidth then
         do a <- load offset st2;
         do st3 <- store (offset + 1) a st2;
         do b <- load (offset + 128) st3;
         store (offset + 128 + 1) b st3
       else Some st2)
    st.

(** The first loop of [Print]: one cell per character until the NUL or
    the twentieth cell.  Returns the cursor as well. *)
Fixpoint Print_text (pText : list Z) (pCursorX pCursorY : Z) (st : CSSD1306 B)
  : option (Z * CSSD1306 B) :=
  match pText with
  | [] => Some (pCursorX, st)
  | c :: rest =>
      if negb (c =? 0) && (pCursorX <? 20) then
        do st' <- DrawChar c pCursorX pCursorY default_pInverted default_pDoubleWidth st;
        Print_text rest (to_u8 (pCursorX + 1)) pCursorY st'
      else Some (pCursorX, st)
  end.

Definition Print (pText : list Z) (pCursorX pCursorY : Z)
    (pClearLine pImmediate : bool) (st : CSSD1306 B) : option (CSSD1306 B) :=
  do r <- Print_text pText pCursorX pCursorY st;
  let (x, st1) := r in
  do st2 <-
    (if pClearLine then
       for_loop_opt (Z.to_nat (20 - x)) x
         (fun i st => DrawChar 32 i pCursorY default_pInverted default_pDoubleWidth st)
         st1
     else Some st1);
  if pImmediate then WriteFramebuffer st2 else Some st2.

Definition DrawStatusLine (pSynth : CMT32SynthBase) (st : CSSD1306 B)
  : option (CSSD1306 B) :=
  if mMessageFlag st then Some st
  else
    let partStates := GetPartStates pSynth in
    do st1 <-
      for_loop_opt 5 0
        (fun i st =>
           let state := to_bool (Z.land (Z.shiftr partStates i) 1) in
           DrawChar (if state =? 0 then to_u8 (49 + i) else 0x80)
                    (to_u8 (i * 2)) 0 default_pInverted default_pDoubleWidth st)
        st;
    do st2 <-
      DrawChar (if Z.shiftr partStates 8 =? 0 then 82 else 0x80)
               10 0 default_pInverted default_pDoubleWidth st1;
    Print (sprintf_vol (GetMasterVolume pSynth)) 12 0
          default_pClearLine default_pImmediate st2.

(** One channel of [UpdatePartLevels]: the body of the loop, on the
    three arrays. *)
Definition part_step (pSynth : CMT32SynthBase) (i : Z)
    (m : list Z * list Z * list Z) : list Z * list Z * list Z :=
  let '(lv, pk, tm) := m in
  let n := Z.to_nat i in
  if negb (Z.land (Z.shiftr (GetPartStates pSynth) i) 1 =? 0) then
    let lv := <[n := to_u8 (VelocityLevel (GetVelocityForPart pSynth i))]> lv in
    if rd pk i <? rd lv i
    then (lv, <[n := rd lv i]> pk, <[n := 100]> tm)
    else (lv, pk, tm)
  else
    let lv := if 0 <? rd lv i then <[n := to_u8 (rd lv i - 1)]> lv else lv in
    if (rd tm i =? 0) && (0 <? rd pk i)
    then (lv, <[n := to_u8 (rd pk i - 1)]> pk, <[n := 3]> tm)
    else (lv, pk, <[n := to_u8 (rd tm i - 1)]> tm).

Definition UpdatePartLevels (pSynth : CMT32SynthBase) (st : CSSD1306 B)
  : CSSD1306 B :=
  let '(lv, pk, tm) :=
    for_loop 9 0 (part_step pSynth)
      (mPartLevels st, mPeakLevels st, mPeakTimes st) in
  set_meters st lv pk tm.

(** Bar and peak bytes of one channel.  A level or peak above 16 asks
    for a negative shift count, which C++ leaves undefined; [Z.shiftl]
    shifts right then. *)
Definition bar_bytes (level peak : Z) : Z * Z :=
  let '(topVal, bottomVal) :=
    if 8 <? level
    then (to_u8 (Z.shiftl 0xFF (8 - (level - 8))), 0xFF)
    else (0x00, to_u8 (Z.shiftl 0xFF (8 - level))) in
  if 8 <? peak
  then (to_u8 (Z.lor topVal (Z.shiftl 1 (8 - (peak - 8)))), bottomVal)
  else (topVal, to_u8 (Z.lor bottomVal (Z.shiftl 1 (8 - peak)))).

Definition DrawPartLevels (st : CSSD1306 B) : option (CSSD1306 B) :=
  for_loop_opt 9 0
    (fun i st =>
       let '(topVal, bottomVal) :=
         bar_bytes (rd (mPartLevels st) i) (rd (mPeakLevels st) i) in
       for_loop_opt 12 0
         (fun j st =>
            do st1 <- store (256 + i * 14 + j + 3) topVal st;
            store (256 + i * 14 + j + 128 + 3) bottomVal st1)
         st)
    st.

(** [std::fill (mFramebuffer + 1, mFramebuffer + mHeight * 16 + 1, 0)]
    followed by the transfer. *)
Definition Clear (st : CSSD1306 B) : option (CSSD1306 B) :=
  do st1 <-
    for_loop_opt (Z.to_nat (mHeight st * 16)) 1 (fun i st => store i 0 st) st;
  WriteFramebuffer st1.

Definition SetMessage (pMessage : list Z) (st : CSSD1306 B) : CSSD1306 B :=
  set_message st true (strncpy MessageTextSize pMessage).

Definition ClearMessage (st : CSSD1306 B) : CSSD1306 B :=
  set_message st false (mMessageText st).

Definition Update (pSynth : option CMT32SynthBase) (st : CSSD1306 B)
  : option (CSSD1306 B) :=
  match pSynth with
  | None => Some st
  | Some synth =>
      let st1 := UpdatePartLevels synth st in
      do st2 <- DrawPartLevels st1;
      do st3 <-
        (if mMessageFlag st2
         then Print (mMessageText st2) 0 0 true default_pImmediate st2
         else DrawStatusLine synth st2);
      WriteFramebuffer st3
  end.

End Driver.

(** ** Vocabulary of the statements

    Predicates and projections the theorems are stated with.  None of
    them is part of the driver. *)

(** Every cell of the framebuffer holds a [u8]. *)
Definition bytes (fb : list Z) : Prop := Forall (fun b => 0 <= b < 256) fb.

(** Byte index of pixel [(x, y)] after the coordinates are masked. *)
Definition pixel_byte (x y : Z) : nat :=
  Z.to_nat (y mod 64 / 8 * 128 + x mod 128 + 1).

(** Whether part [i] sounds in the sampled part states. *)
Definition part_active (pSynth : CMT32SynthBase) (i : Z) : bool :=
  negb (Z.land (Z.shiftr (GetPartStates pSynth) i) 1 =? 0).

(** What [part_step] does to the level, peak and hold timer of the
    channel it visits. *)
Definition channel_step (active : bool) (newLevel : Z) (c : Z * Z * Z) : Z * Z * Z :=
  let '(level, peak, time) := c in
  if active then
    if peak <? newLevel then (newLevel, newLevel, 100) else (newLevel, peak, time)
  else
    let level' := if 0 <? level then to_u8 (level - 1) else level in
    if (time =? 0) && (0 <? peak) then (level', to_u8 (peak - 1), 3)
    else (level', peak, to_u8 (time - 1)).

Definition meters_of (m : list Z * list Z * list Z) (i : Z) : Z * Z * Z :=
  let '(lv, pk, tm) := m in (rd lv i, rd pk i, rd tm i).

Definition meters_wf (m : list Z * list Z * list Z) : Prop :=
  let '(lv, pk, tm) := m in
  length lv = 9%nat /\ length pk = 9%nat /\ length tm = 9%nat.

(** The three meter arrays of the object. *)
Definition meters {B} (st : CSSD1306 B) : list Z * list Z * list Z :=
  (mPartLevels st, mPeakLevels st, mPeakTimes st).

(** Level, peak and hold timer [k] ticks after a channel was last
    active, when that tick set all three from the level [L]. *)
Definition decayed (L k : Z) : Z * Z * Z :=
  let level := Z.max (L - k) 0 in
  if k <=? 100 then (level, L, 100 - k)
  else
    let d := k - 101 in
    if d <? 4 * L then (level, L - (d / 4 + 1), 3 - d mod 4)
    else (level, 0, to_u8 (3 - (d - 4 * (L - 1)))).

(** First framebuffer index of the character cell at column [x], row [y]. *)
Definition cell_offset (x y : Z) : Z := y * 128 * 2 + (x * 6 + 4).

(** The framebuffer indices of a cell: six bytes in the upper page and
    the six below them. *)
Definition in_cell (x y : Z) (j : nat) : Prop :=
  cell_offset x y <= Z.of_nat j < cell_offset x y + 6 \/
  cell_offset x y + 128 <= Z.of_nat j < cell_offset x y + 128 + 6.

(** The two bytes a double-height column is stored as. *)
Definition column_lo (col : Z) : Z := Z.land col 0xFF.
Definition column_hi (col : Z) : Z := Z.land (Z.shiftr col 8) 0xFF.

(** The characters [Print] draws from column [x]: the string up to its
    NUL, cut at the twentieth cell. *)
Definition printed (pText : list Z) x : list Z :=
  take (Z.to_nat (20 - x)) (cstr pText).

(** Every character is in the catalog, which runs from the space
    character to the block character 0x80. *)
Definition printable (text : list Z) : Prop :=
  Forall (fun c => 32 <= c <= 128) text.

(** The operations of the driver that touch the framebuffer. *)
Inductive Operation : Type :=
| OpSetPixel (pX pY : Z)
| OpClearPixel (pX pY : Z)
| OpDrawChar (pChar pCursorX pCursorY : Z) (pInverted pDoubleWidth : bool)
| OpPrint (pText : list Z) (pCursorX pCursorY : Z) (pClearLine pImmediate : bool)
| OpDrawStatusLine (pSynth : CMT32SynthBase)
| OpDrawPartLevels
| OpClear
| OpUpdate (pSynth : option CMT32SynthBase).

(** Coordinates and cursors are [u8] arguments. *)
Definition operation_args (op : Operation) : Prop :=
  match op with
  | OpSetPixel x y | OpClearPixel x y => 0 <= x < 256 /\ 0 <= y < 256
  | OpDrawChar _ x y _ _ | OpPrint _ x y _ _ => 0 <= x < 256 /\ 0 <= y < 256
  | _ => True
  end.

(** Byte 0 of the framebuffer is the same in both states. *)
Definition control_kept {B} (st st' : CSSD1306 B) : Prop :=
  mFramebuffer st' !! 0%nat = mFramebuffer st !! 0%nat.

(** Everything but the framebuffer contents and the bus is the same in
    both states. *)
Definition fields_kept {B} (st st' : CSSD1306 B) : Prop :=
  meters st' = meters st /\
  mMessageFlag st' = mMessageFlag st /\
  mMessageText st' = mMessageText st /\
  mAddress st' = mAddress st /\
  mHeight st' = mHeight st /\
  length (mFramebuffer st') = length (mFramebuffer st).

(** The character [DrawStatusLine] draws for part [i], and for the rhythm
    part. *)
Definition status_char (pSynth : CMT32SynthBase) (i : Z) : Z :=
  if to_bool (Z.land (Z.shiftr (GetPartStates pSynth) i) 1) =? 0
  then to_u8 (49 + i) else 0x80.

Definition rhythm_char (pSynth : CMT32SynthBase) : Z :=
  if Z.shiftr (GetPartStates pSynth) 8 =? 0 then 82 else 0x80.

(** The cells [DrawStatusLine] draws: every second one up to 10, and 12
    to 19. *)
Definition status_cell (x : Z) : Prop :=
  (0 <= x <= 10 /\ x mod 2 = 0) \/ 12 <= x < 20.

(** Pixel [(x, y)] is lit: bit [y mod 8] of the byte that holds it. *)
Definition pixel_lit (fb : list Z) (x y : Z) : bool :=
  Z.testbit (default 0 (fb !! pixel_byte x y)) (y mod 8).

(** The bus transactions of the initialization sequence. *)
Definition init_writes (address : Z) : list (Z * list Z) :=
  map (fun byte => (address, [0x80; byte])) InitSequence.

(** The column [DrawChar] stores for the glyph column [col] at position
    [i] of the cell: inverted except in the leftmost position and in the
    two highest bits. *)
Definition drawn_column (pInverted : bool) (i col : Z) : Z :=
  if (0 <? i) && pInverted then to_u16 (Z.lxor col 0x3FFF) else col.

(** The framebuffer indices of a double-width cell. *)
Definition in_wide_cell (x y : Z) (j : nat) : Prop :=
  y * 128 * 2 + (x * 12 + 4) <= Z.of_nat j < y * 128 * 2 + (x * 12 + 4) + 12 \/
  y * 128 * 2 + (x * 12 + 4) + 128 <= Z.of_nat j < y * 128 * 2 + (x * 12 + 4) + 128 + 12.

(** Row [k] (0 at the top) of a sixteen-row meter column: the bar covers
    the lowest [level] rows and the peak marker is the single row [peak]
    rows up from the bottom. *)
Definition bar_row (level peak k : Z) : bool :=
  (16 - level <=? k) || (k =? 16 - peak).


(** What [Update] needs of its overlay: a message within the catalog, or
    a volume that fits the three digits of the status text. *)
Definition overlay_drawable {B} (st : CSSD1306 B) (pSynth : CMT32SynthBase) : Prop :=
  if mMessageFlag st then printable (printed (mMessageText st) 0)
  else 0 <= GetMasterVolume pSynth < 256.

(** The cells of the first text row that the active overlay draws. *)
Definition overlay_cell {B} (st : CSSD1306 B) (x : Z) : Prop :=
  if mMessageFlag st then 0 <= x < 20 else status_cell x.

(** The bytes [WriteFramebuffer] sends: the first [mHeight * 16 + 1] of
    the framebuffer. *)
Definition transferred {B} (st : CSSD1306 B) : list Z :=
  take (Z.to_nat (mHeight st * 16 + 1)) (mFramebuffer st).

Section Vocabulary.

Variable Font6x8 : list CharData.
Variable VelocityLevel : Z -> Z.
Context {B : Type} `{I2CMaster B}.
Implicit Types (st : CSSD1306 B) (fb : list Z) (c x y i : Z).

(** The byte holding pixel [(x, y)] is the same after [SetPixel] then
    [ClearPixel] as before them. *)
Definition set_clear_restores st x y : Prop :=
  forall st1 st2,
    SetPixel x y st = Some st1 -> ClearPixel x y st1 = Some st2 ->
    mFramebuffer st2 !! pixel_byte x y = mFramebuffer st !! pixel_byte x y.

(** Results of the [Write] calls that send the command bytes [cmds],
    in order. *)
Fixpoint write_results (bus : B) (address : Z) (cmds : list Z) : list Z :=
  match cmds with
  | [] => []
  | c :: rest =>
      let r := Write bus address [0x80; c] in
      snd r :: write_results (fst r) address rest
  end.

(** A failed write among those of [Initialize] makes it return false. *)
Definition init_failure_surfaced st : Prop :=
  Exists (fun r => r < 0) (write_results (mI2CMaster st) (mAddress st) InitSequence) ->
  fst (Initialize st) = false.

Definition level_of (pSynth : CMT32SynthBase) (i : Z) : Z :=
  to_u8 (VelocityLevel (GetVelocityForPart pSynth i)).

(** Successive updates of the meters, one per sampled synth state. *)
Definition ticks (synths : list CMT32SynthBase) st : CSSD1306 B :=
  fold_left (fun s sy => UpdatePartLevels VelocityLevel sy s) synths st.

(** After the hold, any [period] further silent ticks lower the peak of
    channel [i] by one (down to zero). *)
Definition peak_cadence (period : nat) st i : Prop :=
  forall quiet more : list CMT32SynthBase,
    Forall (fun sy => part_active sy i = false) quiet ->
    Forall (fun sy => part_active sy i = false) more ->
    (100 <= length quiet)%nat -> length more = period ->
    rd (mPeakLevels (ticks (quiet ++ more) st)) i
    = Z.max (rd (mPeakLevels (ticks quiet st)) i - 1) 0.

(** The cell at [(x, y)] holds the plain double-height glyph of [c]. *)
Definition cell_shows fb c x y : Prop :=
  exists cols,
    FontDouble Font6x8 !! Z.to_nat (to_u8 (c - 32)) = Some cols /\
    forall i, 0 <= i < 6 ->
      fb !! Z.to_nat (cell_offset x y + i) = Some (column_lo (rd cols i)) /\
      fb !! Z.to_nat (cell_offset x y + 128 + i) = Some (column_hi (rd cols i)).

(** The cells from [(x, y)] rightwards hold the characters of [text]. *)
Definition text_shows fb (text : list Z) x y : Prop :=
  forall (j : nat) c, text !! j = Some c -> cell_shows fb c (x + Z.of_nat j) y.

Definition run_operation (op : Operation) st : option (CSSD1306 B) :=
  match op with
  | OpSetPixel x y => SetPixel x y st
  | OpClearPixel x y => ClearPixel x y st
  | OpDrawChar c x y inv dw => DrawChar Font6x8 c x y inv dw st
  | OpPrint text x y cl imm => Print Font6x8 text x y cl imm st
  | OpDrawStatusLine synth => DrawStatusLine Font6x8 synth st
  | OpDrawPartLevels => DrawPartLevels st
  | OpClear => Clear st
  | OpUpdate synth => Update Font6x8 VelocityLevel synth st
  end.

Fixpoint run_operations (ops : list Operation) st : option (CSSD1306 B) :=
  match ops with
  | [] => Some st
  | op :: rest => do st' <- run_operation op st; run_operations rest st'
  end.

(** The first text row holds the status line of [pSynth]. *)
Definition status_shown fb (pSynth : CMT32SynthBase) : Prop :=
  (forall i, 0 <= i < 5 -> cell_shows fb (status_char pSynth i) (i * 2) 0) /\
  cell_shows fb (rhythm_char pSynth) 10 0 /\
  text_shows fb (sprintf_vol (GetMasterVolume pSynth)) 12 0.

(** The first text row holds [text] from its first cell, blanks after. *)
Definition message_shown fb (text : list Z) : Prop :=
  text_shows fb (printed text 0) 0 0 /\
  forall x, Z.of_nat (length (printed text 0)) <= x < 20 -> cell_shows fb 32 x 0.

(** The status row as the scenario of the spec describes it: parts 1
    to 5 in cells 0 to 4. *)
Definition status_in_adjacent_cells fb : Prop :=
  cell_shows fb 0x80 0 0 /\ cell_shows fb 0x80 2 0 /\
  cell_shows fb 50 1 0 /\ cell_shows fb 52 3 0 /\
  cell_shows fb 53 4 0 /\
  cell_shows fb 82 10 0 /\
  text_shows fb [124; 118; 111; 108; 58; 32; 55; 53] 12 0.

(** Successive calls of [Update], one per sampled synth state. *)
Fixpoint updates (synths : list CMT32SynthBase) st : option (CSSD1306 B) :=
  match synths with
  | [] => Some st
  | sy :: rest =>
      do st' <- Update Font6x8 VelocityLevel (Some sy) st;
      updates rest st'
  end.


End Vocabulary.

(** ** Instances used to run the driver

    A catalog of 97 glyphs (space up to the block character 0x80) with
    six-bit rows, a velocity scale of 16/127 in integer arithmetic, and
    two buses: one that records what it is sent and one on which every
    write fails. *)

Definition sample_glyph (k : Z) : CharData :=
  if k =? 96 then replicate 8 63
  else map (fun r => (k * 7 + r * 13 + 1) mod 64) (seqZ 0 8).

Definition SampleFont : list CharData := map sample_glyph (seqZ 0 97).

Definition sample_level (v : Z) : Z := v * 16 / 127.

Definition RecordingBus : Type := list (Z * list Z).

#[global] Instance recording_bus : I2CMaster RecordingBus :=
  fun log address bytes => (log ++ [(address, bytes)], Z.of_nat (length bytes)).

Inductive FailingBus : Type := failing_bus (attempts : nat).

#[global] Instance failing_bus_write : I2CMaster FailingBus :=
  fun b _ _ => match b with failing_bus n => (failing_bus (Datatypes.S n), -1) end.

Definition sample_display : CSSD1306 RecordingBus :=
  CSSD1306_new 1025 [] 0x3C 32.

Definition dead_display : CSSD1306 FailingBus :=
  CSSD1306_new 1025 (failing_bus 0) 0x3C 32.

(** The sample display with pixel (0, 0) lit. *)
Definition lit_display : CSSD1306 RecordingBus :=
  set_fb sample_display (<[1%nat := 1]> (mFramebuffer sample_display)).

Definition loud_synth : CMT32SynthBase :=
  {| GetPartStates := 1; GetVelocityForPart := fun _ => 127; GetMasterVolume := 100 |}.

Definition silent_synth : CMT32SynthBase :=
  {| GetPartStates := 0; GetVelocityForPart := fun _ => 0; GetMasterVolume := 100 |}.

Definition scenario_synth : CMT32SynthBase :=
  {| GetPartStates := 5; GetVelocityForPart := fun _ => 64; GetMasterVolume := 75 |}.

(** "Loading..." *)
Definition loading : list Z := [76; 111; 97; 100; 105; 110; 103; 46; 46; 46].

(** ** Concrete runs *)

(** The letter L: a vertical stroke in the leftmost column and a foot. *)
Example SingleColumn_L :
  map (SingleColumn [32; 32; 32; 32; 32; 32; 62; 0]) (seqZ 0 6) = [127; 64; 64; 64; 64; 0].
Proof. reflexivity. Qed.

Example DoubleColumn_L :
  map (DoubleColumn [32; 32; 32; 32; 32; 32; 62; 0]) (seqZ 0 6)
  = [0x3FFF; 0x3000; 0x3000; 0x3000; 0x3000; 0].
Proof. reflexivity. Qed.

(** "|vol: 75" and "|vol:100" *)
Example sprintf_vol_75 : sprintf_vol 75 = [124; 118; 111; 108; 58; 32; 55; 53].
Proof. reflexivity. Qed.

Example sprintf_vol_100 : sprintf_vol 100 = [124; 118; 111; 108; 58; 49; 48; 48].
Proof. reflexivity. Qed.

(** Bar and peak bytes: silence, a low bar under a high peak, full scale. *)
Example bar_bytes_silent : bar_bytes 0 0 = (0, 0).
Proof. reflexivity. Qed.

Example bar_bytes_mixed : bar_bytes 4 10 = (0x40, 0xF0).
Proof. reflexivity. Qed.

Example bar_bytes_full : bar_bytes 16 16 = (0xFF, 0xFF).
Proof. reflexivity. Qed.

(** The thirty commands reach the bus in order, each after 0x80. *)
Example Initialize_log :
  Initialize sample_display
  = (true, set_bus sample_display (map (fun byte => (0x3C, [0x80; byte])) InitSequence)).
Proof. reflexivity. Qed.

(** Pixel (130, 70) is pixel (2, 6): bit 6 of byte 3. *)
Example SetPixel_wraps :
  SetPixel 130 70 sample_display
  = Some (set_fb sample_display (<[3%nat := 64]> (mFramebuffer sample_display))).
Proof. vm_compute. reflexivity. Qed.

(** A level of 16: the peak drops on ticks 101 and 105. *)
Example decayed_ticks :
  map (decayed 16) [0; 1; 100; 101; 104; 105]
  = [(16, 16, 100); (15, 16, 99); (0, 16, 0); (0, 15, 3); (0, 15, 0); (0, 14, 3)].
Proof. reflexivity. Qed.

(** ** Loop reasoning *)

Lemma for_loop_inv {S : Type} (Inv : Z -> S -> Prop) (body : Z -> S -> S) :
  forall (n : nat) (lo : Z) (s : S),
    Inv lo s ->
    (forall k s', lo <= k < lo + Z.of_nat n -> Inv k s' -> Inv (k + 1) (body k s')) ->
    Inv (lo + Z.of_nat n) (for_loop n lo body s).
Proof.
  induction n as [|n IH]; intros lo s H0 Hstep; simpl for_loop.
  - replace (lo + Z.of_nat 0) with lo by lia. exact H0.
  - replace (lo + Z.of_nat (Datatypes.S n)) with ((lo + 1) + Z.of_nat n) by lia.
    apply IH.
    + apply Hstep; [lia | exact H0].
    + intros k s' Hk. apply Hstep. lia.
Qed.

Lemma for_loop_opt_inv {S : Type} (Inv : Z -> S -> Prop) (body : Z -> S -> option S) :
  forall (n : nat) (lo : Z) (s : S),
    Inv lo s ->
    (forall k s', lo <= k < lo + Z.of_nat n -> Inv k s' ->
                  exists s'', body k s' = Some s'' /\ Inv (k + 1) s'') ->
    exists s', for_loop_opt n lo body s = Some s' /\ Inv (lo + Z.of_nat n) s'.
Proof.
  induction n as [|n IH]; intros lo s H0 Hstep; simpl for_loop_opt.
  - exists s. split; [reflexivity|]. replace (lo + Z.of_nat 0) with lo by lia. exact H0.
  - destruct (Hstep lo s) as (s1 & Hb & H1); [lia | exact H0 |].
    rewrite Hb.
    replace (lo + Z.of_nat (Datatypes.S n)) with ((lo + 1) + Z.of_nat n) by lia.
    apply IH; [exact H1|].
    intros k s' Hk. apply Hstep. lia.
Qed.

(** Preservation through a loop that is only known to have succeeded. *)
Lemma for_loop_opt_pres {S : Type} (P : S -> Prop) (body : Z -> S -> option S) :
  forall (n : nat) (lo : Z) (s s' : S),
    (forall k s1 s2, lo <= k < lo + Z.of_nat n -> body k s1 = Some s2 -> P s1 -> P s2) ->
    for_loop_opt n lo body s = Some s' -> P s -> P s'.
Proof.
  induction n as [|n IH]; intros lo s s' Hb H HP; simpl in H.
  - inversion H; subst; exact HP.
  - destruct (body lo s) as [s1|] eqn:E; [|discriminate].
    eapply (IH (lo + 1)); [|exact H|].
    + intros k s2 s3 Hk. apply Hb. lia.
    + eapply Hb; [|exact E|exact HP]. lia.
Qed.

(** ** Bit-level facts *)

Lemma testbit_to_u8 z i : 0 <= i ->
  Z.testbit (to_u8 z) i = (i <? 8) && Z.testbit z i.
Proof.
  intros Hi. unfold to_u8. change 256 with (2 ^ 8).
  destruct (Z.ltb_spec i 8).
  - rewrite Z.mod_pow2_bits_low by lia. reflexivity.
  - rewrite Z.mod_pow2_bits_high by lia. reflexivity.
Qed.

Lemma testbit_to_u16 z i : 0 <= i ->
  Z.testbit (to_u16 z) i = (i <? 16) && Z.testbit z i.
Proof.
  intros Hi. unfold to_u16. change 65536 with (2 ^ 16).
  destruct (Z.ltb_spec i 16).
  - rewrite Z.mod_pow2_bits_low by lia. reflexivity.
  - rewrite Z.mod_pow2_bits_high by lia. reflexivity.
Qed.

Lemma testbit_one i : Z.testbit 1 i = (i =? 0).
Proof.
  destruct (Z.eqb_spec i 0) as [->|Hne]; [reflexivity|].
  destruct (Z.lt_ge_cases i 0).
  - apply Z.testbit_neg_r; lia.
  - change 1 with (2 ^ 0). apply Z.pow2_bits_false. lia.
Qed.

(** Bit [i] of [((x >> b) & 1) << k]. *)
Lemma testbit_pick x b k i : 0 <= i -> 0 <= b -> 0 <= k ->
  Z.testbit (Z.shiftl (Z.land (Z.shiftr x b) 1) k) i = (i =? k) && Z.testbit x b.
Proof.
  intros Hi Hb Hk.
  rewrite Z.shiftl_spec by lia.
  destruct (Z.eqb_spec i k) as [->|Hne].
  - rewrite Z.land_spec, testbit_one, Z.shiftr_spec by lia.
    replace (k - k) with 0 by lia. simpl. rewrite andb_true_r.
    replace (0 + b) with b by lia. reflexivity.
  - destruct (Z.lt_ge_cases i k).
    + rewrite Z.testbit_neg_r by lia. reflexivity.
    + rewrite Z.land_spec, testbit_one.
      destruct (Z.eqb_spec (i - k) 0); [lia|]. rewrite andb_false_r. reflexivity.
Qed.

Lemma to_bool_bit x : to_bool (Z.land x 1) = Z.land x 1.
Proof.
  unfold to_bool.
  assert (H : Z.land x 1 = 0 \/ Z.land x 1 = 1).
  { pose proof (Z.land_ones x 1) as E. change (Z.ones 1) with 1 in E.
    rewrite E by lia. change (2 ^ 1) with 2. pose proof (Z.mod_pos_bound x 2). lia. }
  destruct H as [-> | ->]; reflexivity.
Qed.

Lemma half_even k : k * 2 / 2 = k.
Proof. symmetry. apply Z.div_unique with 0; lia. Qed.

Lemma half_odd k : (k * 2 + 1) / 2 = k.
Proof. symmetry. apply Z.div_unique with 1; lia. Qed.

Lemma lookup_map_seqZ (f : Z -> Z) (n j : Z) : 0 <= j < n ->
  map f (seqZ 0 n) !! Z.to_nat j = Some (f j).
Proof.
  intros Hj.
  change (map f (seqZ 0 n)) with (f <$> seqZ 0 n).
  rewrite list_lookup_fmap, (lookup_seqZ_lt 0 n (Z.to_nat j)) by lia. simpl.
  do 2 f_equal. lia.
Qed.

Lemma rd_map_seqZ (f : Z -> Z) (n j : Z) : 0 <= j < n ->
  rd (map f (seqZ 0 n)) j = f j.
Proof. intros Hj. unfold rd. rewrite lookup_map_seqZ by lia. reflexivity. Qed.

(** ** Font conversion *)

Lemma SingleColumn_testbit (g : CharData) (j r : Z) :
  0 <= j <= 5 -> 0 <= r ->
  Z.testbit (SingleColumn g j) r = (r <? 8) && Z.testbit (rd g r) (5 - j).
Proof.
  intros Hj Hr. unfold SingleColumn.
  assert (Hbit : to_u8 (5 - j) = 5 - j) by (unfold to_u8; apply Z.mod_small; lia).
  rewrite Hbit.
  revert r Hr.
  apply (for_loop_inv
           (fun k col => forall r, 0 <= r ->
              Z.testbit col r = (r <? k) && Z.testbit (rd g r) (5 - j)) _ 8 0 0).
  - intros r Hr. rewrite Z.bits_0. destruct (Z.ltb_spec r 0); [lia | reflexivity].
  - intros k col Hk IH r Hr.
    rewrite testbit_to_u8, Z.lor_spec, testbit_pick, IH by lia.
    destruct (Z.ltb_spec r 8), (Z.ltb_spec r k), (Z.ltb_spec r (k + 1)),
             (Z.eqb_spec r k); subst; simpl; try lia;
      rewrite ?orb_false_r, ?andb_false_r; reflexivity.
Qed.

Lemma DoubleColumn_testbit (g : CharData) (j m : Z) :
  0 <= m ->
  Z.testbit (DoubleColumn g j) m = (m <? 16) && Z.testbit (SingleColumn g j) (m / 2).
Proof.
  intros Hm. unfold DoubleColumn.
  set (s := SingleColumn g j).
  revert m Hm.
  apply (for_loop_inv
           (fun k col => forall m, 0 <= m ->
              Z.testbit col m = (m <? k * 2) && Z.testbit s (m / 2)) _ 8 0 0).
  - intros m Hm. rewrite Z.bits_0. destruct (Z.ltb_spec m (0 * 2)); [lia | reflexivity].
  - intros k col Hk IH m Hm.
    rewrite to_bool_bit.
    rewrite testbit_to_u16, !Z.lor_spec, !testbit_pick, IH by lia.
    destruct (Z.ltb_spec m 16), (Z.ltb_spec m (k * 2)), (Z.ltb_spec m ((k + 1) * 2)),
             (Z.eqb_spec m (k * 2)), (Z.eqb_spec m (k * 2 + 1));
      subst; simpl; try lia;
      rewrite ?(half_even k), ?(half_odd k), ?orb_false_r, ?andb_false_r; reflexivity.
Qed.

Lemma row_of_columns_testbit (cols : list Z) (r b : Z) :
  0 <= r -> 0 <= b ->
  Z.testbit (row_of_columns cols r) b = (b <? 6) && Z.testbit (rd cols (5 - b)) r.
Proof.
  intros Hr Hb. unfold row_of_columns.
  assert (G : forall b, 0 <= b ->
            Z.testbit
              (for_loop 6 0
                 (fun j row =>
                    Z.lor row (Z.shiftl (Z.land (Z.shiftr (rd cols j) r) 1) (5 - j))) 0) b
            = (6 - (0 + Z.of_nat 6) <=? b) && (b <? 6) && Z.testbit (rd cols (5 - b)) r).
  { apply (for_loop_inv
             (fun k row => forall b, 0 <= b ->
                Z.testbit row b
                = (6 - k <=? b) && (b <? 6) && Z.testbit (rd cols (5 - b)) r) _ 6 0 0).
    - intros b' Hb'. rewrite Z.bits_0.
      destruct (Z.leb_spec (6 - 0) b'), (Z.ltb_spec b' 6); simpl; try lia; reflexivity.
    - intros k row Hk IH b' Hb'.
      rewrite Z.lor_spec, testbit_pick, IH by lia.
      destruct (Z.leb_spec (6 - k) b'), (Z.leb_spec (6 - (k + 1)) b'), (Z.ltb_spec b' 6),
               (Z.eqb_spec b' (5 - k)); subst; simpl; try lia;
        rewrite ?orb_false_r, ?andb_false_r; try reflexivity.
      replace (5 - (5 - k)) with k by lia. reflexivity. }
  rewrite G by lia. change (6 - (0 + Z.of_nat 6)) with 0.
  destruct (Z.leb_spec 0 b); [reflexivity | lia].
Qed.

Lemma glyph_row_bound (g : CharData) (r : Z) :
  Forall (fun x => 0 <= x < 64) g -> 0 <= rd g r < 64.
Proof.
  intros Hg. unfold rd.
  destruct (g !! Z.to_nat r) as [x|] eqn:E; cbn; [|lia].
  eapply Forall_lookup_1 in Hg; eauto.
Qed.

(** Whatever the row bytes hold, the round trip keeps their low six
    bits: the two high bits of a row are outside the glyph. *)
Lemma row_of_columns_low_bits (g : CharData) (r : Z) :
  0 <= r < 8 ->
  row_of_columns (map (SingleColumn g) (seqZ 0 6)) r = Z.land (rd g r) 0x3F.
Proof.
  intros Hr. apply Z.bits_inj'. intros b Hb.
  rewrite row_of_columns_testbit, Z.land_spec by lia.
  change 0x3F with (Z.ones 6).
  destruct (Z.ltb_spec b 6); cbn [andb].
  - rewrite rd_map_seqZ, SingleColumn_testbit by lia.
    rewrite Z.ones_spec_low, andb_true_r by lia.
    destruct (Z.ltb_spec r 8); [|lia]. cbn [andb]. f_equal. lia.
  - rewrite Z.ones_spec_high, andb_false_r by lia. reflexivity.
Qed.

Lemma row_of_columns_SingleColumn (g : CharData) (r : Z) :
  Forall (fun x => 0 <= x < 64) g -> 0 <= r < 8 ->
  row_of_columns (map (SingleColumn g) (seqZ 0 6)) r = rd g r.
Proof.
  intros Hg Hr. rewrite row_of_columns_low_bits by exact Hr.
  pose proof (glyph_row_bound g r Hg) as Hb6.
  change 0x3F with (Z.ones 6). rewrite Z.land_ones by lia.
  apply Z.mod_small. exact Hb6.
Qed.

Lemma rows_of_columns_SingleColumn (g : CharData) :
  glyph_wf g -> rows_of_columns (map (SingleColumn g) (seqZ 0 6)) = g.
Proof.
  intros [Hlen Hrows]. unfold rows_of_columns.
  apply list_eq. intros i.
  change (map ?f ?l) with (f <$> l) at 1.
  rewrite list_lookup_fmap.
  destruct (decide (i < 8)%nat) as [Hi|Hi].
  - rewrite lookup_seqZ_lt by lia. cbn [fmap option_fmap option_map].
    rewrite Z.add_0_l.
    rewrite row_of_columns_SingleColumn by (auto; lia).
    unfold rd. rewrite Nat2Z.id.
    destruct (lookup_lt_is_Some_2 g i) as [x Hx]; [lia|].
    rewrite Hx. reflexivity.
  - rewrite lookup_seqZ_ge by lia.
    rewrite lookup_ge_None_2 by lia. reflexivity.
Qed.

(** C5. For every glyph of the catalog, transposing its single-height
    column table back to rows gives the glyph's eight rows again, and in
    its double-height table bits [2r] and [2r+1] of each 16-bit column are
    bit [r] of the single-height column. *)
Theorem font_tables_transpose (Font6x8 : list CharData) (c : nat) (g : CharData) :
  Font6x8 !! c = Some g -> glyph_wf g ->
  exists single double : list Z,
    FontSingle Font6x8 !! c = Some single /\
    FontDouble Font6x8 !! c = Some double /\
    rows_of_columns single = g /\
    forall j r, 0 <= j < 6 -> 0 <= r < 8 ->
      Z.testbit (rd double j) (2 * r) = Z.testbit (rd single j) r /\
      Z.testbit (rd double j) (2 * r + 1) = Z.testbit (rd single j) r.
Proof.
  intros Hg Hwf.
  exists (map (SingleColumn g) (seqZ 0 6)), (map (DoubleColumn g) (seqZ 0 6)).
  unfold FontSingle, FontDouble, Font.
  change (map ?f Font6x8) with (f <$> Font6x8).
  rewrite !list_lookup_fmap, Hg. cbn [fmap option_fmap option_map].
  repeat split; try reflexivity.
  - apply rows_of_columns_SingleColumn, Hwf.
  - rewrite !rd_map_seqZ, DoubleColumn_testbit by lia.
    destruct (Z.ltb_spec (2 * r) 16); [|lia]. cbn [andb].
    replace (2 * r) with (r * 2) by lia. rewrite half_even. reflexivity.
  - rewrite !rd_map_seqZ, DoubleColumn_testbit by lia.
    destruct (Z.ltb_spec (2 * r + 1) 16); [|lia]. cbn [andb].
    replace (2 * r + 1) with (r * 2 + 1) by lia. rewrite half_odd. reflexivity.
Qed.

(** ** Framebuffer primitives *)

Lemma forallb_range (P : Z -> bool) (n : Z) :
  forallb P (seqZ 0 n) = true -> forall z, 0 <= z < n -> P z = true.
Proof.
  intros Hall z Hz. rewrite forallb_forall in Hall. apply Hall.
  apply list_elem_of_In, elem_of_seqZ. lia.
Qed.

Lemma mask_x (x : Z) : 0 <= x < 256 -> to_u8 (Z.land x 0x7f) = x mod 128.
Proof.
  intros Hx. apply Z.eqb_eq.
  apply (forallb_range (fun x => to_u8 (Z.land x 0x7f) =? x mod 128) 256); [|exact Hx].
  vm_compute. reflexivity.
Qed.

Lemma mask_y_page (y : Z) : 0 <= y < 256 ->
  Z.shiftl (Z.land (to_u8 (Z.land y 0x3f)) 0xf8) 4 = y mod 64 / 8 * 128.
Proof.
  intros Hy. apply Z.eqb_eq.
  apply (forallb_range
           (fun y => Z.shiftl (Z.land (to_u8 (Z.land y 0x3f)) 0xf8) 4 =? y mod 64 / 8 * 128)
           256); [|exact Hy].
  vm_compute. reflexivity.
Qed.

Lemma mask_y_bit (y : Z) : 0 <= y < 256 ->
  Z.land (to_u8 (Z.land y 0x3f)) 7 = y mod 8.
Proof.
  intros Hy. apply Z.eqb_eq.
  apply (forallb_range (fun y => Z.land (to_u8 (Z.land y 0x3f)) 7 =? y mod 8) 256);
    [|exact Hy].
  vm_compute. reflexivity.
Qed.

Lemma u8_testbit_high (v i : Z) : 0 <= v < 256 -> 8 <= i -> Z.testbit v i = false.
Proof.
  intros Hv Hi. rewrite <- (Z.mod_small v (2 ^ 8)) by (change (2 ^ 8) with 256; lia).
  apply Z.mod_pow2_bits_high. lia.
Qed.

Lemma to_u8_setbit (v b : Z) : 0 <= v < 256 -> 0 <= b < 8 ->
  to_u8 (Z.lor v (Z.shiftl 1 b)) = Z.setbit v b.
Proof.
  intros Hv Hb. change (Z.lor v (Z.shiftl 1 b)) with (Z.setbit v b).
  apply Z.bits_inj'. intros i Hi.
  rewrite testbit_to_u8 by lia.
  destruct (Z.ltb_spec i 8); [reflexivity|]. cbn [andb].
  rewrite Z.setbit_eqb by lia.
  rewrite (u8_testbit_high v i) by lia.
  destruct (Z.eqb_spec b i); [lia | reflexivity].
Qed.

Lemma to_u8_clearbit (v b : Z) : 0 <= v < 256 -> 0 <= b < 8 ->
  to_u8 (Z.land v (Z.lnot (Z.shiftl 1 b))) = Z.clearbit v b.
Proof.
  intros Hv Hb.
  replace (Z.land v (Z.lnot (Z.shiftl 1 b))) with (Z.clearbit v b)
    by (unfold Z.clearbit; apply Z.ldiff_land).
  apply Z.bits_inj'. intros i Hi.
  rewrite testbit_to_u8 by lia.
  destruct (Z.ltb_spec i 8); [reflexivity|]. cbn [andb].
  rewrite Z.clearbit_eqb by lia.
  rewrite (u8_testbit_high v i) by lia. reflexivity.
Qed.

Lemma setbit_u8 (v b : Z) : 0 <= v < 256 -> 0 <= b < 8 -> 0 <= Z.setbit v b < 256.
Proof.
  intros Hv Hb. rewrite <- to_u8_setbit by lia. apply Z.mod_pos_bound. lia.
Qed.

Lemma clearbit_u8 (v b : Z) : 0 <= v < 256 -> 0 <= b < 8 -> 0 <= Z.clearbit v b < 256.
Proof.
  intros Hv Hb. rewrite <- to_u8_clearbit by lia. apply Z.mod_pos_bound. lia.
Qed.

Section Framebuffer.
Context {B : Type}.
Implicit Types (st : CSSD1306 B) (i v : Z).

Lemma store_ok st i v :
  0 <= i < Z.of_nat (length (mFramebuffer st)) ->
  store i v st = Some (set_fb st (<[Z.to_nat i := v]> (mFramebuffer st))).
Proof. intros Hi. unfold store. rewrite decide_True by exact Hi. reflexivity. Qed.

Lemma store_inv st st' i v :
  store i v st = Some st' ->
  0 <= i < Z.of_nat (length (mFramebuffer st)) /\
  st' = set_fb st (<[Z.to_nat i := v]> (mFramebuffer st)).
Proof.
  unfold store. intros Hs. destruct (decide _) as [Hi|]; [|discriminate].
  inversion Hs. auto.
Qed.

Lemma load_ok st i :
  0 <= i -> load i st = mFramebuffer st !! Z.to_nat i.
Proof. intros Hi. unfold load. rewrite decide_True by exact Hi. reflexivity. Qed.

Lemma pixel_index_eq x y : 0 <= x < 256 -> 0 <= y < 256 ->
  pixel_index (to_u8 (Z.land x 0x7f)) (to_u8 (Z.land y 0x3f))
  = y mod 64 / 8 * 128 + x mod 128 + 1.
Proof.
  intros Hx Hy. unfold pixel_index. rewrite mask_y_page, mask_x by lia. reflexivity.
Qed.

Lemma pixel_index_range x y :
  1 <= y mod 64 / 8 * 128 + x mod 128 + 1 <= 1024.
Proof.
  pose proof (Z.mod_pos_bound x 128). pose proof (Z.mod_pos_bound y 64).
  assert (0 <= y mod 64 / 8 < 8).
  { split; [apply Z.div_pos; lia|]. apply Z.div_lt_upper_bound; lia. }
  lia.
Qed.

End Framebuffer.

Lemma clearbit_setbit (v b : Z) : 0 <= b -> Z.clearbit (Z.setbit v b) b = Z.clearbit v b.
Proof.
  intros Hb. apply Z.bits_inj'. intros i Hi.
  rewrite !Z.clearbit_eqb, Z.setbit_eqb by lia.
  destruct (Z.eqb_spec b i); cbn; rewrite ?andb_false_r, ?andb_true_r; reflexivity.
Qed.

Lemma clearbit_unset (v b : Z) : 0 <= b -> Z.testbit v b = false -> Z.clearbit v b = v.
Proof.
  intros Hb Hv. apply Z.bits_inj'. intros i Hi.
  rewrite Z.clearbit_eqb by lia.
  destruct (Z.eqb_spec b i) as [E|]; [subst i; rewrite Hv|]; cbn;
    rewrite ?andb_true_r; reflexivity.
Qed.

Lemma setbit_setbit (v b : Z) : 0 <= b -> Z.setbit (Z.setbit v b) b = Z.setbit v b.
Proof.
  intros Hb. apply Z.bits_inj'. intros i Hi.
  rewrite !Z.setbit_eqb by lia.
  destruct (Z.eqb_spec b i); reflexivity.
Qed.

Section Pixels.
Context {B : Type}.
Implicit Types (st : CSSD1306 B) (x y : Z).

Lemma SetPixel_spec st x y old :
  0 <= x < 256 -> 0 <= y < 256 -> 0 <= old < 256 ->
  mFramebuffer st !! pixel_byte x y = Some old ->
  SetPixel x y st
  = Some (set_fb st (<[pixel_byte x y := Z.setbit old (y mod 8)]> (mFramebuffer st))).
Proof.
  intros Hx Hy Hold Hl. unfold SetPixel.
  pose proof (pixel_index_range x y) as Hr.
  rewrite pixel_index_eq, mask_y_bit by lia.
  rewrite load_ok by lia. fold (pixel_byte x y). rewrite Hl.
  pose proof (Z.mod_pos_bound y 8).
  rewrite to_u8_setbit by lia.
  apply store_ok. apply lookup_lt_Some in Hl. unfold pixel_byte in Hl. lia.
Qed.

Lemma ClearPixel_spec st x y old :
  0 <= x < 256 -> 0 <= y < 256 -> 0 <= old < 256 ->
  mFramebuffer st !! pixel_byte x y = Some old ->
  ClearPixel x y st
  = Some (set_fb st (<[pixel_byte x y := Z.clearbit old (y mod 8)]> (mFramebuffer st))).
Proof.
  intros Hx Hy Hold Hl. unfold ClearPixel.
  pose proof (pixel_index_range x y) as Hr.
  rewrite pixel_index_eq, mask_y_bit by lia.
  rewrite load_ok by lia. fold (pixel_byte x y). rewrite Hl.
  pose proof (Z.mod_pos_bound y 8).
  rewrite to_u8_clearbit by lia.
  apply store_ok. apply lookup_lt_Some in Hl. unfold pixel_byte in Hl. lia.
Qed.

Lemma pixel_byte_lt x y (fb : list Z) :
  (1025 <= length fb)%nat -> (pixel_byte x y < length fb)%nat.
Proof.
  intros Hlen. unfold pixel_byte. pose proof (pixel_index_range x y). lia.
Qed.

(** C6. Whatever the coordinates, [SetPixel] and [ClearPixel] mask them
    to [x mod 128] and [y mod 64] and succeed; they set, respectively
    clear, bit [y mod 8] of the byte at index
    [(y mod 64) / 8 * 128 + x mod 128 + 1] and leave every other byte of
    the framebuffer (and the rest of the object) as it was. *)
Theorem pixel_ops_touch_one_bit st x y :
  0 <= x < 256 -> 0 <= y < 256 ->
  bytes (mFramebuffer st) -> (1025 <= length (mFramebuffer st))%nat ->
  exists old,
    mFramebuffer st !! pixel_byte x y = Some old /\
    SetPixel x y st
    = Some (set_fb st (<[pixel_byte x y := Z.setbit old (y mod 8)]> (mFramebuffer st))) /\
    ClearPixel x y st
    = Some (set_fb st (<[pixel_byte x y := Z.clearbit old (y mod 8)]> (mFramebuffer st))) /\
    (forall b, 0 <= b ->
       Z.testbit (Z.setbit old (y mod 8)) b = (y mod 8 =? b) || Z.testbit old b) /\
    (forall b, 0 <= b ->
       Z.testbit (Z.clearbit old (y mod 8)) b = negb (y mod 8 =? b) && Z.testbit old b) /\
    (forall k v, k <> pixel_byte x y ->
       <[pixel_byte x y := v]> (mFramebuffer st) !! k = mFramebuffer st !! k).
Proof.
  intros Hx Hy Hb Hlen.
  destruct (lookup_lt_is_Some_2 (mFramebuffer st) (pixel_byte x y)) as [old Hold];
    [apply pixel_byte_lt; exact Hlen|].
  assert (Ho : 0 <= old < 256) by (eapply Forall_lookup_1 in Hb; eauto).
  pose proof (Z.mod_pos_bound y 8).
  exists old. repeat split.
  - exact Hold.
  - apply SetPixel_spec; assumption.
  - apply ClearPixel_spec; assumption.
  - intros b Hb0. apply Z.setbit_eqb. lia.
  - intros b Hb0. rewrite Z.clearbit_eqb by lia. apply andb_comm.
  - intros k v Hk. apply list_lookup_insert_ne. congruence.
Qed.

(** C4, as the code has it.  [SetPixel] then [ClearPixel] leaves the
    pixel's byte at its earlier value with bit [y mod 8] cleared, so the
    byte is restored whenever the pixel was unlit before [SetPixel]; and
    a second [SetPixel] changes nothing. *)
Theorem set_clear_and_set_twice st x y :
  0 <= x < 256 -> 0 <= y < 256 ->
  bytes (mFramebuffer st) -> (1025 <= length (mFramebuffer st))%nat ->
  exists old st1 st2,
    mFramebuffer st !! pixel_byte x y = Some old /\
    SetPixel x y st = Some st1 /\
    ClearPixel x y st1 = Some st2 /\
    mFramebuffer st2 !! pixel_byte x y = Some (Z.clearbit old (y mod 8)) /\
    (Z.testbit old (y mod 8) = false -> set_clear_restores st x y) /\
    SetPixel x y st1 = Some st1.
Proof.
  intros Hx Hy Hb Hlen.
  destruct (lookup_lt_is_Some_2 (mFramebuffer st) (pixel_byte x y)) as [old Hold];
    [apply pixel_byte_lt; exact Hlen|].
  assert (Ho : 0 <= old < 256) by (eapply Forall_lookup_1 in Hb; eauto).
  pose proof (Z.mod_pos_bound y 8) as Hy8.
  pose proof (pixel_byte_lt x y _ Hlen) as Hlt.
  set (fb1 := <[pixel_byte x y := Z.setbit old (y mod 8)]> (mFramebuffer st)).
  assert (H1 : SetPixel x y st = Some (set_fb st fb1)) by (apply SetPixel_spec; assumption).
  assert (Hl1 : mFramebuffer (set_fb st fb1) !! pixel_byte x y
                = Some (Z.setbit old (y mod 8))).
  { cbn. apply list_lookup_insert_eq. exact Hlt. }
  assert (Hs : 0 <= Z.setbit old (y mod 8) < 256) by (apply setbit_u8; lia).
  pose proof (ClearPixel_spec (set_fb st fb1) x y _ Hx Hy Hs Hl1) as H2.
  pose proof (SetPixel_spec (set_fb st fb1) x y _ Hx Hy Hs Hl1) as H3.
  cbn in H2, H3. unfold fb1 in H2, H3.
  rewrite list_insert_insert_eq in H2, H3.
  rewrite clearbit_setbit in H2 by lia. rewrite setbit_setbit in H3 by lia.
  assert (Hfin : forall st2, ClearPixel x y (set_fb st fb1) = Some st2 ->
            mFramebuffer st2 !! pixel_byte x y = Some (Z.clearbit old (y mod 8))).
  { intros st2 E. unfold fb1 in E. rewrite H2 in E. inversion E. cbn.
    apply list_lookup_insert_eq. exact Hlt. }
  eexists old, (set_fb st fb1), _.
  split; [exact Hold|]. split; [exact H1|]. split; [exact H2|].
  split; [apply Hfin; exact H2|]. split.
  - intros Hunlit st1 st2 E1 E2. rewrite H1 in E1. inversion E1; subst st1.
    rewrite (Hfin _ E2), Hold, clearbit_unset by (lia || assumption). reflexivity.
  - exact H3.
Qed.

End Pixels.

(** ** Transfers *)

Section Transfer.
Context {B : Type} `{I2CMaster B}.
Implicit Types (st : CSSD1306 B).

Lemma Initialize_unsupported_height st :
  mHeight st <> 32 -> mHeight st <> 64 -> Initialize st = (false, st).
Proof.
  intros H32 H64. unfold Initialize.
  destruct (Z.eqb_spec (mHeight st) 32); [tauto|].
  destruct (Z.eqb_spec (mHeight st) 64); [tauto|]. reflexivity.
Qed.

(** C1, as the code has it.  With a supported height [Initialize] sends
    every command of the sequence, each after the control byte 0x80, and
    returns true whatever the writes return, also when all of them
    fail. *)
Theorem Initialize_ignores_write_results st :
  mHeight st = 32 \/ mHeight st = 64 ->
  Initialize st
  = (true,
     set_bus st
       (fold_left (fun b byte => fst (Write b (mAddress st) [0x80; byte]))
                  InitSequence (mI2CMaster st))) /\
  (Forall (fun r => r < 0) (write_results (mI2CMaster st) (mAddress st) InitSequence) ->
   fst (Initialize st) = true).
Proof.
  intros Hh.
  assert (E : Initialize st
              = (true,
                 set_bus st
                   (fold_left (fun b byte => fst (Write b (mAddress st) [0x80; byte]))
                              InitSequence (mI2CMaster st)))).
  { unfold Initialize. destruct Hh as [-> | ->]; reflexivity. }
  split; [exact E|]. intros _. rewrite E. reflexivity.
Qed.

Lemma set_fb_set_fb st (a b : list Z) : set_fb (set_fb st a) b = set_fb st b.
Proof. reflexivity. Qed.

Lemma set_fb_same st : set_fb st (mFramebuffer st) = st.
Proof. destruct st; reflexivity. Qed.

Lemma WriteFramebuffer_ok st :
  (Z.to_nat (mHeight st * 16 + 1) <= length (mFramebuffer st))%nat ->
  WriteFramebuffer st
  = Some (set_bus st
            (fst (Write (mI2CMaster st) (mAddress st)
                    (take (Z.to_nat (mHeight st * 16 + 1)) (mFramebuffer st))))).
Proof. intros Hl. unfold WriteFramebuffer. rewrite decide_True by exact Hl. reflexivity. Qed.

Lemma fill_zero st (n : nat) :
  (n < length (mFramebuffer st))%nat ->
  exists fb',
    for_loop_opt n 1 (fun i s => store i 0 s) st = Some (set_fb st fb') /\
    length fb' = length (mFramebuffer st) /\
    forall j : nat,
      fb' !! j = if decide (1 <= j <= n)%nat then Some 0 else mFramebuffer st !! j.
Proof.
  intros Hn.
  destruct (for_loop_opt_inv
              (fun k s =>
                 s = set_fb st (mFramebuffer s) /\
                 length (mFramebuffer s) = length (mFramebuffer st) /\
                 forall j : nat,
                   mFramebuffer s !! j
                   = if decide (1 <= Z.of_nat j < k) then Some 0
                     else mFramebuffer st !! j)
              (fun i s => store i 0 s) n 1 st) as (s' & Hrun & Hs & Hlen & Hbytes).
  - split; [symmetry; apply set_fb_same|]. split; [reflexivity|].
    intros j. rewrite decide_False by lia. reflexivity.
  - intros k s Hk (Hs & Hlen & Hbytes).
    rewrite store_ok by lia.
    eexists. split; [reflexivity|]. cbn.
    split; [rewrite Hs at 1; reflexivity|].
    split; [rewrite length_insert; exact Hlen|].
    intros j. destruct (decide (j = Z.to_nat k)) as [->|Hne].
    + rewrite list_lookup_insert_eq by lia. rewrite decide_True by lia. reflexivity.
    + rewrite list_lookup_insert_ne by congruence. rewrite Hbytes.
      destruct (decide (1 <= Z.of_nat j < k)), (decide (1 <= Z.of_nat j < k + 1));
        try reflexivity; lia.
  - exists (mFramebuffer s'). rewrite Hrun, Hs at 1. cbn.
    split; [reflexivity|]. split; [exact Hlen|].
    intros j. rewrite Hbytes.
    destruct (decide (1 <= Z.of_nat j < 1 + Z.of_nat n)), (decide (1 <= j <= n)%nat);
      try reflexivity; lia.
Qed.

(** C8. [Clear] zeroes the pixel bytes 1 .. [mHeight * 16], leaves byte 0
    and everything else of the object alone, and then sends the first
    [mHeight * 16 + 1] bytes of the framebuffer in one bus write. *)
Theorem Clear_zeroes_and_transfers st :
  0 <= mHeight st ->
  (Z.to_nat (mHeight st * 16 + 1) <= length (mFramebuffer st))%nat ->
  exists fb',
    length fb' = length (mFramebuffer st) /\
    (forall j : nat, (1 <= j <= Z.to_nat (mHeight st * 16))%nat -> fb' !! j = Some 0) /\
    fb' !! 0%nat = mFramebuffer st !! 0%nat /\
    (forall j : nat, (Z.to_nat (mHeight st * 16) < j)%nat ->
                     fb' !! j = mFramebuffer st !! j) /\
    Clear st
    = Some (set_bus (set_fb st fb')
              (fst (Write (mI2CMaster st) (mAddress st)
                      (take (Z.to_nat (mHeight st * 16 + 1)) fb')))).
Proof.
  intros Hh Hlen.
  destruct (fill_zero st (Z.to_nat (mHeight st * 16))) as (fb' & Hrun & Hl & Hbytes);
    [lia|].
  exists fb'. split; [exact Hl|].
  split; [intros j Hj; rewrite Hbytes, decide_True by lia; reflexivity|].
  split; [rewrite Hbytes, decide_False by lia; reflexivity|].
  split; [intros j Hj; rewrite Hbytes, decide_False by lia; reflexivity|].
  unfold Clear. rewrite Hrun.
  rewrite WriteFramebuffer_ok by (cbn; lia). reflexivity.
Qed.

End Transfer.

(** ** Level meters *)

Lemma rd_insert_eq (l : list Z) (i v : Z) :
  0 <= i < Z.of_nat (length l) -> rd (<[Z.to_nat i := v]> l) i = v.
Proof. intros Hi. unfold rd. rewrite list_lookup_insert_eq by lia. reflexivity. Qed.

Lemma rd_insert_ne (l : list Z) (i j v : Z) :
  0 <= i -> 0 <= j -> i <> j -> rd (<[Z.to_nat i := v]> l) j = rd l j.
Proof. intros Hi Hj Hne. unfold rd. rewrite list_lookup_insert_ne by lia. reflexivity. Qed.

Section Meters.
Variable VelocityLevel : Z -> Z.
Implicit Types (m : list Z * list Z * list Z) (i j : Z).

Lemma part_step_wf pSynth i m :
  meters_wf m -> meters_wf (part_step VelocityLevel pSynth i m).
Proof.
  destruct m as [[lv pk] tm]. intros (Hl & Hp & Ht). unfold part_step, meters_wf.
  repeat match goal with
         | |- context [if ?c then _ else _] => destruct c
         end; rewrite ?length_insert; auto.
Qed.

Lemma part_step_same pSynth i m :
  meters_wf m -> 0 <= i < 9 ->
  meters_of (part_step VelocityLevel pSynth i m) i
  = channel_step (part_active pSynth i) (level_of VelocityLevel pSynth i) (meters_of m i).
Proof.
  destruct m as [[lv pk] tm]. intros (Hl & Hp & Ht) Hi.
  unfold part_step, channel_step, meters_of, part_active, level_of.
  destruct (negb _).
  - rewrite rd_insert_eq by lia.
    destruct (_ <? _); rewrite ?rd_insert_eq by lia; reflexivity.
  - destruct (0 <? rd lv i); destruct (_ && _);
      rewrite ?rd_insert_eq by lia; reflexivity.
Qed.

Lemma part_step_other pSynth i j m :
  0 <= i -> 0 <= j -> i <> j ->
  meters_of (part_step VelocityLevel pSynth i m) j = meters_of m j.
Proof.
  destruct m as [[lv pk] tm]. intros Hi Hj Hne.
  unfold part_step, meters_of.
  repeat match goal with
         | |- context [if ?c then _ else _] => destruct c
         end; rewrite ?rd_insert_ne by lia; reflexivity.
Qed.

Lemma part_loop_channel pSynth m i :
  meters_wf m -> 0 <= i < 9 ->
  meters_of (for_loop 9 0 (part_step VelocityLevel pSynth) m) i
  = channel_step (part_active pSynth i) (level_of VelocityLevel pSynth i) (meters_of m i)
  /\ meters_wf (for_loop 9 0 (part_step VelocityLevel pSynth) m).
Proof.
  intros Hwf Hi.
  pose proof (for_loop_inv
                (fun k m' =>
                   meters_wf m' /\
                   meters_of m' i
                   = if i <? k
                     then channel_step (part_active pSynth i) (level_of VelocityLevel pSynth i)
                                       (meters_of m i)
                     else meters_of m i)
                (part_step VelocityLevel pSynth) 9 0 m) as Hloop.
  destruct Hloop as [Hwf' Hch].
  - split; [exact Hwf|]. destruct (Z.ltb_spec i 0); [lia | reflexivity].
  - intros k m' Hk [Hwf' Hch]. split; [apply part_step_wf; exact Hwf'|].
    destruct (Z.eq_dec k i) as [->|Hne].
    + rewrite part_step_same by assumption. rewrite Hch.
      destruct (Z.ltb_spec i i); [lia|].
      destruct (Z.ltb_spec i (i + 1)); [reflexivity | lia].
    + rewrite part_step_other by lia. rewrite Hch.
      destruct (Z.ltb_spec i k), (Z.ltb_spec i (k + 1)); try reflexivity; lia.
  - split; [|exact Hwf'].
    rewrite Hch. destruct (Z.ltb_spec i (0 + Z.of_nat 9)); [reflexivity | lia].
Qed.

End Meters.

Lemma decayed_step (L k : Z) (v : Z) :
  0 < L < 256 -> 0 <= k ->
  channel_step false v (decayed L k) = decayed L (k + 1).
Proof.
  intros HL Hk. unfold decayed, channel_step.
  destruct (Z.leb_spec k 100) as [Hk1|Hk1].
  - assert (Hlev : (if 0 <? Z.max (L - k) 0 then to_u8 (Z.max (L - k) 0 - 1)
                    else Z.max (L - k) 0) = Z.max (L - (k + 1)) 0).
    { destruct (Z.ltb_spec 0 (Z.max (L - k) 0)); [|lia].
      unfold to_u8. rewrite Z.mod_small by lia. lia. }
    rewrite Hlev.
    destruct (Z.eqb_spec (100 - k) 0) as [E|E].
    + destruct (Z.ltb_spec 0 L); [|lia]. cbn [andb].
      destruct (Z.leb_spec (k + 1) 100); [lia|].
      replace (k + 1 - 101) with 0 by lia.
      destruct (Z.ltb_spec 0 (4 * L)); [|lia].
      unfold to_u8. rewrite Z.mod_small by lia. reflexivity.
    + cbn [andb]. destruct (Z.leb_spec (k + 1) 100); [|lia].
      unfold to_u8. rewrite Z.mod_small by lia. f_equal. lia.
  - destruct (Z.leb_spec (k + 1) 100); [lia|].
    assert (Hlev : (if 0 <? Z.max (L - k) 0 then to_u8 (Z.max (L - k) 0 - 1)
                    else Z.max (L - k) 0) = Z.max (L - (k + 1)) 0).
    { destruct (Z.ltb_spec 0 (Z.max (L - k) 0)); [|lia].
      unfold to_u8. rewrite Z.mod_small by lia. lia. }
    replace (k + 1 - 101) with (k - 101 + 1) by lia.
    set (d := k - 101) in *. assert (Hd : 0 <= d) by (unfold d; lia).
    pose proof (Z.div_mod d 4 ltac:(lia)) as Hdm.
    pose proof (Z.mod_pos_bound d 4 ltac:(lia)) as Hm.
    destruct (Z.ltb_spec d (4 * L)) as [Hq|Hq].
    + rewrite Hlev.
      destruct (Z.eqb_spec (3 - d mod 4) 0) as [E|E].
      * assert (Hd1 : (d + 1) / 4 = d / 4 + 1 /\ (d + 1) mod 4 = 0).
        { clear -Hd E. Z.to_euclidean_division_equations. lia. }
        destruct Hd1 as [Hdiv Hmod].
        destruct (Z.ltb_spec 0 (L - (d / 4 + 1))) as [Hp|Hp]; cbn [andb].
        -- destruct (Z.ltb_spec (d + 1) (4 * L)); [|lia].
           rewrite Hdiv, Hmod. unfold to_u8. rewrite Z.mod_small by lia.
           f_equal. f_equal. lia.
        -- destruct (Z.ltb_spec (d + 1) (4 * L)); [lia|].
           rewrite E. f_equal; [f_equal; lia|].
           f_equal. lia.
      * cbn [andb].
        assert (Hd1 : (d + 1) / 4 = d / 4 /\ (d + 1) mod 4 = d mod 4 + 1).
        { clear -Hd E. Z.to_euclidean_division_equations. lia. }
        destruct Hd1 as [Hdiv Hmod].
        destruct (Z.ltb_spec (d + 1) (4 * L)); [|lia].
        rewrite Hdiv, Hmod. unfold to_u8. rewrite Z.mod_small by lia.
        f_equal. lia.
    + rewrite Hlev.
      destruct (Z.ltb_spec (d + 1) (4 * L)); [lia|].
      rewrite andb_false_r.
      f_equal. unfold to_u8.
      rewrite Zminus_mod_idemp_l. f_equal. lia.
Qed.

Lemma decayed_level (L k : Z) : fst (fst (decayed L k)) = Z.max (L - k) 0.
Proof.
  unfold decayed. destruct (k <=? 100); [reflexivity|].
  destruct (k - 101 <? 4 * L); reflexivity.
Qed.

Lemma decayed_peak_hold (L k : Z) : k <= 100 -> snd (fst (decayed L k)) = L.
Proof.
  intros Hk. unfold decayed. destruct (Z.leb_spec k 100); [reflexivity | lia].
Qed.

Lemma decayed_peak_first_drop (L : Z) : 0 < L -> snd (fst (decayed L 101)) = L - 1.
Proof.
  intros HL. unfold decayed. cbn [Z.leb Z.compare Pos.compare Pos.compare_cont Z.sub].
  change (101 <=? 100) with false. cbv iota. change (101 - 101) with 0.
  destruct (Z.ltb_spec 0 (4 * L)); [|lia]. reflexivity.
Qed.

Lemma decayed_peak_cadence (L k : Z) :
  0 < L -> 100 <= k ->
  snd (fst (decayed L (k + 4))) = Z.max (snd (fst (decayed L k)) - 1) 0.
Proof.
  intros HL Hk. unfold decayed.
  destruct (Z.leb_spec (k + 4) 100); [lia|].
  destruct (Z.leb_spec k 100).
  - assert (k = 100) by lia. subst k. change (100 + 4 - 101) with 3.
    destruct (Z.ltb_spec 3 (4 * L)); [|lia]. cbn [fst snd].
    change (3 / 4) with 0. lia.
  - destruct (Z.ltb_spec (k + 4 - 101) (4 * L)), (Z.ltb_spec (k - 101) (4 * L));
      cbn [fst snd]; try lia; Z.to_euclidean_division_equations; lia.
Qed.

Section MeterTicks.
Variable VelocityLevel : Z -> Z.
Context {B : Type}.
Implicit Types (st : CSSD1306 B) (i : Z).

Lemma UpdatePartLevels_channel pSynth st i :
  meters_wf (meters st) -> 0 <= i < 9 ->
  meters_of (meters (UpdatePartLevels VelocityLevel pSynth st)) i
  = channel_step (part_active pSynth i) (level_of VelocityLevel pSynth i)
                 (meters_of (meters st) i)
  /\ meters_wf (meters (UpdatePartLevels VelocityLevel pSynth st)).
Proof.
  intros Hwf Hi.
  destruct (part_loop_channel VelocityLevel pSynth (meters st) i Hwf Hi) as [Hc Hw].
  unfold UpdatePartLevels. fold (meters st).
  destruct (for_loop 9 0 (part_step VelocityLevel pSynth) (meters st)) as [[lv pk] tm].
  split; [exact Hc | exact Hw].
Qed.

Lemma ticks_decayed (quiet : list CMT32SynthBase) :
  forall st i L k,
    meters_wf (meters st) -> 0 <= i < 9 -> 0 < L < 256 -> 0 <= k ->
    Forall (fun sy => part_active sy i = false) quiet ->
    meters_of (meters st) i = decayed L k ->
    meters_of (meters (ticks VelocityLevel quiet st)) i = decayed L (k + Z.of_nat (length quiet)).
Proof.
  induction quiet as [|sy quiet IH]; intros st i L k Hwf Hi HL Hk Hq Hm.
  - cbn. rewrite Z.add_0_r. exact Hm.
  - apply Forall_cons in Hq as [Hsy Hq].
    destruct (UpdatePartLevels_channel sy st i Hwf Hi) as [Hc Hw].
    rewrite Hsy, Hm, decayed_step in Hc by lia.
    unfold ticks. cbn [fold_left].
    fold (ticks VelocityLevel quiet (UpdatePartLevels VelocityLevel sy st)).
    rewrite (IH _ i L (k + 1)) by (assumption || lia).
    f_equal. cbn [length]. lia.
Qed.

Lemma UpdatePartLevels_meters pSynth st1 st2 :
  meters st1 = meters st2 ->
  meters (UpdatePartLevels VelocityLevel pSynth st1)
  = meters (UpdatePartLevels VelocityLevel pSynth st2).
Proof.
  unfold UpdatePartLevels. fold (meters st1). fold (meters st2). intros ->.
  destruct (for_loop 9 0 _ _) as [[lv pk] tm]. reflexivity.
Qed.

Lemma ticks_meters (synths : list CMT32SynthBase) :
  forall st1 st2,
    meters st1 = meters st2 ->
    meters (ticks VelocityLevel synths st1) = meters (ticks VelocityLevel synths st2).
Proof.
  induction synths as [|sy rest IH]; intros st1 st2 Hm; [exact Hm|].
  unfold ticks. cbn [fold_left].
  apply IH, UpdatePartLevels_meters, Hm.
Qed.

Lemma rd_meters st i :
  meters_of (meters st) i
  = (rd (mPartLevels st) i, rd (mPeakLevels st) i, rd (mPeakTimes st) i).
Proof. reflexivity. Qed.

Lemma channel_step_level (v l p t : Z) :
  0 <= l < 256 ->
  fst (fst (channel_step false v (l, p, t))) = Z.max (l - 1) 0.
Proof.
  intros Hl. unfold channel_step.
  assert (E : (if 0 <? l then to_u8 (l - 1) else l) = Z.max (l - 1) 0).
  { destruct (Z.ltb_spec 0 l); [|lia].
    unfold to_u8. rewrite Z.mod_small by lia. lia. }
  destruct ((t =? 0) && (0 <? p)); cbn [fst]; exact E.
Qed.

Lemma ticks_level (quiet : list CMT32SynthBase) :
  forall st i l,
    meters_wf (meters st) -> 0 <= i < 9 -> 0 <= l < 256 ->
    Forall (fun sy => part_active sy i = false) quiet ->
    rd (mPartLevels st) i = l ->
    rd (mPartLevels (ticks VelocityLevel quiet st)) i
    = Z.max (l - Z.of_nat (length quiet)) 0.
Proof.
  induction quiet as [|sy quiet IH]; intros st i l Hwf Hi Hl Hq Hlev.
  - cbn. lia.
  - apply Forall_cons in Hq as [Hsy Hq].
    destruct (UpdatePartLevels_channel sy st i Hwf Hi) as [Hc Hw].
    rewrite Hsy, !rd_meters, Hlev in Hc.
    apply (f_equal (fun c => fst (fst c))) in Hc.
    rewrite channel_step_level in Hc by exact Hl. cbn [fst] in Hc.
    unfold ticks. cbn [fold_left].
    fold (ticks VelocityLevel quiet (UpdatePartLevels VelocityLevel sy st)).
    rewrite (IH _ i (Z.max (l - 1) 0)) by (assumption || lia).
    cbn [length]. lia.
Qed.

(** C2, as the code has it.  A channel is active for one tick, which
    sets its level to [L], and silent afterwards.  After [k] silent
    ticks its level is [max (L - k) 0].  If [L] was above the peak, so
    that the active tick set the peak, the peak is still [L] after each
    of the first 100 silent ticks and [L - 1] after the 101st; and from
    the end of the hold on, every four silent ticks lower the peak by
    one until it is zero. *)
Theorem level_meter_decay st i (loud : CMT32SynthBase) :
  meters_wf (meters st) -> 0 <= i < 9 ->
  part_active loud i = true ->
  let L := level_of VelocityLevel loud i in
  let st1 := UpdatePartLevels VelocityLevel loud st in
  (forall quiet : list CMT32SynthBase,
      Forall (fun sy => part_active sy i = false) quiet ->
      rd (mPartLevels (ticks VelocityLevel quiet st1)) i
      = Z.max (L - Z.of_nat (length quiet)) 0) /\
  (0 <= rd (mPeakLevels st) i < L ->
   (forall quiet : list CMT32SynthBase,
       Forall (fun sy => part_active sy i = false) quiet ->
       let k := Z.of_nat (length quiet) in
       (k <= 100 -> rd (mPeakLevels (ticks VelocityLevel quiet st1)) i = L) /\
       (k = 101 -> rd (mPeakLevels (ticks VelocityLevel quiet st1)) i = L - 1)) /\
   peak_cadence VelocityLevel 4 st1 i).
Proof.
  intros Hwf Hi Hact L st1.
  assert (HL : 0 <= L < 256).
  { unfold L, level_of, to_u8. apply Z.mod_pos_bound. lia. }
  destruct (UpdatePartLevels_channel loud st i Hwf Hi) as [Hc Hw].
  fold st1 in Hc, Hw. fold L in Hc. rewrite Hact in Hc.
  split.
  - intros quiet Hq. apply ticks_level; try assumption.
    rewrite !rd_meters in Hc. unfold channel_step in Hc.
    destruct (_ <? L); injection Hc as E _ _; exact E.
  - intros Hpk.
    assert (H0 : meters_of (meters st1) i = decayed L 0).
    { rewrite Hc, rd_meters. unfold channel_step.
      destruct (Z.ltb_spec (rd (mPeakLevels st) i) L); [|lia].
      unfold decayed. cbn. f_equal. f_equal. lia. }
    assert (Hrun : forall quiet,
               Forall (fun sy => part_active sy i = false) quiet ->
               meters_of (meters (ticks VelocityLevel quiet st1)) i
               = decayed L (Z.of_nat (length quiet))).
    { intros quiet Hq.
      rewrite (ticks_decayed quiet st1 i L 0) by (assumption || lia).
      f_equal. }
    split.
    + intros quiet Hq k. specialize (Hrun quiet Hq). rewrite rd_meters in Hrun.
      fold k in Hrun.
      split; intros Hk.
      * pose proof (decayed_peak_hold L k Hk) as E2.
        rewrite <- Hrun in E2. exact E2.
      * pose proof (decayed_peak_first_drop L ltac:(lia)) as E3.
        rewrite <- Hk, <- Hrun in E3. exact E3.
    + intros quiet more Hq Hm Hlen Hmore.
      pose proof (Hrun quiet Hq) as Ha.
      pose proof (Hrun (quiet ++ more) ltac:(apply Forall_app; auto)) as Hb.
      rewrite rd_meters in Ha, Hb.
      rewrite length_app, Hmore in Hb.
      replace (Z.of_nat (length quiet + 4)) with (Z.of_nat (length quiet) + 4) in Hb by lia.
      pose proof (decayed_peak_cadence L (Z.of_nat (length quiet))
                    ltac:(lia) ltac:(lia)) as E.
      rewrite <- Ha, <- Hb in E. exact E.
Qed.

(** C10. On a tick where channel [i] is silent and its peak is 0, the
    hold timer is decremented in [u8] arithmetic with no floor: it
    becomes [(t - 1) mod 256], so a timer at 0 becomes 255; the peak
    stays 0. *)
Theorem peak_timer_wraps st i (quiet : CMT32SynthBase) :
  meters_wf (meters st) -> 0 <= i < 9 ->
  part_active quiet i = false ->
  rd (mPeakLevels st) i = 0 ->
  let st' := UpdatePartLevels VelocityLevel quiet st in
  rd (mPeakTimes st') i = (rd (mPeakTimes st) i - 1) mod 256 /\
  (rd (mPeakTimes st) i = 0 -> rd (mPeakTimes st') i = 255) /\
  rd (mPeakLevels st') i = 0.
Proof.
  intros Hwf Hi Hq Hpk st'.
  destruct (UpdatePartLevels_channel quiet st i Hwf Hi) as [Hc _].
  fold st' in Hc. rewrite Hq, !rd_meters, Hpk in Hc.
  unfold channel_step in Hc. rewrite andb_false_r in Hc.
  injection Hc as E1 E2 E3.
  split; [exact E3|]. split; [|exact E2].
  rewrite E3. intros ->. reflexivity.
Qed.

End MeterTicks.

(** ** Character cells *)

Section Cells.
Variable Font6x8 : list CharData.
Context {B : Type} `{I2CMaster B}.
Implicit Types (st : CSSD1306 B) (fb : list Z) (c x y : Z).

Lemma FontDouble_columns (n : nat) (cols : list Z) (i : Z) :
  FontDouble Font6x8 !! n = Some cols -> 0 <= i < 6 ->
  cols !! Z.to_nat i = Some (rd cols i).
Proof.
  unfold FontDouble, Font. change (map ?f Font6x8) with (f <$> Font6x8).
  rewrite list_lookup_fmap. intros Hn Hi.
  apply fmap_Some in Hn as (g & _ & ->).
  rewrite rd_map_seqZ by lia. apply lookup_map_seqZ. lia.
Qed.

Lemma font_column_ok c i cols :
  FontDouble Font6x8 !! Z.to_nat (to_u8 (c - 32)) = Some cols -> 0 <= i < 6 ->
  font_column Font6x8 c i = Some (rd cols i).
Proof.
  intros Hc Hi. unfold font_column. rewrite Hc.
  eapply FontDouble_columns; eauto.
Qed.

Lemma font_has_char c :
  (97 <= length Font6x8)%nat -> 32 <= c <= 128 ->
  exists cols, FontDouble Font6x8 !! Z.to_nat (to_u8 (c - 32)) = Some cols.
Proof.
  intros Hlen Hc. apply lookup_lt_is_Some_2.
  unfold FontDouble, Font. rewrite length_map.
  unfold to_u8. rewrite Z.mod_small by lia. lia.
Qed.

Lemma cell_shows_frame fb fb' c x y :
  0 <= x -> 0 <= y ->
  cell_shows Font6x8 fb c x y ->
  (forall j, in_cell x y j -> fb' !! j = fb !! j) ->
  cell_shows Font6x8 fb' c x y.
Proof.
  intros Hx Hy (cols & Hc & Hb) Hsame. exists cols. split; [exact Hc|].
  intros i Hi. destruct (Hb i Hi) as [Hlo Hhi].
  rewrite !Hsame; [auto| |]; unfold in_cell, cell_offset; lia.
Qed.

Lemma cells_disjoint x x' y j :
  0 <= x <= 20 -> 0 <= x' <= 20 -> x <> x' ->
  in_cell x y j -> ~ in_cell x' y j.
Proof. unfold in_cell, cell_offset. lia. Qed.

(** A plain single-width [DrawChar]: the cell shows the glyph and no
    byte outside the cell changes. *)
Lemma DrawChar_plain st c x y cols :
  0 <= x -> 0 <= y ->
  FontDouble Font6x8 !! Z.to_nat (to_u8 (c - 32)) = Some cols ->
  cell_offset x y + 128 + 6 <= Z.of_nat (length (mFramebuffer st)) ->
  exists fb',
    DrawChar Font6x8 c x y false false st = Some (set_fb st fb') /\
    length fb' = length (mFramebuffer st) /\
    cell_shows Font6x8 fb' c x y /\
    forall j, ~ in_cell x y j -> fb' !! j = mFramebuffer st !! j.
Proof.
  intros Hx Hy Hc Hlen. set (off := cell_offset x y).
  assert (Hoff : 4 <= off) by (unfold off, cell_offset; lia).
  destruct (for_loop_opt_inv
              (fun k s =>
                 s = set_fb st (mFramebuffer s) /\
                 length (mFramebuffer s) = length (mFramebuffer st) /\
                 forall j : nat,
                   mFramebuffer s !! j
                   = if decide (off <= Z.of_nat j < off + k)
                     then Some (column_lo (rd cols (Z.of_nat j - off)))
                     else if decide (off + 128 <= Z.of_nat j < off + 128 + k)
                          then Some (column_hi (rd cols (Z.of_nat j - off - 128)))
                          else mFramebuffer st !! j)
              (fun i s =>
                 do col <- font_column Font6x8 c i;
                 let fontColumn :=
                   if (0 <? i) && false then to_u16 (Z.lxor col 0x3FFF) else col in
                 let offset := y * 128 * 2 + (x * 6 + 4) + i in
                 do s1 <- store offset (Z.land fontColumn 0xFF) s;
                 do s2 <- store (offset + 128) (Z.land (Z.shiftr fontColumn 8) 0xFF) s1;
                 Some s2)
              6 0 st) as (s' & Hrun & Hs & Hl & Hbytes).
  - split; [symmetry; apply set_fb_same|]. split; [reflexivity|].
    intros j. repeat case_decide; try lia. reflexivity.
  - intros k s Hk (Hs & Hl & Hbytes).
    rewrite (font_column_ok c k cols Hc) by lia.
    rewrite andb_false_r. cbv zeta.
    fold (cell_offset x y). fold off.
    rewrite store_ok by lia. cbn [mFramebuffer set_fb].
    rewrite store_ok by (cbn [mFramebuffer set_fb]; rewrite length_insert; lia).
    cbn [mFramebuffer set_fb].
    eexists. split; [reflexivity|]. cbn [mFramebuffer set_fb].
    split; [rewrite Hs at 1; reflexivity|].
    split; [rewrite !length_insert; exact Hl|].
    intros j.
    destruct (decide (j = Z.to_nat (off + k + 128))) as [->|Hn1].
    + rewrite list_lookup_insert_eq by (rewrite length_insert; lia).
      rewrite Z2Nat.id by lia.
      replace (off + k + 128 - off - 128) with k by lia.
      repeat case_decide; try lia. reflexivity.
    + rewrite list_lookup_insert_ne by congruence.
      destruct (decide (j = Z.to_nat (off + k))) as [->|Hn2].
      * rewrite list_lookup_insert_eq by lia.
        rewrite Z2Nat.id by lia.
        replace (off + k - off) with k by lia.
        repeat case_decide; try lia. reflexivity.
      * rewrite list_lookup_insert_ne by congruence. rewrite Hbytes.
        repeat case_decide; try lia; reflexivity.
  - exists (mFramebuffer s'). split.
    + unfold DrawChar. rewrite <- Hs. exact Hrun.
    + split; [exact Hl|]. split.
      * exists cols. split; [exact Hc|]. intros i Hi. fold off. rewrite !Hbytes.
        rewrite !Z2Nat.id by lia.
        replace (off + i - off) with i by lia.
        replace (off + 128 + i - off - 128) with i by lia.
        repeat case_decide; try lia. split; reflexivity.
      * intros j Hj. rewrite Hbytes. unfold in_cell in Hj. fold off in Hj.
        repeat case_decide; try lia; reflexivity.
Qed.

End Cells.

(** ** Text rows *)

Section Text.
Variable Font6x8 : list CharData.
Context {B : Type} `{I2CMaster B}.
Implicit Types (st : CSSD1306 B) (fb : list Z) (c x y : Z).

Lemma printed_nil x : printed [] x = [].
Proof. unfold printed. cbn. apply take_nil. Qed.

Lemma printed_stop c rest x :
  negb (c =? 0) && (x <? 20) = false -> printed (c :: rest) x = [].
Proof.
  unfold printed. cbn [cstr]. intros Hs.
  destruct (Z.eqb_spec c 0); [apply take_nil|].
  destruct (Z.ltb_spec x 20); [discriminate|].
  replace (Z.to_nat (20 - x)) with 0%nat by lia. reflexivity.
Qed.

Lemma printed_cons c rest x :
  negb (c =? 0) && (x <? 20) = true ->
  printed (c :: rest) x = c :: printed rest (x + 1).
Proof.
  unfold printed. cbn [cstr]. intros Hs.
  destruct (Z.eqb_spec c 0); [discriminate|].
  destruct (Z.ltb_spec x 20); [|discriminate].
  replace (Z.to_nat (20 - x)) with (Datatypes.S (Z.to_nat (20 - (x + 1)))) by lia.
  reflexivity.
Qed.

Lemma Print_text_spec (pText : list Z) :
  forall st x y,
    (97 <= length Font6x8)%nat ->
    0 <= x <= 20 -> 0 <= y ->
    printable (printed pText x) ->
    cell_offset 19 y + 128 + 6 <= Z.of_nat (length (mFramebuffer st)) ->
    exists fb',
      Print_text Font6x8 pText x y st
      = Some (x + Z.of_nat (length (printed pText x)), set_fb st fb') /\
      length fb' = length (mFramebuffer st) /\
      text_shows Font6x8 fb' (printed pText x) x y /\
      forall j,
        (forall x', x <= x' < x + Z.of_nat (length (printed pText x)) -> ~ in_cell x' y j) ->
        fb' !! j = mFramebuffer st !! j.
Proof.
  induction pText as [|c rest IH]; intros st x y Hfont Hx Hy Hp Hlen.
  - exists (mFramebuffer st). rewrite printed_nil. cbn [Print_text length].
    rewrite Z.add_0_r, set_fb_same.
    split; [reflexivity|]. split; [reflexivity|].
    split; [intros j c Hj; discriminate | reflexivity].
  - cbn [Print_text].
    destruct (negb (c =? 0) && (x <? 20)) eqn:Hgo.
    + rewrite printed_cons in * by exact Hgo.
      apply Forall_cons in Hp as [Hc Hp].
      apply andb_true_iff in Hgo as [_ Hx20]. apply Z.ltb_lt in Hx20.
      destruct (font_has_char Font6x8 c Hfont Hc) as [cols Hcols].
      destruct (DrawChar_plain Font6x8 st c x y cols) as (fb1 & Hd & Hl1 & Hs1 & Hf1);
        try assumption; try lia.
      { unfold cell_offset in *. lia. }
      unfold default_pInverted, default_pDoubleWidth. rewrite Hd.
      assert (Hu : to_u8 (x + 1) = x + 1) by (unfold to_u8; apply Z.mod_small; lia).
      rewrite Hu.
      destruct (IH (set_fb st fb1) (x + 1) y) as (fb2 & Hr & Hl2 & Hs2 & Hf2);
        try assumption; try lia.
      { cbn [mFramebuffer set_fb]. rewrite Hl1. exact Hlen. }
      cbn [mFramebuffer set_fb] in *.
      assert (Hbound : x + 1 + Z.of_nat (length (printed rest (x + 1))) <= 20).
      { unfold printed. rewrite length_take. lia. }
      exists fb2. rewrite Hr. cbn [length].
      split; [f_equal; f_equal; lia|].
      split; [congruence|]. split.
      * intros [|j] c' Hj; cbn in Hj.
        -- injection Hj as <-. rewrite Z.add_0_r.
           apply (cell_shows_frame Font6x8 fb1); try assumption; try lia.
           intros j Hj. apply Hf2. intros x' Hx'.
           apply (cells_disjoint x x' y j); try lia. exact Hj.
        -- replace (x + Z.of_nat (Datatypes.S j)) with (x + 1 + Z.of_nat j) by lia.
           apply Hs2. exact Hj.
      * intros j Hj. rewrite Hf2, Hf1; [reflexivity| |].
        -- apply Hj. lia.
        -- intros x' Hx'. apply Hj. lia.
    + rewrite printed_stop by exact Hgo.
      exists (mFramebuffer st). cbn [length]. rewrite Z.add_0_r, set_fb_same.
      split; [reflexivity|]. split; [reflexivity|].
      split; [intros j c' Hj; discriminate | reflexivity].
Qed.

(** The second loop of [Print]: blanks from column [x] to the end of
    the row. *)
Lemma clear_line_spec st x y :
  (97 <= length Font6x8)%nat ->
  0 <= x <= 20 -> 0 <= y ->
  cell_offset 19 y + 128 + 6 <= Z.of_nat (length (mFramebuffer st)) ->
  exists fb',
    for_loop_opt (Z.to_nat (20 - x)) x
      (fun i s => DrawChar Font6x8 32 i y default_pInverted default_pDoubleWidth s) st
    = Some (set_fb st fb') /\
    length fb' = length (mFramebuffer st) /\
    (forall x', x <= x' < 20 -> cell_shows Font6x8 fb' 32 x' y) /\
    forall j, (forall x', x <= x' < 20 -> ~ in_cell x' y j) ->
              fb' !! j = mFramebuffer st !! j.
Proof.
  intros Hfont Hx Hy Hlen.
  destruct (font_has_char Font6x8 32 Hfont ltac:(lia)) as [cols Hcols].
  destruct (for_loop_opt_inv
              (fun k s =>
                 s = set_fb st (mFramebuffer s) /\
                 length (mFramebuffer s) = length (mFramebuffer st) /\
                 (forall x', x <= x' < k -> cell_shows Font6x8 (mFramebuffer s) 32 x' y) /\
                 forall j, (forall x', x <= x' < k -> ~ in_cell x' y j) ->
                           mFramebuffer s !! j = mFramebuffer st !! j)
              (fun i s => DrawChar Font6x8 32 i y default_pInverted default_pDoubleWidth s)
              (Z.to_nat (20 - x)) x st) as (s' & Hrun & Hs & Hl & Hshow & Hframe).
  - split; [symmetry; apply set_fb_same|]. split; [reflexivity|].
    split; [intros x' Hx'; lia | reflexivity].
  - intros k s Hk (Hs & Hl & Hshow & Hframe).
    destruct (DrawChar_plain Font6x8 s 32 k y cols) as (fb1 & Hd & Hl1 & Hs1 & Hf1);
      try assumption; try lia.
    { rewrite Hl. unfold cell_offset in *. lia. }
    unfold default_pInverted, default_pDoubleWidth. rewrite Hd.
    eexists. split; [reflexivity|]. cbn [mFramebuffer set_fb].
    split; [rewrite Hs at 1; reflexivity|].
    split; [congruence|]. split.
    + intros x' Hx'. destruct (Z.eq_dec x' k) as [->|Hne]; [exact Hs1|].
      apply (cell_shows_frame Font6x8 (mFramebuffer s)); try lia.
      * apply Hshow. lia.
      * intros j Hj. apply Hf1. apply (cells_disjoint x' k y j); try lia. exact Hj.
    + intros j Hj. rewrite Hf1 by (apply Hj; lia). apply Hframe.
      intros x' Hx'. apply Hj. lia.
  - exists (mFramebuffer s'). rewrite Hrun, <- Hs.
    replace (x + Z.of_nat (Z.to_nat (20 - x))) with 20 in * by lia.
    auto.
Qed.

(** [Print] without the immediate transfer. *)
Lemma Print_spec (pText : list Z) st x y (pClearLine : bool) :
  (97 <= length Font6x8)%nat ->
  0 <= x <= 20 -> 0 <= y ->
  printable (printed pText x) ->
  cell_offset 19 y + 128 + 6 <= Z.of_nat (length (mFramebuffer st)) ->
  exists fb',
    Print Font6x8 pText x y pClearLine false st = Some (set_fb st fb') /\
    length fb' = length (mFramebuffer st) /\
    text_shows Font6x8 fb' (printed pText x) x y /\
    (pClearLine = true ->
     forall x', x + Z.of_nat (length (printed pText x)) <= x' < 20 ->
                cell_shows Font6x8 fb' 32 x' y) /\
    forall j,
      (forall x', x <= x' < (if pClearLine then 20
                             else x + Z.of_nat (length (printed pText x))) ->
                  ~ in_cell x' y j) ->
      fb' !! j = mFramebuffer st !! j.
Proof.
  intros Hfont Hx Hy Hp Hlen.
  destruct (Print_text_spec pText st x y) as (fb1 & Hr & Hl1 & Hs1 & Hf1); try assumption.
  assert (Hbound : x + Z.of_nat (length (printed pText x)) <= 20).
  { unfold printed. rewrite length_take. lia. }
  unfold Print. rewrite Hr. destruct pClearLine.
  - destruct (clear_line_spec (set_fb st fb1)
                (x + Z.of_nat (length (printed pText x))) y)
      as (fb2 & Hc & Hl2 & Hs2 & Hf2); try assumption; try lia.
    { cbn [mFramebuffer set_fb]. rewrite Hl1. exact Hlen. }
    cbn [mFramebuffer set_fb] in *. rewrite Hc.
    exists fb2. split; [reflexivity|]. split; [congruence|]. split.
    + intros j c Hj.
      assert (Hjl : (j < length (printed pText x))%nat)
        by (eapply lookup_lt_Some; exact Hj).
      apply (cell_shows_frame Font6x8 fb1); try lia.
      * apply Hs1. exact Hj.
      * intros k Hk. apply Hf2. intros x' Hx'.
        apply (cells_disjoint (x + Z.of_nat j) x' y k); try lia. exact Hk.
    + split; [intros _; exact Hs2|].
      intros j Hj. rewrite Hf2, Hf1; [reflexivity| |]; intros x' Hx'; apply Hj; lia.
  - exists fb1. split; [reflexivity|]. split; [exact Hl1|].
    split; [exact Hs1|]. split; [discriminate | exact Hf1].
Qed.

End Text.

(** ** What drawing leaves alone

    Every store of the drawing operations goes to an index above 0 and
    into the framebuffer only.  The section proves this once, for any
    relation between states that is closed under such stores and under
    bus traffic; it is then used for the control byte and for the fields
    outside the framebuffer. *)

Section Frame.
Variable Font6x8 : list (list Z).
Variable VelocityLevel : Z -> Z.
Context {B : Type} `{I2CMaster B}.
Variable R : CSSD1306 B -> CSSD1306 B -> Prop.
Hypothesis R_refl : forall st, R st st.
Hypothesis R_trans : forall st1 st2 st3, R st1 st2 -> R st2 st3 -> R st1 st3.
Hypothesis R_store :
  forall st i v, 0 < i -> R st (set_fb st (<[Z.to_nat i := v]> (mFramebuffer st))).
Hypothesis R_bus : forall st bus, R st (set_bus st bus).
Implicit Types (st : CSSD1306 B) (c x y : Z).

Lemma store_frame i v st st' : 0 < i -> store i v st = Some st' -> R st st'.
Proof. intros Hi Hs. apply store_inv in Hs as [_ ->]. apply R_store, Hi. Qed.

Lemma WriteFramebuffer_frame st st' : WriteFramebuffer st = Some st' -> R st st'.
Proof.
  unfold WriteFramebuffer. destruct (decide _); [|discriminate].
  intros [= <-]. apply R_bus.
Qed.

Lemma pixel_index_pos x y : 0 < pixel_index (to_u8 (Z.land x 0x7f)) (to_u8 (Z.land y 0x3f)).
Proof.
  unfold pixel_index.
  assert (0 <= to_u8 (Z.land x 0x7f)) by (apply Z.mod_pos_bound; lia).
  assert (0 <= Z.land (to_u8 (Z.land y 0x3f)) 0xf8) by (apply Z.land_nonneg; lia).
  assert (0 <= Z.shiftl (Z.land (to_u8 (Z.land y 0x3f)) 0xf8) 4)
    by (apply Z.shiftl_nonneg; assumption).
  lia.
Qed.

Lemma SetPixel_frame x y st st' : SetPixel x y st = Some st' -> R st st'.
Proof.
  unfold SetPixel. destruct (load _ st); [|discriminate].
  apply store_frame, pixel_index_pos.
Qed.

Lemma ClearPixel_frame x y st st' : ClearPixel x y st = Some st' -> R st st'.
Proof.
  unfold ClearPixel. destruct (load _ st); [|discriminate].
  apply store_frame, pixel_index_pos.
Qed.

Lemma loop_frame (body : Z -> CSSD1306 B -> option (CSSD1306 B)) (n : nat) (lo : Z) st st' :
  (forall k s1 s2, lo <= k < lo + Z.of_nat n -> body k s1 = Some s2 -> R s1 s2) ->
  for_loop_opt n lo body st = Some st' -> R st st'.
Proof.
  intros Hb Hrun.
  apply (for_loop_opt_pres (fun s => R st s) body n lo st st');
    [|exact Hrun|apply R_refl].
  intros k s1 s2 Hk Hs Hc. eapply R_trans; [exact Hc|]. eapply Hb; eauto.
Qed.

Lemma DrawChar_frame c x y (inv dw : bool) st st' :
  0 <= x -> 0 <= y ->
  DrawChar Font6x8 c x y inv dw st = Some st' -> R st st'.
Proof.
  intros Hx Hy. unfold DrawChar. apply loop_frame.
  intros k s1 s2 Hk.
  assert (Hoff : 0 < y * 128 * 2 + (x * (if dw then 12 else 6) + 4)
                     + (if dw then k * 2 else k)) by (destruct dw; lia).
  destruct (font_column Font6x8 c k) as [col|]; [|discriminate].
  set (offset := y * 128 * 2 + _ + _) in *.
  destruct (store offset _ s1) as [sa|] eqn:Ea; [|discriminate].
  destruct (store (offset + 128) _ sa) as [sb|] eqn:Eb; [|discriminate].
  apply store_frame in Ea; [|lia]. apply store_frame in Eb; [|lia].
  destruct dw.
  - destruct (load offset sb); [|discriminate].
    destruct (store (offset + 1) _ sb) as [sc|] eqn:Ec; [|discriminate].
    destruct (load (offset + 128) sc); [|discriminate].
    intros Ed. apply store_frame in Ec; [|lia]. apply store_frame in Ed; [|lia].
    eauto using R_trans.
  - intros [= <-]. eauto using R_trans.
Qed.

Lemma Print_text_frame (pText : list Z) :
  forall x y st x' st',
    0 <= x -> 0 <= y ->
    Print_text Font6x8 pText x y st = Some (x', st') -> 0 <= x' /\ R st st'.
Proof.
  induction pText as [|c rest IH]; intros x y st x' st' Hx Hy; cbn [Print_text].
  - intros [= <- <-]. split; [exact Hx | apply R_refl].
  - destruct (negb (c =? 0) && (x <? 20)).
    + destruct (DrawChar Font6x8 c x y _ _ st) as [s1|] eqn:Ed; [|discriminate].
      apply DrawChar_frame in Ed; [|lia|lia].
      intros Hr. apply IH in Hr as [Hx' Hk]; [| |exact Hy].
      * split; [exact Hx'|]. eapply R_trans; eauto.
      * apply Z.mod_pos_bound. lia.
    + intros [= <- <-]. split; [exact Hx | apply R_refl].
Qed.

Lemma Print_frame (pText : list Z) x y (cl imm : bool) st st' :
  0 <= x -> 0 <= y ->
  Print Font6x8 pText x y cl imm st = Some st' -> R st st'.
Proof.
  intros Hx Hy. unfold Print.
  destruct (Print_text Font6x8 pText x y st) as [[x1 s1]|] eqn:E1; [|discriminate].
  apply Print_text_frame in E1 as [Hx1 K1]; [|lia|lia].
  destruct (if cl then _ else _) as [s2|] eqn:E2; [|discriminate].
  assert (K2 : R s1 s2).
  { destruct cl; [|injection E2 as <-; apply R_refl].
    eapply loop_frame; [|exact E2].
    intros k sa sb Hk. apply DrawChar_frame; lia. }
  intros E3.
  assert (K3 : R s2 st').
  { destruct imm; [apply WriteFramebuffer_frame; exact E3|].
    injection E3 as <-. apply R_refl. }
  eauto using R_trans.
Qed.

Lemma DrawStatusLine_frame pSynth st st' :
  DrawStatusLine Font6x8 pSynth st = Some st' -> R st st'.
Proof.
  unfold DrawStatusLine. destruct (mMessageFlag st); [intros [= <-]; apply R_refl|].
  destruct (for_loop_opt 5 0 _ st) as [s1|] eqn:E1; [|discriminate].
  destruct (DrawChar Font6x8 _ 10 0 _ _ s1) as [s2|] eqn:E2; [|discriminate].
  intros E3.
  apply loop_frame in E1.
  - apply DrawChar_frame in E2; [|lia|lia].
    apply Print_frame in E3; [|lia|lia].
    eauto using R_trans.
  - intros k sa sb Hk. apply DrawChar_frame; [|lia].
    apply Z.mod_pos_bound. lia.
Qed.

Lemma DrawPartLevels_frame st st' : DrawPartLevels st = Some st' -> R st st'.
Proof.
  unfold DrawPartLevels. apply loop_frame.
  intros i s1 s2 Hi. destruct (bar_bytes _ _) as [topVal bottomVal].
  apply loop_frame.
  intros j sa sb Hj.
  destruct (store _ topVal sa) as [sc|] eqn:Ea; [|discriminate].
  intros Eb. apply store_frame in Ea; [|lia]. apply store_frame in Eb; [|lia].
  eauto using R_trans.
Qed.

Lemma Clear_frame st st' : Clear st = Some st' -> R st st'.
Proof.
  unfold Clear.
  destruct (for_loop_opt _ 1 _ st) as [s1|] eqn:E1; [|discriminate].
  intros E2. apply WriteFramebuffer_frame in E2.
  apply loop_frame in E1; [eauto using R_trans|].
  intros k sa sb Hk. apply store_frame. lia.
Qed.

(** [Update] is [UpdatePartLevels] followed by drawing and a transfer. *)
Lemma Update_frame pSynth st st' :
  Update Font6x8 VelocityLevel (Some pSynth) st = Some st' ->
  R (UpdatePartLevels VelocityLevel pSynth st) st'.
Proof.
  unfold Update.
  destruct (DrawPartLevels _) as [s2|] eqn:E2; [|discriminate].
  destruct (if mMessageFlag s2 then _ else _) as [s3|] eqn:E3; [|discriminate].
  intros E4. apply WriteFramebuffer_frame in E4.
  apply DrawPartLevels_frame in E2.
  assert (K3 : R s2 s3).
  { destruct (mMessageFlag s2);
      [apply Print_frame in E3; [exact E3|lia|lia]
      |apply DrawStatusLine_frame in E3; exact E3]. }
  eauto using R_trans.
Qed.

End Frame.

(** ** The control byte *)

Section Control.
Variable Font6x8 : list (list Z).
Variable FramebufferSize : nat.
Variable VelocityLevel : Z -> Z.
Context {B : Type} `{I2CMaster B}.
Implicit Types (st : CSSD1306 B).

Lemma control_kept_refl st : control_kept st st.
Proof. reflexivity. Qed.

Lemma control_kept_trans st1 st2 st3 :
  control_kept st1 st2 -> control_kept st2 st3 -> control_kept st1 st3.
Proof. unfold control_kept. congruence. Qed.

Lemma control_kept_store st i v :
  0 < i -> control_kept st (set_fb st (<[Z.to_nat i := v]> (mFramebuffer st))).
Proof. intros Hi. unfold control_kept. cbn. apply list_lookup_insert_ne. lia. Qed.

Lemma control_kept_bus st (bus : B) : control_kept st (set_bus st bus).
Proof. reflexivity. Qed.

Lemma UpdatePartLevels_framebuffer pSynth st :
  mFramebuffer (UpdatePartLevels VelocityLevel pSynth st) = mFramebuffer st.
Proof.
  unfold UpdatePartLevels. destruct (for_loop 9 0 _ _) as [[lv pk] tm]. reflexivity.
Qed.

Lemma run_operation_control op st st' :
  operation_args op ->
  run_operation Font6x8 VelocityLevel op st = Some st' -> control_kept st st'.
Proof.
  pose proof control_kept_refl as Hr. pose proof control_kept_trans as Ht.
  pose proof control_kept_store as Hs. pose proof control_kept_bus as Hb.
  destruct op; cbn [run_operation operation_args]; intros Ha.
  - apply SetPixel_frame; assumption.
  - apply ClearPixel_frame; assumption.
  - apply DrawChar_frame; (assumption || lia).
  - apply Print_frame; (assumption || lia).
  - apply DrawStatusLine_frame; assumption.
  - apply DrawPartLevels_frame; assumption.
  - apply Clear_frame; assumption.
  - destruct pSynth as [synth|]; [|cbn; intros [= <-]; apply Hr].
    intros Hu. apply (Update_frame Font6x8 VelocityLevel control_kept Hr Ht Hs Hb) in Hu.
    unfold control_kept in *. rewrite UpdatePartLevels_framebuffer in Hu. exact Hu.
Qed.

Lemma run_operations_control (ops : list Operation) :
  forall st st',
    Forall operation_args ops ->
    run_operations Font6x8 VelocityLevel ops st = Some st' -> control_kept st st'.
Proof.
  induction ops as [|op rest IH]; intros st st' Hargs; cbn [run_operations].
  - intros [= <-]. reflexivity.
  - apply Forall_cons in Hargs as [Ha Hrest].
    destruct (run_operation Font6x8 VelocityLevel op st) as [s1|] eqn:E1; [|discriminate].
    intros E2. apply run_operation_control in E1; [|exact Ha].
    apply IH in E2; [|exact Hrest].
    eapply control_kept_trans; eauto.
Qed.

(** C9. Byte 0 of the framebuffer is 0x40 after construction, and no
    operation writes it: [SetPixel], [ClearPixel], [DrawChar], [Print],
    [DrawStatusLine], [DrawPartLevels], [Clear] and [Update] leave byte
    0 as they found it, so it is 0x40 after any sequence of them. *)
Theorem control_byte_invariant (pI2CMaster : B) (pAddress pHeight : Z) :
  (0 < FramebufferSize)%nat ->
  mFramebuffer (CSSD1306_new FramebufferSize pI2CMaster pAddress pHeight) !! 0%nat
  = Some 0x40 /\
  (forall (op : Operation) (st st' : CSSD1306 B),
      operation_args op ->
      run_operation Font6x8 VelocityLevel op st = Some st' ->
      mFramebuffer st' !! 0%nat = mFramebuffer st !! 0%nat) /\
  (forall (ops : list Operation) (st : CSSD1306 B),
      Forall operation_args ops ->
      run_operations Font6x8 VelocityLevel ops
        (CSSD1306_new FramebufferSize pI2CMaster pAddress pHeight) = Some st ->
      mFramebuffer st !! 0%nat = Some 0x40).
Proof.
  intros Hsize.
  assert (Hnew : mFramebuffer (CSSD1306_new FramebufferSize pI2CMaster pAddress pHeight)
                 !! 0%nat = Some 0x40).
  { cbn [CSSD1306_new mFramebuffer]. apply list_lookup_insert_eq.
    rewrite length_replicate. exact Hsize. }
  split; [exact Hnew|]. split.
  - intros op st st' Ha Hr. exact (run_operation_control op st st' Ha Hr).
  - intros ops st Ha Hr. apply run_operations_control in Hr; [|exact Ha].
    unfold control_kept in Hr. rewrite Hr. exact Hnew.
Qed.

End Control.

(** ** Update ticks and the meters *)

Section UpdateTicks.
Variable Font6x8 : list (list Z).
Variable VelocityLevel : Z -> Z.
Context {B : Type} `{I2CMaster B}.
Implicit Types (st : CSSD1306 B).

Lemma fields_kept_refl st : fields_kept st st.
Proof. unfold fields_kept. repeat split. Qed.

Lemma fields_kept_trans st1 st2 st3 :
  fields_kept st1 st2 -> fields_kept st2 st3 -> fields_kept st1 st3.
Proof. unfold fields_kept. intuition congruence. Qed.

Lemma fields_kept_store st i v :
  0 < i -> fields_kept st (set_fb st (<[Z.to_nat i := v]> (mFramebuffer st))).
Proof.
  intros _. unfold fields_kept. cbn. rewrite length_insert. repeat split.
Qed.

Lemma fields_kept_bus st (bus : B) : fields_kept st (set_bus st bus).
Proof. unfold fields_kept. cbn. repeat split. Qed.

(** The meters after an update are those [UpdatePartLevels] computes;
    drawing and the transfer do not touch them. *)
Lemma Update_meters pSynth st st' :
  Update Font6x8 VelocityLevel (Some pSynth) st = Some st' ->
  meters st' = meters (UpdatePartLevels VelocityLevel pSynth st).
Proof.
  intros Hu.
  apply (Update_frame Font6x8 VelocityLevel fields_kept
           fields_kept_refl fields_kept_trans fields_kept_store fields_kept_bus) in Hu.
  apply Hu.
Qed.

(** A run of updates steps the meters like the run of [UpdatePartLevels]. *)
Lemma updates_meters (synths : list CMT32SynthBase) :
  forall st st',
    updates Font6x8 VelocityLevel synths st = Some st' ->
    meters st' = meters (ticks VelocityLevel synths st).
Proof.
  induction synths as [|sy rest IH]; intros st st'; cbn [updates].
  - intros [= <-]. reflexivity.
  - destruct (Update Font6x8 VelocityLevel (Some sy) st) as [s1|] eqn:E1; [|discriminate].
    intros E2. apply IH in E2. apply Update_meters in E1.
    rewrite E2. unfold ticks. cbn [fold_left].
    fold (ticks VelocityLevel rest s1).
    fold (ticks VelocityLevel rest (UpdatePartLevels VelocityLevel sy st)).
    apply ticks_meters. exact E1.
Qed.

End UpdateTicks.

(** ** Status line and message overlay *)

Lemma cstr_nonzero (l : list Z) : Forall (fun c => 32 <= c <= 128) l -> cstr l = l.
Proof.
  induction 1 as [|c l Hc Hl IH]; cbn [cstr]; [reflexivity|].
  destruct (Z.eqb_spec c 0); [lia|]. rewrite IH. reflexivity.
Qed.

Lemma sprintf_vol_shape (v : Z) :
  0 <= v < 256 ->
  length (sprintf_vol v) = 8%nat /\ Forall (fun c => 32 <= c <= 128) (sprintf_vol v).
Proof.
  intros Hv.
  pose proof (forallb_range
                (fun v => (length (sprintf_vol v) =? 8)%nat
                          && forallb (fun c => (32 <=? c) && (c <=? 128)) (sprintf_vol v))
                256 ltac:(vm_compute; reflexivity) v Hv) as Hok.
  cbv beta in Hok. apply andb_true_iff in Hok as [Hl Hc].
  split; [apply Nat.eqb_eq; exact Hl|].
  apply Forall_forall. intros c Hin.
  rewrite forallb_forall in Hc. apply list_elem_of_In, Hc in Hin. lia.
Qed.

Section Overlay.
Variable Font6x8 : list CharData.
Variable VelocityLevel : Z -> Z.
Context {B : Type} `{I2CMaster B}.
Implicit Types (st : CSSD1306 B) (fb : list Z) (c x y : Z).

Lemma printed_sprintf_vol v :
  0 <= v < 256 -> printed (sprintf_vol v) 12 = sprintf_vol v.
Proof.
  intros Hv. destruct (sprintf_vol_shape v Hv) as [Hl Hc].
  unfold printed. rewrite cstr_nonzero by exact Hc.
  apply take_ge. lia.
Qed.

Lemma status_char_range pSynth i : 0 <= i < 5 -> 32 <= status_char pSynth i <= 128.
Proof.
  intros Hi. unfold status_char. destruct (_ =? 0); [|lia].
  unfold to_u8. rewrite Z.mod_small by lia. lia.
Qed.

Lemma DrawStatusLine_spec pSynth st :
  mMessageFlag st = false ->
  (97 <= length Font6x8)%nat ->
  0 <= GetMasterVolume pSynth < 256 ->
  (252 <= length (mFramebuffer st))%nat ->
  exists fb',
    DrawStatusLine Font6x8 pSynth st = Some (set_fb st fb') /\
    length fb' = length (mFramebuffer st) /\
    status_shown Font6x8 fb' pSynth /\
    forall j, (forall x, status_cell x -> ~ in_cell x 0 j) ->
              fb' !! j = mFramebuffer st !! j.
Proof.
  intros Hflag Hfont Hvol Hlen. unfold DrawStatusLine. rewrite Hflag.
  set (draw := fun i s => DrawChar Font6x8 _ _ 0 _ _ s).
  destruct (for_loop_opt_inv
              (fun k s =>
                 s = set_fb st (mFramebuffer s) /\
                 length (mFramebuffer s) = length (mFramebuffer st) /\
                 (forall i, 0 <= i < k ->
                            cell_shows Font6x8 (mFramebuffer s) (status_char pSynth i) (i * 2) 0) /\
                 forall j, (forall i, 0 <= i < k -> ~ in_cell (i * 2) 0 j) ->
                           mFramebuffer s !! j = mFramebuffer st !! j)
              draw 5 0 st) as (s1 & Hrun & Hs1 & Hl1 & Hshow1 & Hf1).
  - split; [symmetry; apply set_fb_same|]. split; [reflexivity|].
    split; [intros i Hi; lia | reflexivity].
  - intros k s Hk (Hs & Hl & Hshow & Hf). unfold draw.
    fold (status_char pSynth k).
    assert (Hu : to_u8 (k * 2) = k * 2) by (unfold to_u8; apply Z.mod_small; lia).
    rewrite Hu.
    destruct (font_has_char Font6x8 (status_char pSynth k) Hfont
                (status_char_range pSynth k ltac:(lia))) as [cols Hcols].
    destruct (DrawChar_plain Font6x8 s (status_char pSynth k) (k * 2) 0 cols)
      as (fb1 & Hd & Hlb & Hsb & Hfb); try assumption; try lia.
    { unfold cell_offset. lia. }
    unfold default_pInverted, default_pDoubleWidth. rewrite Hd.
    eexists. split; [reflexivity|]. cbn [mFramebuffer set_fb].
    split; [rewrite Hs at 1; reflexivity|].
    split; [congruence|]. split.
    + intros i Hi. destruct (Z.eq_dec i k) as [->|Hne]; [exact Hsb|].
      apply (cell_shows_frame Font6x8 (mFramebuffer s)); try lia.
      * apply Hshow. lia.
      * intros j Hj. apply Hfb. apply (cells_disjoint (i * 2) (k * 2) 0 j); try lia.
        exact Hj.
    + intros j Hj. rewrite Hfb by (apply Hj; lia). apply Hf.
      intros i Hi. apply Hj. lia.
  - rewrite Hrun. change (0 + Z.of_nat 5) with 5 in *.
    fold (rhythm_char pSynth).
    assert (Hrc : 32 <= rhythm_char pSynth <= 128)
      by (unfold rhythm_char; destruct (_ =? 0); lia).
    destruct (font_has_char Font6x8 (rhythm_char pSynth) Hfont Hrc) as [cols Hcols].
    destruct (DrawChar_plain Font6x8 s1 (rhythm_char pSynth) 10 0 cols)
      as (fb2 & Hd2 & Hl2 & Hs2 & Hf2); try assumption; try lia.
    { unfold cell_offset. lia. }
    unfold default_pInverted, default_pDoubleWidth. rewrite Hd2.
    destruct (sprintf_vol_shape _ Hvol) as [Hvl Hvc].
    destruct (Print_spec Font6x8 (sprintf_vol (GetMasterVolume pSynth))
                (set_fb s1 fb2) 12 0 false)
      as (fb3 & Hp & Hl3 & Hs3 & _ & Hf3); try assumption; try lia.
    { rewrite printed_sprintf_vol by exact Hvol. exact Hvc. }
    { cbn [mFramebuffer set_fb]. unfold cell_offset. lia. }
    unfold default_pClearLine, default_pImmediate. rewrite Hp.
    rewrite printed_sprintf_vol in * by exact Hvol. rewrite Hvl in Hf3.
    cbn [mFramebuffer set_fb] in *.
    exists fb3. split; [rewrite Hs1 at 1; reflexivity|].
    split; [congruence|]. split; [split; [|split]|].
    + intros i Hi.
      apply (cell_shows_frame Font6x8 (mFramebuffer s1)); try lia.
      * apply Hshow1. exact Hi.
      * intros j Hj. rewrite Hf3, Hf2; [reflexivity| |].
        -- apply (cells_disjoint (i * 2) 10 0 j); try lia. exact Hj.
        -- intros x' Hx'. apply (cells_disjoint (i * 2) x' 0 j); try lia. exact Hj.
    + apply (cell_shows_frame Font6x8 fb2); try lia; [exact Hs2|].
      intros j Hj. apply Hf3.
      intros x' Hx'. apply (cells_disjoint 10 x' 0 j); try lia. exact Hj.
    + exact Hs3.
    + intros j Hj. unfold status_cell in Hj. rewrite Hf3, Hf2, Hf1; [reflexivity| | |].
      * intros i Hi. apply Hj. left. split; [lia|].
        rewrite Z.mod_mul by lia. reflexivity.
      * apply Hj. left. split; [lia | reflexivity].
      * intros x' Hx'. apply Hj. right. lia.
Qed.

End Overlay.

Section Refresh.
Variable Font6x8 : list CharData.
Variable VelocityLevel : Z -> Z.
Context {B : Type} `{I2CMaster B}.
Implicit Types (st : CSSD1306 B) (fb : list Z).

Lemma UpdatePartLevels_fields pSynth st :
  exists lv pk tm, UpdatePartLevels VelocityLevel pSynth st = set_meters st lv pk tm.
Proof.
  unfold UpdatePartLevels. destruct (for_loop 9 0 _ _) as [[lv pk] tm]. eauto.
Qed.

(** The bars live below the first text row: indices 259 to 510. *)
Lemma DrawPartLevels_ok st :
  (511 <= length (mFramebuffer st))%nat ->
  exists fb',
    DrawPartLevels st = Some (set_fb st fb') /\
    length fb' = length (mFramebuffer st) /\
    forall j, (j < 259)%nat -> fb' !! j = mFramebuffer st !! j.
Proof.
  intros Hlen.
  set (P := fun s : CSSD1306 B =>
              s = set_fb st (mFramebuffer s) /\
              length (mFramebuffer s) = length (mFramebuffer st) /\
              forall j, (j < 259)%nat -> mFramebuffer s !! j = mFramebuffer st !! j).
  assert (Hstore : forall i v s, 259 <= i < 511 -> P s ->
              exists s', store i v s = Some s' /\ P s').
  { intros i v s Hi (Hs & Hl & Hf). rewrite store_ok by lia.
    eexists. split; [reflexivity|]. unfold P. cbn [mFramebuffer set_fb].
    split; [rewrite Hs at 1; reflexivity|].
    split; [rewrite length_insert; exact Hl|].
    intros j Hj. rewrite list_lookup_insert_ne by lia. apply Hf. exact Hj. }
  unfold DrawPartLevels.
  destruct (for_loop_opt_inv (fun _ s => P s)
              (fun i s =>
                 let '(topVal, bottomVal) :=
                   bar_bytes (rd (mPartLevels s) i) (rd (mPeakLevels s) i) in
                 for_loop_opt 12 0
                   (fun j s0 =>
                      do s1 <- store (256 + i * 14 + j + 3) topVal s0;
                      store (256 + i * 14 + j + 128 + 3) bottomVal s1) s)
              9 0 st) as (s' & Hrun & Hs & Hl & Hf).
  - split; [symmetry; apply set_fb_same|]. split; [reflexivity|]. reflexivity.
  - intros i s Hi HP. destruct (bar_bytes _ _) as [topVal bottomVal].
    apply (for_loop_opt_inv (fun _ s => P s)); [exact HP|].
    intros j sa Hj HPa.
    destruct (Hstore (256 + i * 14 + j + 3) topVal sa) as (sb & Eb & HPb); [lia|exact HPa|].
    rewrite Eb. apply Hstore; [lia | exact HPb].
  - exists (mFramebuffer s'). rewrite Hrun, <- Hs. auto.
Qed.

(** One update while a message is active. *)
Lemma Update_message pSynth st :
  mMessageFlag st = true ->
  (97 <= length Font6x8)%nat ->
  (511 <= length (mFramebuffer st))%nat ->
  (Z.to_nat (mHeight st * 16 + 1) <= length (mFramebuffer st))%nat ->
  printable (printed (mMessageText st) 0) ->
  exists fb',
    Update Font6x8 VelocityLevel (Some pSynth) st
    = Some (set_bus (set_fb (UpdatePartLevels VelocityLevel pSynth st) fb')
              (fst (Write (mI2CMaster st) (mAddress st)
                      (take (Z.to_nat (mHeight st * 16 + 1)) fb')))) /\
    length fb' = length (mFramebuffer st) /\
    message_shown Font6x8 fb' (mMessageText st).
Proof.
  intros Hflag Hfont Hlen Hcount Hp.
  destruct (UpdatePartLevels_fields pSynth st) as (lv & pk & tm & Hu).
  unfold Update. rewrite Hu.
  destruct (DrawPartLevels_ok (set_meters st lv pk tm)) as (fb1 & Hd & Hl1 & _);
    [exact Hlen|].
  rewrite Hd. cbn [mMessageFlag mMessageText set_fb set_meters]. rewrite Hflag.
  destruct (Print_spec Font6x8 (mMessageText st) (set_fb (set_meters st lv pk tm) fb1)
              0 0 true) as (fb2 & Hpr & Hl2 & Hs2 & Hc2 & _);
    try assumption; try lia.
  { cbn [mFramebuffer set_fb set_meters] in *. unfold cell_offset. lia. }
  unfold default_pImmediate. rewrite Hpr.
  cbn [mFramebuffer set_fb set_meters] in *.
  rewrite WriteFramebuffer_ok by (cbn [mFramebuffer mHeight set_fb set_meters]; lia).
  exists fb2. split; [reflexivity|]. split; [congruence|].
  split; [exact Hs2|]. intros x Hx. apply Hc2; [reflexivity | lia].
Qed.

(** One update while no message is active. *)
Lemma Update_status pSynth st :
  mMessageFlag st = false ->
  (97 <= length Font6x8)%nat ->
  (511 <= length (mFramebuffer st))%nat ->
  (Z.to_nat (mHeight st * 16 + 1) <= length (mFramebuffer st))%nat ->
  0 <= GetMasterVolume pSynth < 256 ->
  exists fb',
    Update Font6x8 VelocityLevel (Some pSynth) st
    = Some (set_bus (set_fb (UpdatePartLevels VelocityLevel pSynth st) fb')
              (fst (Write (mI2CMaster st) (mAddress st)
                      (take (Z.to_nat (mHeight st * 16 + 1)) fb')))) /\
    length fb' = length (mFramebuffer st) /\
    status_shown Font6x8 fb' pSynth.
Proof.
  intros Hflag Hfont Hlen Hcount Hvol.
  destruct (UpdatePartLevels_fields pSynth st) as (lv & pk & tm & Hu).
  unfold Update. rewrite Hu.
  destruct (DrawPartLevels_ok (set_meters st lv pk tm)) as (fb1 & Hd & Hl1 & _);
    [exact Hlen|].
  rewrite Hd. cbn [mMessageFlag mMessageText set_fb set_meters]. rewrite Hflag.
  destruct (DrawStatusLine_spec Font6x8 pSynth (set_fb (set_meters st lv pk tm) fb1))
    as (fb2 & Hds & Hl2 & Hs2 & _); try assumption.
  { cbn [mFramebuffer set_fb set_meters] in *. lia. }
  rewrite Hds. cbn [mFramebuffer set_fb set_meters] in *.
  rewrite WriteFramebuffer_ok by (cbn [mFramebuffer mHeight set_fb set_meters]; lia).
  exists fb2. split; [reflexivity|]. split; [congruence|]. exact Hs2.
Qed.

End Refresh.

Section Scenarios.
Variable Font6x8 : list CharData.
Variable VelocityLevel : Z -> Z.
Context {B : Type} `{I2CMaster B}.
Implicit Types (st : CSSD1306 B) (fb : list Z).

(** C3, as the code has it.  With parts 0 and 2 active and a master
    volume of 75 the status line puts part [i] in cell [2 * i]: the
    block glyph 0x80 in cells 0 and 4, the digits 2, 4 and 5 in cells 2,
    6 and 8, the letter R in cell 10 and the text "|vol: 75" from cell
    12; the odd cells 1 to 11 keep what they held. *)
Theorem status_line_scenario st (pSynth : CMT32SynthBase) :
  mMessageFlag st = false ->
  (97 <= length Font6x8)%nat ->
  (252 <= length (mFramebuffer st))%nat ->
  GetPartStates pSynth = 5 -> GetMasterVolume pSynth = 75 ->
  exists fb',
    DrawStatusLine Font6x8 pSynth st = Some (set_fb st fb') /\
    cell_shows Font6x8 fb' 0x80 0 0 /\ cell_shows Font6x8 fb' 0x80 4 0 /\
    cell_shows Font6x8 fb' 50 2 0 /\ cell_shows Font6x8 fb' 52 6 0 /\
    cell_shows Font6x8 fb' 53 8 0 /\
    cell_shows Font6x8 fb' 82 10 0 /\
    text_shows Font6x8 fb' [124; 118; 111; 108; 58; 32; 55; 53] 12 0 /\
    forall x j, 0 <= x < 6 -> in_cell (2 * x + 1) 0 j -> fb' !! j = mFramebuffer st !! j.
Proof.
  intros Hflag Hfont Hlen Hparts Hvol.
  destruct (DrawStatusLine_spec Font6x8 pSynth st) as (fb' & Hd & _ & Hshown & Hframe);
    try assumption; [rewrite Hvol; lia|].
  destruct Hshown as (Hparts_shown & Hrhythm & Htext).
  unfold status_char, rhythm_char in *. rewrite Hparts in *. rewrite Hvol in Htext.
  exists fb'. split; [exact Hd|].
  split; [exact (Hparts_shown 0 ltac:(lia))|].
  split; [exact (Hparts_shown 2 ltac:(lia))|].
  split; [exact (Hparts_shown 1 ltac:(lia))|].
  split; [exact (Hparts_shown 3 ltac:(lia))|].
  split; [exact (Hparts_shown 4 ltac:(lia))|].
  split; [exact Hrhythm|]. split; [exact Htext|].
  intros x j Hx Hj. apply Hframe. intros x' Hx'.
  assert (Hne : 2 * x + 1 <> x').
  { destruct Hx' as [[_ Heven]|Hvol_cells]; [|lia].
    intros <-. rewrite Z.add_comm, Z.mul_comm, Z.mod_add in Heven by lia.
    discriminate. }
  assert (Hr : 0 <= x' <= 20) by (destruct Hx' as [[? _]|?]; lia).
  intros Hj'. apply (cells_disjoint (2 * x + 1) x' 0 j); try lia; assumption.
Qed.

(** C7. While a message is active an update draws the message from the
    first cell of the first text row and blanks the rest of the twenty
    cells, leaves the message active, and draws no status line (a call
    of [DrawStatusLine] changes nothing); once [ClearMessage] is called
    the next update draws the status line. *)
Theorem message_overlay st (pSynth pSynth' : CMT32SynthBase) :
  mMessageFlag st = true ->
  (97 <= length Font6x8)%nat ->
  mHeight st = 32 \/ mHeight st = 64 ->
  (Z.to_nat (mHeight st * 16 + 1) <= length (mFramebuffer st))%nat ->
  printable (printed (mMessageText st) 0) ->
  0 <= GetMasterVolume pSynth' < 256 ->
  exists st1 st2,
    Update Font6x8 VelocityLevel (Some pSynth) st = Some st1 /\
    message_shown Font6x8 (mFramebuffer st1) (mMessageText st) /\
    mMessageFlag st1 = true /\ mMessageText st1 = mMessageText st /\
    mHeight st1 = mHeight st /\
    length (mFramebuffer st1) = length (mFramebuffer st) /\
    DrawStatusLine Font6x8 pSynth st1 = Some st1 /\
    Update Font6x8 VelocityLevel (Some pSynth') (ClearMessage st1) = Some st2 /\
    status_shown Font6x8 (mFramebuffer st2) pSynth'.
Proof.
  intros Hflag Hfont Hh Hcount Hp Hvol.
  assert (Hlen : (511 <= length (mFramebuffer st))%nat)
    by (destruct Hh as [E|E]; rewrite E in Hcount; lia).
  destruct (Update_message Font6x8 VelocityLevel pSynth st)
    as (fb1 & Hu1 & Hl1 & Hshown); try assumption.
  destruct (UpdatePartLevels_fields VelocityLevel pSynth st) as (lv & pk & tm & Hf).
  rewrite Hf in Hu1.
  eexists. rewrite Hu1.
  set (st1 := set_bus _ _).
  destruct (Update_status Font6x8 VelocityLevel pSynth' (ClearMessage st1))
    as (fb2 & Hu2 & Hl2 & Hstatus);
    try assumption; try reflexivity;
    try (cbn [ClearMessage set_message st1 set_bus set_fb set_meters
                mFramebuffer mHeight]; lia).
  eexists. rewrite Hu2.
  split; [reflexivity|]. split; [exact Hshown|].
  split; [exact Hflag|]. split; [reflexivity|]. split; [reflexivity|].
  split; [exact Hl1|]. split.
  - unfold DrawStatusLine. cbn [st1 mMessageFlag set_bus set_fb set_meters].
    rewrite Hflag. reflexivity.
  - split; [reflexivity | exact Hstatus].
Qed.

End Scenarios.

(** ** The driver at work

    The theorems above applied to the sample display, and the inputs on
    which the spec's wording and the code part ways. *)

Lemma bytes_new {B} (n : nat) (bus : B) (a h : Z) :
  bytes (mFramebuffer (CSSD1306_new n bus a h)).
Proof.
  cbn [CSSD1306_new mFramebuffer]. unfold bytes.
  apply Forall_insert; [|lia]. apply Forall_replicate. lia.
Qed.

Lemma length_new {B} (n : nat) (bus : B) (a h : Z) :
  length (mFramebuffer (CSSD1306_new n bus a h)) = n.
Proof. cbn [CSSD1306_new mFramebuffer]. rewrite length_insert. apply length_replicate. Qed.

Lemma sample_glyph_wf (k : Z) : glyph_wf (sample_glyph k).
Proof.
  unfold sample_glyph, glyph_wf. destruct (k =? 96).
  - split; [reflexivity|]. apply Forall_replicate. lia.
  - split; [reflexivity|]. apply Forall_forall. intros r Hr.
    apply list_elem_of_In, in_map_iff in Hr as (x & <- & _).
    apply Z.mod_pos_bound. lia.
Qed.

Lemma font_tables_transpose_witness :
  exists single double : list Z,
    FontSingle SampleFont !! 18%nat = Some single /\
    FontDouble SampleFont !! 18%nat = Some double /\
    rows_of_columns single = sample_glyph 18 /\
    forall j r, 0 <= j < 6 -> 0 <= r < 8 ->
      Z.testbit (rd double j) (2 * r) = Z.testbit (rd single j) r /\
      Z.testbit (rd double j) (2 * r + 1) = Z.testbit (rd single j) r.
Proof.
  apply (font_tables_transpose SampleFont 18 (sample_glyph 18)).
  - reflexivity.
  - apply sample_glyph_wf.
Defined.

Lemma Initialize_ignores_write_results_witness :
  Initialize dead_display
  = (true,
     set_bus dead_display
       (fold_left (fun b byte => fst (Write b (mAddress dead_display) [0x80; byte]))
                  InitSequence (mI2CMaster dead_display))) /\
  (Forall (fun r => r < 0)
          (write_results (mI2CMaster dead_display) (mAddress dead_display) InitSequence) ->
   fst (Initialize dead_display) = true).
Proof.
  apply (Initialize_ignores_write_results dead_display).
  left. reflexivity.
Defined.

(** C1, as the spec words it, fails on the bus whose writes all fail:
    [Initialize] still reports success. *)
Lemma init_failure_not_surfaced : ~ init_failure_surfaced dead_display.
Proof.
  unfold init_failure_surfaced. intros Hc.
  assert (Hok : fst (Initialize dead_display) = true) by reflexivity.
  rewrite Hc in Hok; [discriminate|].
  apply Exists_exists. exists (-1). split; [|lia].
  apply list_elem_of_In. vm_compute. left. reflexivity.
Qed.

Lemma level_meter_decay_witness :
  let L := level_of sample_level loud_synth 0 in
  let st1 := UpdatePartLevels sample_level loud_synth sample_display in
  (forall quiet : list CMT32SynthBase,
      Forall (fun sy => part_active sy 0 = false) quiet ->
      rd (mPartLevels (ticks sample_level quiet st1)) 0
      = Z.max (L - Z.of_nat (length quiet)) 0) /\
  (forall quiet : list CMT32SynthBase,
      Forall (fun sy => part_active sy 0 = false) quiet ->
      let k := Z.of_nat (length quiet) in
      (k <= 100 -> rd (mPeakLevels (ticks sample_level quiet st1)) 0 = L) /\
      (k = 101 -> rd (mPeakLevels (ticks sample_level quiet st1)) 0 = L - 1)) /\
  peak_cadence sample_level 4 st1 0.
Proof.
  destruct (level_meter_decay sample_level sample_display 0 loud_synth)
    as [Hlevel Hpeak].
  - repeat split.
  - lia.
  - reflexivity.
  - split; [exact Hlevel|]. apply Hpeak. change (0 <= 0 < 16). lia.
Defined.

(** C2, as the spec words it, puts the peak decrements three ticks
    apart.  With a level of 16 the peak is 15 after 101 silent ticks and
    still 15 three ticks later. *)
Lemma peak_cadence_not_three :
  ~ peak_cadence sample_level 3
      (UpdatePartLevels sample_level loud_synth sample_display) 0.
Proof.
  intros Hc.
  specialize (Hc (replicate 101 silent_synth) (replicate 3 silent_synth)).
  assert (Hq : forall n, Forall (fun sy => part_active sy 0 = false)
                                (replicate n silent_synth))
    by (intros n; apply Forall_replicate; reflexivity).
  specialize (Hc (Hq _) (Hq _)).
  rewrite !length_replicate in Hc. specialize (Hc ltac:(lia) eq_refl).
  vm_compute in Hc. discriminate.
Qed.

Lemma status_line_scenario_witness :
  exists fb',
    DrawStatusLine SampleFont scenario_synth sample_display
    = Some (set_fb sample_display fb') /\
    cell_shows SampleFont fb' 0x80 0 0 /\ cell_shows SampleFont fb' 0x80 4 0 /\
    cell_shows SampleFont fb' 50 2 0 /\ cell_shows SampleFont fb' 52 6 0 /\
    cell_shows SampleFont fb' 53 8 0 /\
    cell_shows SampleFont fb' 82 10 0 /\
    text_shows SampleFont fb' [124; 118; 111; 108; 58; 32; 55; 53] 12 0 /\
    forall x j, 0 <= x < 6 -> in_cell (2 * x + 1) 0 j ->
                fb' !! j = mFramebuffer sample_display !! j.
Proof.
  apply (status_line_scenario SampleFont sample_display scenario_synth).
  - reflexivity.
  - apply Nat.leb_le. vm_compute. reflexivity.
  - unfold sample_display. rewrite length_new. lia.
  - reflexivity.
  - reflexivity.
Defined.

(** C3, as the spec words it, has the five parts in cells 0 to 4.  The
    code draws part 2 in cell 2, where the scenario expects the block
    glyph of part 3. *)
Lemma status_not_in_adjacent_cells :
  exists st',
    DrawStatusLine SampleFont scenario_synth sample_display = Some st' /\
    ~ status_in_adjacent_cells SampleFont (mFramebuffer st').
Proof.
  eexists. split; [vm_compute; reflexivity|].
  intros (_ & (cols & Hc & Hb) & _).
  vm_compute in Hc. injection Hc as <-.
  destruct (Hb 0 ltac:(lia)) as [Hlo _].
  vm_compute in Hlo. discriminate.
Qed.

Lemma set_clear_and_set_twice_witness :
  exists old st1 st2,
    mFramebuffer sample_display !! pixel_byte 3 70 = Some old /\
    SetPixel 3 70 sample_display = Some st1 /\
    ClearPixel 3 70 st1 = Some st2 /\
    mFramebuffer st2 !! pixel_byte 3 70 = Some (Z.clearbit old (70 mod 8)) /\
    (Z.testbit old (70 mod 8) = false -> set_clear_restores sample_display 3 70) /\
    SetPixel 3 70 st1 = Some st1.
Proof.
  apply (set_clear_and_set_twice sample_display 3 70).
  - lia.
  - lia.
  - unfold sample_display. apply bytes_new.
  - unfold sample_display. rewrite length_new. lia.
Defined.

(** C4, as the spec words it, fails when the pixel is already lit:
    [SetPixel] keeps the byte at 1 and [ClearPixel] then makes it 0. *)
Lemma set_clear_loses_lit_pixel : ~ set_clear_restores lit_display 0 0.
Proof.
  intros Hc.
  assert (E1 : SetPixel 0 0 lit_display = Some lit_display) by (vm_compute; reflexivity).
  assert (E2 : ClearPixel 0 0 lit_display = Some sample_display)
    by (vm_compute; reflexivity).
  specialize (Hc _ _ E1 E2). vm_compute in Hc. discriminate.
Qed.

Lemma pixel_ops_touch_one_bit_witness :
  exists old,
    mFramebuffer sample_display !! pixel_byte 200 100 = Some old /\
    SetPixel 200 100 sample_display
    = Some (set_fb sample_display
              (<[pixel_byte 200 100 := Z.setbit old (100 mod 8)]>
                 (mFramebuffer sample_display))) /\
    ClearPixel 200 100 sample_display
    = Some (set_fb sample_display
              (<[pixel_byte 200 100 := Z.clearbit old (100 mod 8)]>
                 (mFramebuffer sample_display))) /\
    (forall b, 0 <= b ->
       Z.testbit (Z.setbit old (100 mod 8)) b = (100 mod 8 =? b) || Z.testbit old b) /\
    (forall b, 0 <= b ->
       Z.testbit (Z.clearbit old (100 mod 8)) b
       = negb (100 mod 8 =? b) && Z.testbit old b) /\
    (forall k v, k <> pixel_byte 200 100 ->
       <[pixel_byte 200 100 := v]> (mFramebuffer sample_display) !! k
       = mFramebuffer sample_display !! k).
Proof.
  apply (pixel_ops_touch_one_bit sample_display 200 100).
  - lia.
  - lia.
  - unfold sample_display. apply bytes_new.
  - unfold sample_display. rewrite length_new. lia.
Defined.

Lemma message_overlay_witness :
  exists st1 st2,
    Update SampleFont sample_level (Some scenario_synth)
      (SetMessage 21 loading sample_display) = Some st1 /\
    message_shown SampleFont (mFramebuffer st1)
      (mMessageText (SetMessage 21 loading sample_display)) /\
    mMessageFlag st1 = true /\
    mMessageText st1 = mMessageText (SetMessage 21 loading sample_display) /\
    mHeight st1 = mHeight (SetMessage 21 loading sample_display) /\
    length (mFramebuffer st1)
    = length (mFramebuffer (SetMessage 21 loading sample_display)) /\
    DrawStatusLine SampleFont scenario_synth st1 = Some st1 /\
    Update SampleFont sample_level (Some loud_synth) (ClearMessage st1) = Some st2 /\
    status_shown SampleFont (mFramebuffer st2) loud_synth.
Proof.
  apply (message_overlay SampleFont sample_level
           (SetMessage 21 loading sample_display) scenario_synth loud_synth).
  - reflexivity.
  - apply Nat.leb_le. vm_compute. reflexivity.
  - left. reflexivity.
  - apply Nat.leb_le. vm_compute. reflexivity.
  - apply Forall_forall. intros c Hc.
    apply list_elem_of_In in Hc. vm_compute in Hc.
    repeat (destruct Hc as [<-|Hc]; [lia|]). destruct Hc.
  - change (0 <= 100 < 256). lia.
Defined.

Lemma Clear_zeroes_and_transfers_witness :
  exists fb',
    length fb' = length (mFramebuffer sample_display) /\
    (forall j : nat, (1 <= j <= Z.to_nat (mHeight sample_display * 16))%nat ->
                     fb' !! j = Some 0) /\
    fb' !! 0%nat = mFramebuffer sample_display !! 0%nat /\
    (forall j : nat, (Z.to_nat (mHeight sample_display * 16) < j)%nat ->
                     fb' !! j = mFramebuffer sample_display !! j) /\
    Clear sample_display
    = Some (set_bus (set_fb sample_display fb')
              (fst (Write (mI2CMaster sample_display) (mAddress sample_display)
                      (take (Z.to_nat (mHeight sample_display * 16 + 1)) fb')))).
Proof.
  apply (Clear_zeroes_and_transfers sample_display).
  - change (0 <= 32). lia.
  - apply Nat.leb_le. vm_compute. reflexivity.
Defined.

Lemma control_byte_invariant_witness :
  mFramebuffer sample_display !! 0%nat = Some 0x40 /\
  (forall (op : Operation) (st st' : CSSD1306 RecordingBus),
      operation_args op ->
      run_operation SampleFont sample_level op st = Some st' ->
      mFramebuffer st' !! 0%nat = mFramebuffer st !! 0%nat) /\
  (forall (ops : list Operation) (st : CSSD1306 RecordingBus),
      Forall operation_args ops ->
      run_operations SampleFont sample_level ops sample_display = Some st ->
      mFramebuffer st !! 0%nat = Some 0x40).
Proof.
  apply (control_byte_invariant SampleFont 1025 sample_level [] 0x3C 32).
  lia.
Defined.

Lemma peak_timer_wraps_witness :
  let st' := UpdatePartLevels sample_level silent_synth sample_display in
  rd (mPeakTimes st') 0 = (rd (mPeakTimes sample_display) 0 - 1) mod 256 /\
  (rd (mPeakTimes sample_display) 0 = 0 -> rd (mPeakTimes st') 0 = 255) /\
  rd (mPeakLevels st') 0 = 0.
Proof.
  apply (peak_timer_wraps sample_level sample_display 0 silent_synth).
  - repeat split.
  - lia.
  - reflexivity.
  - reflexivity.
Defined.

(** ** Further properties of the driver *)

(** *** Initialization on the recording bus *)

Lemma recording_fold (cmds : list Z) :
  forall (log : RecordingBus) (address : Z),
    fold_left (fun b byte => fst (Write b address [0x80; byte])) cmds log
    = log ++ map (fun byte => (address, [0x80; byte])) cmds.
Proof.
  induction cmds as [|c rest IH]; intros log address; cbn [fold_left map].
  - symmetry. apply app_nil_r.
  - rewrite IH. cbn. rewrite <- app_assoc. reflexivity.
Qed.

(** X1. On a bus that records its traffic, [Initialize] with height 32
    or 64 adds one two-byte transaction per command, control byte 0x80
    first, in the order of the sequence, and changes nothing else; with
    any other height it returns false and the bus sees nothing. *)
Theorem Initialize_transactions (st : CSSD1306 RecordingBus) :
  Initialize st
  = if bool_decide (mHeight st = 32 \/ mHeight st = 64)
    then (true, set_bus st (mI2CMaster st ++ init_writes (mAddress st)))
    else (false, st).
Proof.
  case_bool_decide as Hh.
  - unfold Initialize. rewrite recording_fold.
    destruct Hh as [-> | ->]; reflexivity.
  - apply Initialize_unsupported_height; tauto.
Qed.

(** *** Pixels *)

Lemma pixel_byte_same (x y x' y' : Z) :
  pixel_byte x' y' = pixel_byte x y -> y' mod 8 = y mod 8 ->
  x' mod 128 = x mod 128 /\ y' mod 64 = y mod 64.
Proof.
  unfold pixel_byte. intros Hk Hb.
  pose proof (pixel_index_range x y). pose proof (pixel_index_range x' y').
  assert (Hk' : y' mod 64 / 8 * 128 + x' mod 128 = y mod 64 / 8 * 128 + x mod 128) by lia.
  clear Hk H H0. Z.to_euclidean_division_equations. lia.
Qed.

Section PixelAlgebra.
Context {B : Type}.
Implicit Types (st : CSSD1306 B) (x y : Z).

(** X2. After [SetPixel (x, y)] the pixel reads lit, after [ClearPixel]
    unlit, and every pixel with other coordinates (modulo 128 by 64)
    reads as before. *)
Theorem pixel_read_back st x y :
  0 <= x < 256 -> 0 <= y < 256 ->
  bytes (mFramebuffer st) -> (1025 <= length (mFramebuffer st))%nat ->
  exists st1 st0,
    SetPixel x y st = Some st1 /\ ClearPixel x y st = Some st0 /\
    pixel_lit (mFramebuffer st1) x y = true /\
    pixel_lit (mFramebuffer st0) x y = false /\
    forall x' y',
      x' mod 128 <> x mod 128 \/ y' mod 64 <> y mod 64 ->
      pixel_lit (mFramebuffer st1) x' y' = pixel_lit (mFramebuffer st) x' y' /\
      pixel_lit (mFramebuffer st0) x' y' = pixel_lit (mFramebuffer st) x' y'.
Proof.
  intros Hx Hy Hb Hlen.
  pose proof (pixel_byte_lt x y _ Hlen) as Hlt.
  destruct (lookup_lt_is_Some_2 (mFramebuffer st) (pixel_byte x y)) as [old Hold];
    [exact Hlt|].
  assert (Ho : 0 <= old < 256) by (eapply Forall_lookup_1 in Hb; eauto).
  pose proof (Z.mod_pos_bound y 8) as Hy8.
  eexists _, _.
  split; [apply (SetPixel_spec st x y old); assumption|].
  split; [apply (ClearPixel_spec st x y old); assumption|].
  cbn [mFramebuffer set_fb]. unfold pixel_lit.
  split; [rewrite list_lookup_insert_eq by exact Hlt; cbn; apply Z.setbit_eq; lia|].
  split; [rewrite list_lookup_insert_eq by exact Hlt; cbn; apply Z.clearbit_eq|].
  intros x' y' Hother.
  destruct (decide (pixel_byte x' y' = pixel_byte x y)) as [Ek|Nk].
  - rewrite Ek, !list_lookup_insert_eq, Hold by exact Hlt. cbn.
    assert (Hbit : y mod 8 <> y' mod 8).
    { intros Eb. destruct (pixel_byte_same x y x' y' Ek (eq_sym Eb)). tauto. }
    pose proof (Z.mod_pos_bound y' 8).
    split; [apply Z.setbit_neq | apply Z.clearbit_neq]; lia.
  - rewrite !list_lookup_insert_ne by congruence. split; reflexivity.
Qed.

(** X3. Coordinates are taken modulo 128 and 64: [SetPixel] and
    [ClearPixel] at [(x, y)] are the calls at [(x mod 128, y mod 64)]. *)
Theorem pixel_coordinates_wrap st x y :
  0 <= x < 256 -> 0 <= y < 256 ->
  SetPixel x y st = SetPixel (x mod 128) (y mod 64) st /\
  ClearPixel x y st = ClearPixel (x mod 128) (y mod 64) st.
Proof.
  intros Hx Hy.
  pose proof (Z.mod_pos_bound x 128). pose proof (Z.mod_pos_bound y 64).
  assert (Ei : pixel_index (to_u8 (Z.land x 0x7f)) (to_u8 (Z.land y 0x3f))
               = pixel_index (to_u8 (Z.land (x mod 128) 0x7f))
                             (to_u8 (Z.land (y mod 64) 0x3f))).
  { rewrite !pixel_index_eq by lia. rewrite !Z.mod_mod by lia. reflexivity. }
  assert (Eb : Z.land (to_u8 (Z.land y 0x3f)) 7
               = Z.land (to_u8 (Z.land (y mod 64) 0x3f)) 7).
  { rewrite !mask_y_bit by lia. clear. Z.to_euclidean_division_equations. lia. }
  unfold SetPixel, ClearPixel. rewrite Ei, Eb. split; reflexivity.
Qed.

End PixelAlgebra.

Lemma setbit_comm (v a b : Z) : 0 <= a -> 0 <= b ->
  Z.setbit (Z.setbit v a) b = Z.setbit (Z.setbit v b) a.
Proof.
  intros Ha Hb. apply Z.bits_inj'. intros i Hi.
  rewrite !Z.setbit_eqb by lia.
  destruct (a =? i), (b =? i); reflexivity.
Qed.

Lemma clearbit_setbit_comm (v a b : Z) : 0 <= a -> 0 <= b -> a <> b ->
  Z.clearbit (Z.setbit v a) b = Z.setbit (Z.clearbit v b) a.
Proof.
  intros Ha Hb Hne. apply Z.bits_inj'. intros i Hi.
  rewrite Z.clearbit_eqb, !Z.setbit_eqb, Z.clearbit_eqb by lia.
  destruct (Z.eqb_spec a i), (Z.eqb_spec b i); cbn; try lia;
    rewrite ?andb_true_r, ?andb_false_r; reflexivity.
Qed.

Section PixelOrder.
Context {B : Type}.
Implicit Types (st : CSSD1306 B) (x y : Z).

(** X4. The order of pixel operations does not matter: two [SetPixel]
    calls commute, and a [SetPixel] commutes with a [ClearPixel] of
    another pixel. *)
Theorem pixel_ops_commute st x y x' y' :
  0 <= x < 256 -> 0 <= y < 256 -> 0 <= x' < 256 -> 0 <= y' < 256 ->
  bytes (mFramebuffer st) -> (1025 <= length (mFramebuffer st))%nat ->
  (do s <- SetPixel x y st; SetPixel x' y' s)
  = (do s <- SetPixel x' y' st; SetPixel x y s) /\
  (x' mod 128 <> x mod 128 \/ y' mod 64 <> y mod 64 ->
   (do s <- SetPixel x y st; ClearPixel x' y' s)
   = (do s <- ClearPixel x' y' st; SetPixel x y s)).
Proof.
  intros Hx Hy Hx' Hy' Hb Hlen.
  pose proof (pixel_byte_lt x y _ Hlen) as Hlt.
  pose proof (pixel_byte_lt x' y' _ Hlen) as Hlt'.
  destruct (lookup_lt_is_Some_2 (mFramebuffer st) (pixel_byte x y)) as [old Hold];
    [exact Hlt|].
  destruct (lookup_lt_is_Some_2 (mFramebuffer st) (pixel_byte x' y')) as [old' Hold'];
    [exact Hlt'|].
  assert (Ho : 0 <= old < 256) by (eapply Forall_lookup_1 in Hb; eauto).
  assert (Ho' : 0 <= old' < 256) by (eapply Forall_lookup_1 in Hb; eauto).
  pose proof (Z.mod_pos_bound y 8) as Hy8. pose proof (Z.mod_pos_bound y' 8) as Hy8'.
  rewrite (SetPixel_spec st x y old), (SetPixel_spec st x' y' old'),
    (ClearPixel_spec st x' y' old') by assumption.
  destruct (decide (pixel_byte x' y' = pixel_byte x y)) as [Ek|Nk].
  - rewrite Ek in *. assert (old' = old) by congruence. subst old'.
    rewrite (SetPixel_spec _ x' y' (Z.setbit old (y mod 8))),
      (SetPixel_spec _ x y (Z.setbit old (y' mod 8))),
      (ClearPixel_spec _ x' y' (Z.setbit old (y mod 8))),
      (SetPixel_spec _ x y (Z.clearbit old (y' mod 8)));
      try assumption; try (apply setbit_u8; lia); try (apply clearbit_u8; lia);
      try (cbn [mFramebuffer set_fb]; rewrite ?Ek; apply list_lookup_insert_eq; exact Hlt).
    cbn [mFramebuffer set_fb]. rewrite ?Ek, !list_insert_insert_eq.
    split.
    + rewrite (setbit_comm old (y mod 8) (y' mod 8)) by lia. reflexivity.
    + intros Hother.
      assert (Hbit : y mod 8 <> y' mod 8).
      { intros Eb. destruct (pixel_byte_same x y x' y' Ek (eq_sym Eb)). tauto. }
      rewrite clearbit_setbit_comm by lia. reflexivity.
  - rewrite (SetPixel_spec _ x' y' old'), (SetPixel_spec _ x y old),
      (ClearPixel_spec _ x' y' old'), (SetPixel_spec _ x y old);
      try assumption;
      try (cbn [mFramebuffer set_fb]; rewrite list_lookup_insert_ne by congruence;
           assumption).
    cbn [mFramebuffer set_fb].
    split; [|intros _]; f_equal; f_equal; apply list_insert_insert_ne; congruence.
Qed.

End PixelOrder.

(** *** Glyph pixels *)

Lemma drawn_column_testbit (inv : bool) (j col m : Z) :
  0 <= m < 16 ->
  Z.testbit (drawn_column inv j col) m
  = xorb (Z.testbit col m) (inv && (0 <? j) && (m <? 14)).
Proof.
  intros Hm. unfold drawn_column.
  destruct (0 <? j), inv; cbn [andb]; rewrite ?xorb_false_r; try reflexivity.
  rewrite testbit_to_u16, Z.lxor_spec by lia.
  change 0x3FFF with (Z.ones 14). rewrite Z.testbit_ones_nonneg by lia.
  destruct (Z.ltb_spec m 16); [reflexivity | lia].
Qed.

Lemma column_bytes_testbit (d m : Z) :
  0 <= m < 16 ->
  Z.testbit (if m <? 8 then column_lo d else column_hi d) (m mod 8) = Z.testbit d m.
Proof.
  intros Hm. unfold column_lo, column_hi. change 0xFF with (Z.ones 8).
  destruct (Z.ltb_spec m 8).
  - rewrite Z.mod_small by lia.
    rewrite Z.land_spec, Z.testbit_ones_nonneg by lia.
    destruct (Z.ltb_spec m 8); [apply andb_true_r | lia].
  - assert (Em : m mod 8 = m - 8) by (Z.to_euclidean_division_equations; lia).
    rewrite Em, Z.land_spec, Z.shiftr_spec, Z.testbit_ones_nonneg by lia.
    replace (m - 8 + 8) with m by lia.
    destruct (Z.ltb_spec (m - 8) 8); [apply andb_true_r | lia].
Qed.

Lemma DoubleColumn_glyph_bit (g : list Z) (j m : Z) :
  0 <= j < 6 -> 0 <= m < 16 ->
  Z.testbit (DoubleColumn g j) m = Z.testbit (rd g (m / 2)) (5 - j).
Proof.
  intros Hj Hm.
  assert (Hh : 0 <= m / 2 < 8) by (Z.to_euclidean_division_equations; lia).
  rewrite DoubleColumn_testbit, SingleColumn_testbit by lia.
  destruct (Z.ltb_spec m 16); [|lia]. destruct (Z.ltb_spec (m / 2) 8); [|lia].
  reflexivity.
Qed.

Section GlyphPixels.
Variable Font6x8 : list (list Z).
Context {B : Type} `{I2CMaster B}.
Implicit Types (st : CSSD1306 B) (fb : list Z) (c x y : Z).

Lemma FontDouble_glyph (n : nat) (g : list Z) :
  Font6x8 !! n = Some g ->
  FontDouble Font6x8 !! n = Some (map (DoubleColumn g) (seqZ 0 6)).
Proof.
  intros Hg. unfold FontDouble, Font.
  change (map ?f Font6x8) with (f <$> Font6x8).
  rewrite list_lookup_fmap, Hg. reflexivity.
Qed.

(** A single-width [DrawChar], inverted or not, byte by byte. *)
Lemma DrawChar_single st c x y (inv : bool) cols :
  0 <= x -> 0 <= y ->
  FontDouble Font6x8 !! Z.to_nat (to_u8 (c - 32)) = Some cols ->
  cell_offset x y + 128 + 6 <= Z.of_nat (length (mFramebuffer st)) ->
  exists fb',
    DrawChar Font6x8 c x y inv false st = Some (set_fb st fb') /\
    length fb' = length (mFramebuffer st) /\
    (forall i, 0 <= i < 6 ->
       fb' !! Z.to_nat (cell_offset x y + i)
       = Some (column_lo (drawn_column inv i (rd cols i))) /\
       fb' !! Z.to_nat (cell_offset x y + 128 + i)
       = Some (column_hi (drawn_column inv i (rd cols i)))) /\
    forall j, ~ in_cell x y j -> fb' !! j = mFramebuffer st !! j.
Proof.
  intros Hx Hy Hc Hlen. set (off := cell_offset x y).
  assert (Hoff : 4 <= off) by (unfold off, cell_offset; lia).
  destruct (for_loop_opt_inv
              (fun k s =>
                 s = set_fb st (mFramebuffer s) /\
                 length (mFramebuffer s) = length (mFramebuffer st) /\
                 forall j : nat,
                   mFramebuffer s !! j
                   = if decide (off <= Z.of_nat j < off + k)
                     then Some (column_lo
                                  (drawn_column inv (Z.of_nat j - off)
                                     (rd cols (Z.of_nat j - off))))
                     else if decide (off + 128 <= Z.of_nat j < off + 128 + k)
                          then Some (column_hi
                                       (drawn_column inv (Z.of_nat j - off - 128)
                                          (rd cols (Z.of_nat j - off - 128))))
                          else mFramebuffer st !! j)
              (fun i s =>
                 do col <- font_column Font6x8 c i;
                 let fontColumn := drawn_column inv i col in
                 let offset := y * 128 * 2 + (x * 6 + 4) + i in
                 do s1 <- store offset (Z.land fontColumn 0xFF) s;
                 do s2 <- store (offset + 128) (Z.land (Z.shiftr fontColumn 8) 0xFF) s1;
                 Some s2)
              6 0 st) as (s' & Hrun & Hs & Hl & Hbytes).
  - split; [symmetry; apply set_fb_same|]. split; [reflexivity|].
    intros j. repeat case_decide; try lia. reflexivity.
  - intros k s Hk (Hs & Hl & Hbytes).
    rewrite (font_column_ok Font6x8 c k cols Hc) by lia. cbv zeta.
    fold (cell_offset x y). fold off.
    rewrite store_ok by lia. cbn [mFramebuffer set_fb].
    rewrite store_ok by (cbn [mFramebuffer set_fb]; rewrite length_insert; lia).
    cbn [mFramebuffer set_fb].
    eexists. split; [reflexivity|]. cbn [mFramebuffer set_fb].
    split; [rewrite Hs at 1; reflexivity|].
    split; [rewrite !length_insert; exact Hl|].
    intros j.
    destruct (decide (j = Z.to_nat (off + k + 128))) as [->|Hn1].
    + rewrite list_lookup_insert_eq by (rewrite length_insert; lia).
      rewrite Z2Nat.id by lia.
      replace (off + k + 128 - off - 128) with k by lia.
      repeat case_decide; try lia. reflexivity.
    + rewrite list_lookup_insert_ne by congruence.
      destruct (decide (j = Z.to_nat (off + k))) as [->|Hn2].
      * rewrite list_lookup_insert_eq by lia.
        rewrite Z2Nat.id by lia.
        replace (off + k - off) with k by lia.
        repeat case_decide; try lia. reflexivity.
      * rewrite list_lookup_insert_ne by congruence. rewrite Hbytes.
        repeat case_decide; try lia; reflexivity.
  - exists (mFramebuffer s'). split.
    + unfold DrawChar. rewrite <- Hs. exact Hrun.
    + split; [exact Hl|]. split.
      * intros i Hi. fold off. rewrite !Hbytes.
        rewrite !Z2Nat.id by lia.
        replace (off + i - off) with i by lia.
        replace (off + 128 + i - off - 128) with i by lia.
        repeat case_decide; try lia. split; reflexivity.
      * intros j Hj. rewrite Hbytes. unfold in_cell in Hj. fold off in Hj.
        repeat case_decide; try lia; reflexivity.
Qed.

Lemma cell_pixel_byte x y j m :
  0 <= x < 20 -> 0 <= y < 4 -> 0 <= j < 6 -> 0 <= m < 16 ->
  pixel_byte (x * 6 + 3 + j) (y * 16 + m)
  = Z.to_nat (cell_offset x y + (if m <? 8 then 0 else 128) + j) /\
  (y * 16 + m) mod 8 = m mod 8.
Proof.
  intros Hx Hy Hj Hm. unfold pixel_byte, cell_offset.
  rewrite (Z.mod_small (y * 16 + m) 64), (Z.mod_small (x * 6 + 3 + j) 128) by lia.
  split; [|Z.to_euclidean_division_equations; lia].
  f_equal. destruct (Z.ltb_spec m 8); Z.to_euclidean_division_equations; lia.
Qed.

(** X5. A single-width [DrawChar] puts the glyph at pixel columns
    [6x + 3 .. 6x + 8] and rows [16y .. 16y + 15]: pixel [(j, m)] of the
    cell is bit [5 - j] of glyph row [m / 2], each row being drawn twice.
    With [pInverted] the pixels are complemented except in the leftmost
    column and the two bottom rows.  No byte outside the cell changes. *)
Theorem DrawChar_pixels st c x y (inv : bool) (g : list Z) :
  0 <= x < 20 -> 0 <= y < 4 ->
  Font6x8 !! Z.to_nat (to_u8 (c - 32)) = Some g ->
  cell_offset x y + 128 + 6 <= Z.of_nat (length (mFramebuffer st)) ->
  exists fb',
    DrawChar Font6x8 c x y inv false st = Some (set_fb st fb') /\
    (forall j m, 0 <= j < 6 -> 0 <= m < 16 ->
       pixel_lit fb' (x * 6 + 3 + j) (y * 16 + m)
       = xorb (Z.testbit (rd g (m / 2)) (5 - j)) (inv && (0 <? j) && (m <? 14))) /\
    forall k, ~ in_cell x y k -> fb' !! k = mFramebuffer st !! k.
Proof.
  intros Hx Hy Hg Hlen.
  destruct (DrawChar_single st c x y inv (map (DoubleColumn g) (seqZ 0 6)))
    as (fb' & Hd & _ & Hcols & Hframe); try lia.
  { apply FontDouble_glyph, Hg. }
  exists fb'. split; [exact Hd|]. split; [|exact Hframe].
  intros j m Hj Hm.
  destruct (cell_pixel_byte x y j m Hx Hy Hj Hm) as [Ek Eb].
  destruct (Hcols j Hj) as [Hlo Hhi].
  unfold pixel_lit. rewrite Ek, Eb.
  rewrite rd_map_seqZ in Hlo, Hhi by lia.
  pose proof (column_bytes_testbit (drawn_column inv j (DoubleColumn g j)) m Hm) as Ebit.
  destruct (m <? 8).
  - replace (cell_offset x y + 0 + j) with (cell_offset x y + j) by lia.
    rewrite Hlo. cbn [default from_option id]. rewrite Ebit.
    rewrite drawn_column_testbit, DoubleColumn_glyph_bit by lia. reflexivity.
  - rewrite Hhi. cbn [default from_option id]. rewrite Ebit.
    rewrite drawn_column_testbit, DoubleColumn_glyph_bit by lia. reflexivity.
Qed.

End GlyphPixels.

Section WideGlyphs.
Variable Font6x8 : list (list Z).
Context {B : Type} `{I2CMaster B}.
Implicit Types (st : CSSD1306 B) (fb : list Z) (c x y : Z).

(** A double-width [DrawChar], byte by byte: every column twice. *)
Lemma DrawChar_double st c x y (inv : bool) cols :
  0 <= x -> 0 <= y ->
  FontDouble Font6x8 !! Z.to_nat (to_u8 (c - 32)) = Some cols ->
  y * 128 * 2 + (x * 12 + 4) + 128 + 12 <= Z.of_nat (length (mFramebuffer st)) ->
  exists fb',
    DrawChar Font6x8 c x y inv true st = Some (set_fb st fb') /\
    length fb' = length (mFramebuffer st) /\
    (forall k, 0 <= k < 12 ->
       fb' !! Z.to_nat (y * 128 * 2 + (x * 12 + 4) + k)
       = Some (column_lo (drawn_column inv (k / 2) (rd cols (k / 2)))) /\
       fb' !! Z.to_nat (y * 128 * 2 + (x * 12 + 4) + 128 + k)
       = Some (column_hi (drawn_column inv (k / 2) (rd cols (k / 2))))) /\
    forall j, ~ in_wide_cell x y j -> fb' !! j = mFramebuffer st !! j.
Proof.
  intros Hx Hy Hc Hlen. set (off := y * 128 * 2 + (x * 12 + 4)) in *.
  assert (Hoff : 4 <= off) by (unfold off; lia).
  destruct (for_loop_opt_inv
              (fun k s =>
                 s = set_fb st (mFramebuffer s) /\
                 length (mFramebuffer s) = length (mFramebuffer st) /\
                 forall j : nat,
                   mFramebuffer s !! j
                   = if decide (off <= Z.of_nat j < off + k * 2)
                     then Some (column_lo
                                  (drawn_column inv ((Z.of_nat j - off) / 2)
                                     (rd cols ((Z.of_nat j - off) / 2))))
                     else if decide (off + 128 <= Z.of_nat j < off + 128 + k * 2)
                          then Some (column_hi
                                       (drawn_column inv ((Z.of_nat j - off - 128) / 2)
                                          (rd cols ((Z.of_nat j - off - 128) / 2))))
                          else mFramebuffer st !! j)
              (fun i s =>
                 do col <- font_column Font6x8 c i;
                 let fontColumn := drawn_column inv i col in
                 let offset := off + i * 2 in
                 do s1 <- store offset (Z.land fontColumn 0xFF) s;
                 do s2 <- store (offset + 128) (Z.land (Z.shiftr fontColumn 8) 0xFF) s1;
                 do a <- load offset s2;
                 do s3 <- store (offset + 1) a s2;
                 do b <- load (offset + 128) s3;
                 store (offset + 128 + 1) b s3)
              6 0 st) as (s' & Hrun & Hs & Hl & Hbytes).
  - split; [symmetry; apply set_fb_same|]. split; [reflexivity|].
    intros j. repeat case_decide; try lia. reflexivity.
  - intros k s Hk (Hs & Hl & Hbytes).
    rewrite (font_column_ok Font6x8 c k cols Hc) by lia. cbv zeta.
    set (o := off + k * 2).
    fold (column_lo (drawn_column inv k (rd cols k))).
    fold (column_hi (drawn_column inv k (rd cols k))).
    set (lo := column_lo _). set (hi := column_hi _).
    rewrite (store_ok s o lo) by (unfold o; lia). cbn [mFramebuffer set_fb].
    rewrite store_ok by (cbn [mFramebuffer set_fb]; rewrite length_insert; unfold o; lia).
    cbn [mFramebuffer set_fb].
    rewrite load_ok by (unfold o; lia). cbn [mFramebuffer set_fb].
    rewrite list_lookup_insert_ne by lia.
    rewrite list_lookup_insert_eq by (unfold o; lia).
    rewrite store_ok
      by (cbn [mFramebuffer set_fb]; rewrite !length_insert; unfold o; lia).
    cbn [mFramebuffer set_fb].
    rewrite load_ok by (unfold o; lia). cbn [mFramebuffer set_fb].
    rewrite list_lookup_insert_ne by lia.
    rewrite list_lookup_insert_eq by (rewrite length_insert; unfold o; lia).
    rewrite store_ok
      by (cbn [mFramebuffer set_fb]; rewrite !length_insert; unfold o; lia).
    cbn [mFramebuffer set_fb].
    eexists. split; [reflexivity|]. cbn [mFramebuffer set_fb].
    split; [rewrite Hs at 1; reflexivity|].
    split; [rewrite !length_insert; exact Hl|].
    intros j.
    assert (Eh : forall r, 0 <= r < 2 -> (o + r - off) / 2 = k)
      by (intros r Hr; unfold o; Z.to_euclidean_division_equations; lia).
    destruct (decide (j = Z.to_nat (o + 128 + 1))) as [->|Hn1].
    { rewrite list_lookup_insert_eq by (rewrite !length_insert; unfold o; lia).
      rewrite Z2Nat.id by (unfold o; lia).
      replace (o + 128 + 1 - off - 128) with (o + 1 - off) by lia.
      rewrite (Eh 1) by lia.
      unfold o. repeat case_decide; try lia. reflexivity. }
    rewrite list_lookup_insert_ne by congruence.
    destruct (decide (j = Z.to_nat (o + 1))) as [->|Hn2].
    { rewrite list_lookup_insert_eq by (rewrite !length_insert; unfold o; lia).
      rewrite Z2Nat.id by (unfold o; lia).
      rewrite (Eh 1) by lia.
      unfold o. repeat case_decide; try lia. reflexivity. }
    rewrite list_lookup_insert_ne by congruence.
    destruct (decide (j = Z.to_nat (o + 128))) as [->|Hn3].
    { rewrite list_lookup_insert_eq by (rewrite !length_insert; unfold o; lia).
      rewrite Z2Nat.id by (unfold o; lia).
      replace (o + 128 - off - 128) with (o + 0 - off) by lia.
      rewrite (Eh 0) by lia.
      unfold o. repeat case_decide; try lia. reflexivity. }
    rewrite list_lookup_insert_ne by congruence.
    destruct (decide (j = Z.to_nat o)) as [->|Hn4].
    { rewrite list_lookup_insert_eq by (unfold o; lia).
      rewrite Z2Nat.id by (unfold o; lia).
      replace (o - off) with (o + 0 - off) by lia.
      rewrite (Eh 0) by lia.
      unfold o. repeat case_decide; try lia. reflexivity. }
    rewrite list_lookup_insert_ne by congruence. rewrite Hbytes.
    unfold o in *. repeat case_decide; try lia; reflexivity.
  - exists (mFramebuffer s'). split.
    + unfold DrawChar. rewrite <- Hs. exact Hrun.
    + split; [exact Hl|]. split.
      * intros k Hk. rewrite !Hbytes.
        rewrite !Z2Nat.id by lia.
        replace (off + k - off) with k by lia.
        replace (off + 128 + k - off - 128) with k by lia.
        repeat case_decide; try lia. split; reflexivity.
      * intros j Hj. rewrite Hbytes. unfold in_wide_cell in Hj. fold off in Hj.
        repeat case_decide; try lia; reflexivity.
Qed.

Lemma wide_cell_pixel_byte x y k m :
  0 <= x < 10 -> 0 <= y < 4 -> 0 <= k < 12 -> 0 <= m < 16 ->
  pixel_byte (x * 12 + 3 + k) (y * 16 + m)
  = Z.to_nat (y * 128 * 2 + (x * 12 + 4) + (if m <? 8 then 0 else 128) + k) /\
  (y * 16 + m) mod 8 = m mod 8.
Proof.
  intros Hx Hy Hk Hm. unfold pixel_byte.
  rewrite (Z.mod_small (y * 16 + m) 64), (Z.mod_small (x * 12 + 3 + k) 128) by lia.
  split; [|Z.to_euclidean_division_equations; lia].
  f_equal. destruct (Z.ltb_spec m 8); Z.to_euclidean_division_equations; lia.
Qed.

(** X6. A double-width [DrawChar] uses cells of twelve pixel columns,
    [12x + 3 .. 12x + 14], and draws every glyph column twice: pixel
    [(k, m)] of the cell is bit [5 - k / 2] of glyph row [m / 2], with
    the same inversion rule per glyph column.  No byte outside the wide
    cell changes. *)
Theorem DrawChar_double_width_pixels st c x y (inv : bool) (g : list Z) :
  0 <= x < 10 -> 0 <= y < 4 ->
  Font6x8 !! Z.to_nat (to_u8 (c - 32)) = Some g ->
  y * 128 * 2 + (x * 12 + 4) + 128 + 12 <= Z.of_nat (length (mFramebuffer st)) ->
  exists fb',
    DrawChar Font6x8 c x y inv true st = Some (set_fb st fb') /\
    (forall k m, 0 <= k < 12 -> 0 <= m < 16 ->
       pixel_lit fb' (x * 12 + 3 + k) (y * 16 + m)
       = xorb (Z.testbit (rd g (m / 2)) (5 - k / 2))
              (inv && (0 <? k / 2) && (m <? 14))) /\
    forall j, ~ in_wide_cell x y j -> fb' !! j = mFramebuffer st !! j.
Proof.
  intros Hx Hy Hg Hlen.
  destruct (DrawChar_double st c x y inv (map (DoubleColumn g) (seqZ 0 6)))
    as (fb' & Hd & _ & Hcols & Hframe); try lia.
  { apply FontDouble_glyph, Hg. }
  exists fb'. split; [exact Hd|]. split; [|exact Hframe].
  intros k m Hk Hm.
  destruct (wide_cell_pixel_byte x y k m Hx Hy Hk Hm) as [Ek Eb].
  destruct (Hcols k Hk) as [Hlo Hhi].
  assert (Hh : 0 <= k / 2 < 6) by (Z.to_euclidean_division_equations; lia).
  unfold pixel_lit. rewrite Ek, Eb.
  rewrite rd_map_seqZ in Hlo, Hhi by lia.
  pose proof (column_bytes_testbit
                (drawn_column inv (k / 2) (DoubleColumn g (k / 2))) m Hm) as Ebit.
  destruct (m <? 8).
  - replace (y * 128 * 2 + (x * 12 + 4) + 0 + k)
      with (y * 128 * 2 + (x * 12 + 4) + k) by lia.
    rewrite Hlo. cbn [default from_option id]. rewrite Ebit.
    rewrite drawn_column_testbit, DoubleColumn_glyph_bit by lia. reflexivity.
  - rewrite Hhi. cbn [default from_option id]. rewrite Ebit.
    rewrite drawn_column_testbit, DoubleColumn_glyph_bit by lia. reflexivity.
Qed.

End WideGlyphs.

(** *** Meter bars *)

Lemma forallb_range3 (P : Z -> Z -> Z -> bool) (a b c : Z) :
  forallb (fun x => forallb (fun y => forallb (P x y) (seqZ 0 c)) (seqZ 0 b)) (seqZ 0 a)
  = true ->
  forall x y z, 0 <= x < a -> 0 <= y < b -> 0 <= z < c -> P x y z = true.
Proof.
  intros Hall x y z Hx Hy Hz.
  pose proof (forallb_range _ a Hall x Hx) as H1. cbv beta in H1.
  pose proof (forallb_range _ b H1 y Hy) as H2. cbv beta in H2.
  exact (forallb_range _ c H2 z Hz).
Qed.

(** The sixteen rows of a meter column, checked over all levels and
    peaks the meters can hold. *)
Lemma bar_bytes_bits (level peak k : Z) :
  0 <= level <= 16 -> 0 <= peak <= 16 -> 0 <= k < 16 ->
  Z.testbit (if k <? 8 then fst (bar_bytes level peak) else snd (bar_bytes level peak))
            (k mod 8)
  = bar_row level peak k.
Proof.
  intros Hl Hp Hk.
  pose proof (forallb_range3
                (fun l p k =>
                   Bool.eqb
                     (Z.testbit (if k <? 8 then fst (bar_bytes l p) else snd (bar_bytes l p))
                                (k mod 8))
                     (bar_row l p k))
                17 17 16 ltac:(vm_compute; reflexivity)
                level peak k ltac:(lia) ltac:(lia) Hk) as Hok.
  cbv beta in Hok. apply Bool.eqb_prop in Hok. exact Hok.
Qed.

(** X7. For levels and peaks from 0 to 16 the two bytes of a meter
    column show a bar of [level] rows from the bottom and one peak row
    [peak] rows up; a level or a peak of 0 lights nothing (the shift by
    eight falls out of the byte). *)
Theorem bar_bytes_rows (level peak k : Z) :
  0 <= level <= 16 -> 0 <= peak <= 16 -> 0 <= k < 16 ->
  Z.testbit (if k <? 8 then fst (bar_bytes level peak) else snd (bar_bytes level peak))
            (k mod 8)
  = bar_row level peak k /\
  0 <= fst (bar_bytes level peak) < 256 /\ 0 <= snd (bar_bytes level peak) < 256.
Proof.
  intros Hl Hp Hk.
  split; [apply bar_bytes_bits; assumption|].
  unfold bar_bytes, to_u8.
  destruct (8 <? level), (8 <? peak); cbn [fst snd];
    repeat split; try apply Z.mod_pos_bound; lia.
Qed.

Section Bars.
Context {B : Type} `{I2CMaster B}.
Implicit Types (st : CSSD1306 B) (fb : list Z).

(** [DrawPartLevels] byte by byte: twelve equal columns per channel in
    each of the two pages below the text, and nothing else. *)
Lemma DrawPartLevels_spec st :
  (511 <= length (mFramebuffer st))%nat ->
  exists fb',
    DrawPartLevels st = Some (set_fb st fb') /\
    length fb' = length (mFramebuffer st) /\
    (forall i j, 0 <= i < 9 -> 0 <= j < 12 ->
       fb' !! Z.to_nat (256 + i * 14 + j + 3)
       = Some (fst (bar_bytes (rd (mPartLevels st) i) (rd (mPeakLevels st) i))) /\
       fb' !! Z.to_nat (256 + i * 14 + j + 128 + 3)
       = Some (snd (bar_bytes (rd (mPartLevels st) i) (rd (mPeakLevels st) i)))) /\
    forall idx : nat,
      (forall i j, 0 <= i < 9 -> 0 <= j < 12 ->
         Z.of_nat idx <> 256 + i * 14 + j + 3 /\
         Z.of_nat idx <> 256 + i * 14 + j + 128 + 3) ->
      fb' !! idx = mFramebuffer st !! idx.
Proof.
  intros Hlen.
  assert (Hinner : forall i (s0 : CSSD1306 B) top bottom,
             0 <= i < 9 -> (511 <= length (mFramebuffer s0))%nat ->
             exists fb1,
               for_loop_opt 12 0
                 (fun j s =>
                    do s1 <- store (256 + i * 14 + j + 3) top s;
                    store (256 + i * 14 + j + 128 + 3) bottom s1) s0
               = Some (set_fb s0 fb1) /\
               length fb1 = length (mFramebuffer s0) /\
               (forall j, 0 <= j < 12 ->
                  fb1 !! Z.to_nat (256 + i * 14 + j + 3) = Some top /\
                  fb1 !! Z.to_nat (256 + i * 14 + j + 128 + 3) = Some bottom) /\
               forall idx : nat,
                 (forall j, 0 <= j < 12 ->
                    Z.of_nat idx <> 256 + i * 14 + j + 3 /\
                    Z.of_nat idx <> 256 + i * 14 + j + 128 + 3) ->
                 fb1 !! idx = mFramebuffer s0 !! idx).
  { intros i s0 top bottom Hi Hl0.
    destruct (for_loop_opt_inv
                (fun k s =>
                   s = set_fb s0 (mFramebuffer s) /\
                   length (mFramebuffer s) = length (mFramebuffer s0) /\
                   (forall j, 0 <= j < k ->
                      mFramebuffer s !! Z.to_nat (256 + i * 14 + j + 3) = Some top /\
                      mFramebuffer s !! Z.to_nat (256 + i * 14 + j + 128 + 3)
                      = Some bottom) /\
                   forall idx : nat,
                     (forall j, 0 <= j < k ->
                        Z.of_nat idx <> 256 + i * 14 + j + 3 /\
                        Z.of_nat idx <> 256 + i * 14 + j + 128 + 3) ->
                     mFramebuffer s !! idx = mFramebuffer s0 !! idx)
                (fun j s =>
                   do s1 <- store (256 + i * 14 + j + 3) top s;
                   store (256 + i * 14 + j + 128 + 3) bottom s1)
                12 0 s0) as (s' & Hrun & Hs & Hl & Hshow & Hframe).
    - split; [symmetry; apply set_fb_same|]. split; [reflexivity|].
      split; [intros j Hj; lia | reflexivity].
    - intros k s Hk (Hs & Hl & Hshow & Hframe).
      rewrite store_ok by lia. cbn [mFramebuffer set_fb].
      rewrite store_ok by (cbn [mFramebuffer set_fb]; rewrite length_insert; lia).
      cbn [mFramebuffer set_fb].
      eexists. split; [reflexivity|]. cbn [mFramebuffer set_fb].
      split; [rewrite Hs at 1; reflexivity|].
      split; [rewrite !length_insert; exact Hl|]. split.
      + intros j Hj. destruct (Z.eq_dec j k) as [->|Hne].
        * split.
          -- rewrite list_lookup_insert_ne by lia.
             apply list_lookup_insert_eq. lia.
          -- apply list_lookup_insert_eq. rewrite length_insert. lia.
        * rewrite !list_lookup_insert_ne by lia. apply Hshow. lia.
      + intros idx Hidx. destruct (Hidx k ltac:(lia)) as [N1 N2].
        rewrite !list_lookup_insert_ne by lia. apply Hframe.
        intros j Hj. apply Hidx. lia.
    - exists (mFramebuffer s'). rewrite Hrun, <- Hs.
      change (0 + Z.of_nat 12) with 12 in *. auto. }
  unfold DrawPartLevels.
  destruct (for_loop_opt_inv
              (fun k s =>
                 s = set_fb st (mFramebuffer s) /\
                 length (mFramebuffer s) = length (mFramebuffer st) /\
                 (forall i j, 0 <= i < k -> 0 <= j < 12 ->
                    mFramebuffer s !! Z.to_nat (256 + i * 14 + j + 3)
                    = Some (fst (bar_bytes (rd (mPartLevels st) i)
                                           (rd (mPeakLevels st) i))) /\
                    mFramebuffer s !! Z.to_nat (256 + i * 14 + j + 128 + 3)
                    = Some (snd (bar_bytes (rd (mPartLevels st) i)
                                           (rd (mPeakLevels st) i)))) /\
                 forall idx : nat,
                   (forall i j, 0 <= i < k -> 0 <= j < 12 ->
                      Z.of_nat idx <> 256 + i * 14 + j + 3 /\
                      Z.of_nat idx <> 256 + i * 14 + j + 128 + 3) ->
                   mFramebuffer s !! idx = mFramebuffer st !! idx)
              (fun i s =>
                 let '(topVal, bottomVal) :=
                   bar_bytes (rd (mPartLevels s) i) (rd (mPeakLevels s) i) in
                 for_loop_opt 12 0
                   (fun j s0 =>
                      do s1 <- store (256 + i * 14 + j + 3) topVal s0;
                      store (256 + i * 14 + j + 128 + 3) bottomVal s1) s)
              9 0 st) as (s' & Hrun & Hs & Hl & Hshow & Hframe).
  - split; [symmetry; apply set_fb_same|]. split; [reflexivity|].
    split; [intros i j Hi; lia | reflexivity].
  - intros k s Hk (Hs & Hl & Hshow & Hframe).
    assert (Hm : mPartLevels s = mPartLevels st /\ mPeakLevels s = mPeakLevels st)
      by (rewrite Hs; split; reflexivity).
    destruct Hm as [-> ->].
    destruct (bar_bytes (rd (mPartLevels st) k) (rd (mPeakLevels st) k))
      as [top bottom] eqn:Ebar.
    destruct (Hinner k s top bottom) as (fb1 & Hr1 & Hl1 & Hs1 & Hf1); [lia|lia|].
    rewrite Hr1. eexists. split; [reflexivity|]. cbn [mFramebuffer set_fb].
    split; [rewrite Hs at 1; reflexivity|].
    split; [congruence|]. split.
    + intros i j Hi Hj. destruct (Z.eq_dec i k) as [->|Hne].
      * rewrite Ebar. apply Hs1. lia.
      * rewrite !Hf1; [apply Hshow; lia| |]; intros j' Hj'; lia.
    + intros idx Hidx. rewrite Hf1 by (intros j Hj; apply Hidx; lia).
      apply Hframe. intros i j Hi Hj. apply Hidx; lia.
  - exists (mFramebuffer s'). rewrite Hrun, <- Hs.
    change (0 + Z.of_nat 9) with 9 in *. auto.
Qed.

Lemma bar_pixel_byte i j k :
  0 <= i < 9 -> 0 <= j < 12 -> 0 <= k < 16 ->
  pixel_byte (i * 14 + 2 + j) (16 + k)
  = Z.to_nat (256 + i * 14 + j + (if k <? 8 then 0 else 128) + 3) /\
  (16 + k) mod 8 = k mod 8.
Proof.
  intros Hi Hj Hk. unfold pixel_byte.
  rewrite (Z.mod_small (16 + k) 64), (Z.mod_small (i * 14 + 2 + j) 128) by lia.
  split; [|Z.to_euclidean_division_equations; lia].
  f_equal. destruct (Z.ltb_spec k 8); Z.to_euclidean_division_equations; lia.
Qed.


End Bars.

(** *** Meter state *)


Section MeterInvariant.
Variable Font6x8 : list (list Z).
Variable FramebufferSize : nat.
Variable VelocityLevel : Z -> Z.
Context {B : Type} `{I2CMaster B}.
Implicit Types (st : CSSD1306 B).



(** X10. While a channel sounds its level follows the scaled velocity,
    its peak is the running maximum of the old peak and the levels, and
    the hold timer is reloaded with 100 when the peak rises and does not
    run otherwise: as long as the levels stay at or below the peak the
    timer keeps its value. *)
Theorem active_ticks st i (synths : list CMT32SynthBase) :
  meters_wf (meters st) -> 0 <= i < 9 ->
  Forall (fun sy => part_active sy i = true) synths ->
  let st' := ticks VelocityLevel synths st in
  rd (mPeakLevels st') i
  = fold_left Z.max (map (fun sy => level_of VelocityLevel sy i) synths)
              (rd (mPeakLevels st) i) /\
  (forall front sy, synths = front ++ [sy] ->
                    rd (mPartLevels st') i = level_of VelocityLevel sy i) /\
  (Forall (fun sy => level_of VelocityLevel sy i <= rd (mPeakLevels st) i) synths ->
   rd (mPeakTimes st') i = rd (mPeakTimes st) i) /\
  (forall front sy,
      synths = front ++ [sy] ->
      rd (mPeakLevels (ticks VelocityLevel front st)) i < level_of VelocityLevel sy i ->
      rd (mPeakTimes st') i = 100).
Proof.
  intros Hwf Hi Hact st'. unfold st'. clear st'.
  assert (Hstep : forall sy (s : CSSD1306 B),
             meters_wf (meters s) -> part_active sy i = true ->
             let s' := UpdatePartLevels VelocityLevel sy s in
             meters_wf (meters s') /\
             rd (mPartLevels s') i = level_of VelocityLevel sy i /\
             rd (mPeakLevels s') i
             = Z.max (rd (mPeakLevels s) i) (level_of VelocityLevel sy i) /\
             rd (mPeakTimes s') i
             = if rd (mPeakLevels s) i <? level_of VelocityLevel sy i
               then 100 else rd (mPeakTimes s) i).
  { intros sy s Hw Ha s'.
    destruct (UpdatePartLevels_channel VelocityLevel sy s i Hw Hi) as [Hc Hw'].
    fold s' in Hc, Hw'. rewrite Ha, !rd_meters in Hc. unfold channel_step in Hc.
    split; [exact Hw'|].
    destruct (Z.ltb_spec (rd (mPeakLevels s) i) (level_of VelocityLevel sy i));
      injection Hc as -> -> ->; repeat split; lia. }
  assert (Hsnoc : forall front sy (s : CSSD1306 B),
             ticks VelocityLevel (front ++ [sy]) s
             = UpdatePartLevels VelocityLevel sy (ticks VelocityLevel front s)).
  { intros front sy s. unfold ticks. rewrite fold_left_app. reflexivity. }
  assert (Hwfs : forall l (s : CSSD1306 B), meters_wf (meters s) ->
                             Forall (fun sy => part_active sy i = true) l ->
                             meters_wf (meters (ticks VelocityLevel l s))).
  { induction l as [|sy l IH]; intros s Hw Hl; [exact Hw|].
    apply Forall_cons in Hl as [Ha Hl]. unfold ticks. cbn [fold_left].
    apply IH; [|exact Hl]. apply (Hstep sy s Hw Ha). }
  split; [|split; [|split]].
  - revert st Hwf. induction Hact as [|sy rest Ha Hrest IH]; intros st Hwf; [reflexivity|].
    unfold ticks. cbn [fold_left map].
    fold (ticks VelocityLevel rest (UpdatePartLevels VelocityLevel sy st)).
    destruct (Hstep sy st Hwf Ha) as (Hw' & _ & Hp & _).
    rewrite IH by exact Hw'. rewrite Hp. reflexivity.
  - intros front sy ->. rewrite Hsnoc.
    apply Forall_app in Hact as [Hf Hs]. apply Forall_cons in Hs as [Ha _].
    apply (Hstep sy _ (Hwfs front st Hwf Hf) Ha).
  - revert st Hwf. induction Hact as [|sy rest Ha Hrest IH]; intros st Hwf Hle; [reflexivity|].
    apply Forall_cons in Hle as [Hsy Hle].
    unfold ticks. cbn [fold_left].
    fold (ticks VelocityLevel rest (UpdatePartLevels VelocityLevel sy st)).
    destruct (Hstep sy st Hwf Ha) as (Hw' & _ & Hp & Ht).
    rewrite IH; [| exact Hw' |].
    + rewrite Ht. destruct (Z.ltb_spec (rd (mPeakLevels st) i)
                                       (level_of VelocityLevel sy i)); [lia | reflexivity].
    + rewrite Hp. eapply Forall_impl; [exact Hle|]. cbv beta. intros sy' Hs'. lia.
  - intros front sy -> Hrise. rewrite Hsnoc.
    apply Forall_app in Hact as [Hf Hs]. apply Forall_cons in Hs as [Ha _].
    destruct (Hstep sy _ (Hwfs front st Hwf Hf) Ha) as (_ & _ & _ & Ht).
    rewrite Ht. destruct (Z.ltb_spec (rd (mPeakLevels (ticks VelocityLevel front st)) i)
                                     (level_of VelocityLevel sy i)); [reflexivity | lia].
Qed.

End MeterInvariant.

(** *** Status line and text *)

Lemma status_bit (ps i : Z) :
  0 <= i ->
  (to_bool (Z.land (Z.shiftr ps i) 1) =? 0) = negb (Z.testbit ps i).
Proof.
  intros Hi. rewrite to_bool_bit.
  pose proof (Z.land_ones (Z.shiftr ps i) 1 ltac:(lia)) as E.
  change (Z.ones 1) with 1 in E. change (2 ^ 1) with 2 in E.
  rewrite E, <- Z.bit0_mod, Z.shiftr_spec by lia.
  replace (0 + i) with i by lia.
  destruct (Z.testbit ps i); reflexivity.
Qed.

Lemma rhythm_bits (ps : Z) : 0 <= ps -> (Z.shiftr ps 8 =? 0) = (ps <? 256).
Proof.
  intros Hps. rewrite Z.shiftr_div_pow2 by lia. change (2 ^ 8) with 256.
  destruct (Z.eqb_spec (ps / 256) 0), (Z.ltb_spec ps 256); try reflexivity;
    Z.to_euclidean_division_equations; lia.
Qed.

Section StatusLine.
Variable Font6x8 : list (list Z).
Context {B : Type} `{I2CMaster B}.
Implicit Types (st : CSSD1306 B) (fb : list Z).

(** X11. For any part states and any volume up to 255 the status line
    shows in cell [2 i] the block glyph 0x80 if part [i] (of the first
    five) sounds and the digit [i + 1] otherwise, in cell 10 the block
    glyph if any of the bits from 8 upwards is set (not only bit 8) and
    the letter R otherwise, and the eight characters of the volume text
    in cells 12 to 19; no other byte changes. *)
Theorem DrawStatusLine_cells (pSynth : CMT32SynthBase) st :
  mMessageFlag st = false ->
  (97 <= length Font6x8)%nat ->
  0 <= GetPartStates pSynth ->
  0 <= GetMasterVolume pSynth < 256 ->
  (252 <= length (mFramebuffer st))%nat ->
  exists fb',
    DrawStatusLine Font6x8 pSynth st = Some (set_fb st fb') /\
    (forall i, 0 <= i < 5 ->
       cell_shows Font6x8 fb'
         (if Z.testbit (GetPartStates pSynth) i then 0x80 else 49 + i) (i * 2) 0) /\
    cell_shows Font6x8 fb' (if GetPartStates pSynth <? 256 then 82 else 0x80) 10 0 /\
    text_shows Font6x8 fb' (sprintf_vol (GetMasterVolume pSynth)) 12 0 /\
    length (sprintf_vol (GetMasterVolume pSynth)) = 8%nat /\
    forall j, (forall x, status_cell x -> ~ in_cell x 0 j) ->
              fb' !! j = mFramebuffer st !! j.
Proof.
  intros Hflag Hfont Hps Hvol Hlen.
  destruct (DrawStatusLine_spec Font6x8 pSynth st Hflag Hfont Hvol Hlen)
    as (fb' & Hd & _ & (Hparts & Hrhythm & Htext) & Hframe).
  exists fb'. split; [exact Hd|]. split; [|split; [|split; [|split]]].
  - intros i Hi. specialize (Hparts i Hi). unfold status_char in Hparts.
    rewrite status_bit in Hparts by lia.
    destruct (Z.testbit (GetPartStates pSynth) i); cbn [negb] in Hparts; [exact Hparts|].
    unfold to_u8 in Hparts. rewrite Z.mod_small in Hparts by lia. exact Hparts.
  - unfold rhythm_char in Hrhythm. rewrite rhythm_bits in Hrhythm by exact Hps.
    exact Hrhythm.
  - exact Htext.
  - apply sprintf_vol_shape, Hvol.
  - exact Hframe.
Qed.

Lemma Print_text_printed (pText : list Z) :
  forall x y st,
    0 <= x ->
    Print_text Font6x8 pText x y st = Print_text Font6x8 (printed pText x) x y st.
Proof.
  induction pText as [|c rest IH]; intros x y st Hx.
  - rewrite printed_nil. reflexivity.
  - destruct (negb (c =? 0) && (x <? 20)) eqn:Hgo.
    + rewrite printed_cons by exact Hgo. cbn [Print_text]. rewrite Hgo.
      destruct (DrawChar Font6x8 c x y _ _ st) as [s1|]; [|reflexivity].
      apply andb_true_iff in Hgo as [_ Hx20]. apply Z.ltb_lt in Hx20.
      assert (Hu : to_u8 (x + 1) = x + 1) by (unfold to_u8; apply Z.mod_small; lia).
      rewrite Hu. apply IH. lia.
    + rewrite printed_stop by exact Hgo. cbn [Print_text]. rewrite Hgo. reflexivity.
Qed.

(** X12. [Print] reads its text only up to the first NUL and up to the
    twentieth cell of the row: printing a text is printing the prefix
    that fits. In particular a cursor at or beyond column 20 draws no
    character. *)
Theorem Print_draws_fitting_prefix (pText : list Z) x y (cl imm : bool) st :
  0 <= x ->
  Print Font6x8 pText x y cl imm st
  = Print Font6x8 (take (Z.to_nat (20 - x)) (cstr pText)) x y cl imm st /\
  (20 <= x -> Print Font6x8 pText x y false false st = Some st).
Proof.
  intros Hx. fold (printed pText x). split.
  - unfold Print. rewrite Print_text_printed by exact Hx. reflexivity.
  - intros H20. unfold Print. rewrite Print_text_printed by exact Hx.
    unfold printed. replace (Z.to_nat (20 - x)) with 0%nat by lia.
    rewrite take_0. reflexivity.
Qed.

End StatusLine.

(** *** Messages *)

Lemma cstr_nonzero_chars (l : list Z) : Forall (fun c => c <> 0) (cstr l).
Proof.
  induction l as [|c l IH]; cbn [cstr]; [constructor|].
  destruct (Z.eqb_spec c 0); constructor; assumption.
Qed.

Lemma cstr_id (l : list Z) : Forall (fun c => c <> 0) l -> cstr l = l.
Proof.
  induction 1 as [|c l Hc Hl IH]; cbn [cstr]; [reflexivity|].
  destruct (Z.eqb_spec c 0); [contradiction|]. rewrite IH. reflexivity.
Qed.

Lemma cstr_app_zero (l r : list Z) :
  Forall (fun c => c <> 0) l -> cstr (l ++ 0 :: r) = l.
Proof.
  induction 1 as [|c l Hc Hl IH]; cbn [cstr app]; [reflexivity|].
  destruct (Z.eqb_spec c 0); [contradiction|]. rewrite IH. reflexivity.
Qed.

(** The C string left in an [n]-byte buffer by [strncpy] is the source
    string cut to [n] characters. *)
Lemma cstr_strncpy (n : nat) (src : list Z) : cstr (strncpy n src) = take n (cstr src).
Proof.
  unfold strncpy. pose proof (cstr_nonzero_chars src) as Hnz.
  destruct (decide (n <= length (cstr src))%nat) as [Hle|Hgt].
  - rewrite take_app_le by exact Hle. apply cstr_id, Forall_take, Hnz.
  - rewrite take_app_ge, take_replicate by lia.
    rewrite (take_ge (cstr src)) by lia.
    destruct (n - length (cstr src))%nat as [|k] eqn:Ek; [lia|].
    destruct n as [|n']; [lia|]. cbn [Nat.min replicate].
    apply cstr_app_zero, Hnz.
Qed.

Section Messages.
Variable Font6x8 : list (list Z).
Variable MessageTextSize : nat.
Variable VelocityLevel : Z -> Z.
Context {B : Type} `{I2CMaster B}.
Implicit Types (st : CSSD1306 B) (fb : list Z).

(** X13. [SetMessage] keeps at most [MessageTextSize] characters of the
    message and draws nothing itself; with a buffer of more than twenty
    bytes the next [Update] shows the first twenty characters of the
    message (all of it if it is shorter) from cell 0 and blanks after
    them, whatever was active before. *)
Theorem SetMessage_then_Update (pMessage : list Z) (pSynth : CMT32SynthBase) st :
  (97 <= length Font6x8)%nat ->
  (21 <= MessageTextSize)%nat ->
  mHeight st = 32 \/ mHeight st = 64 ->
  (Z.to_nat (mHeight st * 16 + 1) <= length (mFramebuffer st))%nat ->
  printable (take 20 (cstr pMessage)) ->
  cstr (mMessageText (SetMessage MessageTextSize pMessage st))
  = take MessageTextSize (cstr pMessage) /\
  mFramebuffer (SetMessage MessageTextSize pMessage st) = mFramebuffer st /\
  mI2CMaster (SetMessage MessageTextSize pMessage st) = mI2CMaster st /\
  exists st',
    Update Font6x8 VelocityLevel (Some pSynth) (SetMessage MessageTextSize pMessage st)
    = Some st' /\
    text_shows Font6x8 (mFramebuffer st') (take 20 (cstr pMessage)) 0 0 /\
    forall x, Z.of_nat (length (take 20 (cstr pMessage))) <= x < 20 ->
              cell_shows Font6x8 (mFramebuffer st') 32 x 0.
Proof.
  intros Hfont Hsize Hh Hcount Hp.
  split; [apply cstr_strncpy|]. split; [reflexivity|]. split; [reflexivity|].
  assert (Epr : printed (mMessageText (SetMessage MessageTextSize pMessage st)) 0
                = take 20 (cstr pMessage)).
  { unfold printed. cbn [SetMessage set_message mMessageText].
    rewrite cstr_strncpy, take_take. change (Z.to_nat (20 - 0)) with 20%nat.
    f_equal. lia. }
  destruct (Update_message Font6x8 VelocityLevel pSynth
              (SetMessage MessageTextSize pMessage st))
    as (fb' & Hu & _ & Hshown & Hblank); try assumption; try reflexivity.
  - cbn [SetMessage set_message mFramebuffer].
    destruct Hh as [E|E]; rewrite E in Hcount; lia.
  - rewrite Epr. exact Hp.
  - rewrite Epr in Hshown, Hblank. eexists. split; [exact Hu|].
    cbn [mFramebuffer set_bus set_fb]. split; [exact Hshown | exact Hblank].
Qed.

End Messages.

(** *** The update cycle *)

Section UpdateCycle.
Variable Font6x8 : list (list Z).
Variable VelocityLevel : Z -> Z.
Context {B : Type} `{I2CMaster B}.
Implicit Types (st : CSSD1306 B) (fb : list Z).

(** One [Update], byte by byte: the bars of the stepped meters, the
    overlay in the first text row, one transfer, and no other change. *)
Lemma Update_explicit (pSynth : CMT32SynthBase) st :
  (97 <= length Font6x8)%nat ->
  mHeight st = 32 \/ mHeight st = 64 ->
  (Z.to_nat (mHeight st * 16 + 1) <= length (mFramebuffer st))%nat ->
  overlay_drawable st pSynth ->
  exists fb' lv pk tm,
    UpdatePartLevels VelocityLevel pSynth st = set_meters st lv pk tm /\
    Update Font6x8 VelocityLevel (Some pSynth) st
    = Some (set_bus (set_fb (set_meters st lv pk tm) fb')
              (fst (Write (mI2CMaster st) (mAddress st)
                      (take (Z.to_nat (mHeight st * 16 + 1)) fb')))) /\
    length fb' = length (mFramebuffer st) /\
    (forall i j, 0 <= i < 9 -> 0 <= j < 12 ->
       fb' !! Z.to_nat (256 + i * 14 + j + 3)
       = Some (fst (bar_bytes (rd lv i) (rd pk i))) /\
       fb' !! Z.to_nat (256 + i * 14 + j + 128 + 3)
       = Some (snd (bar_bytes (rd lv i) (rd pk i)))) /\
    (if mMessageFlag st then message_shown Font6x8 fb' (mMessageText st)
     else status_shown Font6x8 fb' pSynth) /\
    forall idx : nat,
      (forall i j, 0 <= i < 9 -> 0 <= j < 12 ->
         Z.of_nat idx <> 256 + i * 14 + j + 3 /\
         Z.of_nat idx <> 256 + i * 14 + j + 128 + 3) ->
      (forall x, overlay_cell st x -> ~ in_cell x 0 idx) ->
      fb' !! idx = mFramebuffer st !! idx.
Proof.
  intros Hfont Hh Hcount Hov.
  assert (Hlen : (511 <= length (mFramebuffer st))%nat)
    by (destruct Hh as [E|E]; rewrite E in Hcount; lia).
  destruct (UpdatePartLevels_fields VelocityLevel pSynth st) as (lv & pk & tm & Hu).
  unfold Update. rewrite Hu.
  destruct (DrawPartLevels_spec (set_meters st lv pk tm))
    as (fb1 & Hd & Hl1 & Hbars & Hf1); [exact Hlen|].
  rewrite Hd. cbn [mMessageFlag mMessageText mPartLevels mPeakLevels mFramebuffer
                     set_fb set_meters] in *.
  assert (Hkeep : forall (fb2 : list Z) (P : Z -> Prop),
             (forall x, P x -> 0 <= x < 20) ->
             (forall j, (forall x, P x -> ~ in_cell x 0 j) -> fb2 !! j = fb1 !! j) ->
             forall i j, 0 <= i < 9 -> 0 <= j < 12 ->
               fb2 !! Z.to_nat (256 + i * 14 + j + 3)
               = Some (fst (bar_bytes (rd lv i) (rd pk i))) /\
               fb2 !! Z.to_nat (256 + i * 14 + j + 128 + 3)
               = Some (snd (bar_bytes (rd lv i) (rd pk i)))).
  { intros fb2 P HP Hf2 i j Hi Hj. destruct (Hbars i j Hi Hj) as [Ht Hb].
    rewrite !Hf2; [auto| |]; intros x Hx Hin; specialize (HP x Hx);
      unfold in_cell, cell_offset in Hin; lia. }
  unfold overlay_drawable, overlay_cell in *.
  destruct (mMessageFlag st) eqn:Hflag.
  - destruct (Print_spec Font6x8 (mMessageText st) (set_fb (set_meters st lv pk tm) fb1)
                0 0 true) as (fb2 & Hpr & Hl2 & Hs2 & Hc2 & Hf2);
      try assumption; try lia.
    { cbn [mFramebuffer set_fb set_meters]. unfold cell_offset. lia. }
    unfold default_pImmediate. rewrite Hpr.
    cbn [mFramebuffer set_fb set_meters] in *.
    rewrite WriteFramebuffer_ok by (cbn [mFramebuffer mHeight set_fb set_meters]; lia).
    exists fb2, lv, pk, tm. split; [reflexivity|]. split; [reflexivity|].
    split; [congruence|]. split; [|split].
    + apply (Hkeep fb2 (fun x => 0 <= x < 20)); [auto | exact Hf2].
    + split; [exact Hs2|]. intros x Hx. apply Hc2; [reflexivity | lia].
    + intros idx Hbar Hcell. rewrite Hf2 by exact Hcell. apply Hf1, Hbar.
  - destruct (DrawStatusLine_spec Font6x8 pSynth (set_fb (set_meters st lv pk tm) fb1))
      as (fb2 & Hds & Hl2 & Hs2 & Hf2); try assumption.
    { cbn [mFramebuffer set_fb set_meters]. lia. }
    rewrite Hds. cbn [mFramebuffer set_fb set_meters] in *.
    rewrite WriteFramebuffer_ok by (cbn [mFramebuffer mHeight set_fb set_meters]; lia).
    exists fb2, lv, pk, tm. split; [reflexivity|]. split; [reflexivity|].
    split; [congruence|]. split; [|split].
    + apply (Hkeep fb2 status_cell); [|exact Hf2].
      intros x [[Hx _]|Hx]; lia.
    + exact Hs2.
    + intros idx Hbar Hcell. rewrite Hf2 by exact Hcell. apply Hf1, Hbar.
Qed.

(** X14. Every [Update] with a synth does one full cycle: it steps the
    meters, draws their bars (which the overlay of the first text row
    never covers), draws the message if one is active and the status
    line otherwise, and ends with exactly one bus write of the first
    [mHeight * 16 + 1] bytes of the framebuffer. *)
Theorem Update_cycle (pSynth : CMT32SynthBase) st :
  (97 <= length Font6x8)%nat ->
  mHeight st = 32 \/ mHeight st = 64 ->
  (Z.to_nat (mHeight st * 16 + 1) <= length (mFramebuffer st))%nat ->
  overlay_drawable st pSynth ->
  let st1 := UpdatePartLevels VelocityLevel pSynth st in
  exists fb',
    Update Font6x8 VelocityLevel (Some pSynth) st
    = Some (set_bus (set_fb st1 fb')
              (fst (Write (mI2CMaster st) (mAddress st)
                      (take (Z.to_nat (mHeight st * 16 + 1)) fb')))) /\
    length fb' = length (mFramebuffer st) /\
    (forall i j k, 0 <= i < 9 -> 0 <= j < 12 -> 0 <= k < 16 ->
       0 <= rd (mPartLevels st1) i <= 16 -> 0 <= rd (mPeakLevels st1) i <= 16 ->
       pixel_lit fb' (i * 14 + 2 + j) (16 + k)
       = bar_row (rd (mPartLevels st1) i) (rd (mPeakLevels st1) i) k) /\
    (if mMessageFlag st then message_shown Font6x8 fb' (mMessageText st)
     else status_shown Font6x8 fb' pSynth).
Proof.
  intros Hfont Hh Hcount Hov st1.
  destruct (Update_explicit pSynth st Hfont Hh Hcount Hov)
    as (fb' & lv & pk & tm & Hu & Hup & Hl & Hbars & Hover & _).
  unfold st1. rewrite Hu. cbn [mPartLevels mPeakLevels set_meters].
  exists fb'. split; [exact Hup|]. split; [exact Hl|]. split; [|exact Hover].
  intros i j k Hi Hj Hk HL Hp.
  destruct (bar_pixel_byte i j k Hi Hj Hk) as [Ek Eb].
  destruct (Hbars i j Hi Hj) as [Htop Hbottom].
  pose proof (bar_bytes_bits _ _ k HL Hp Hk) as Hrows.
  unfold pixel_lit. rewrite Ek, Eb, <- Hrows.
  destruct (k <? 8).
  - replace (256 + i * 14 + j + 0 + 3) with (256 + i * 14 + j + 3) by lia.
    rewrite Htop. reflexivity.
  - rewrite Hbottom. reflexivity.
Qed.

(** X15. [ClearMessage] erases nothing, and the status line draws only
    the even cells up to 10 and the cells from 12 on: what a message left
    in the odd cells 1 to 11 is still on the screen after [ClearMessage]
    and the next [Update]. *)
Theorem message_leftovers (pSynth pSynth' : CMT32SynthBase) st :
  mMessageFlag st = true ->
  (97 <= length Font6x8)%nat ->
  mHeight st = 32 \/ mHeight st = 64 ->
  (Z.to_nat (mHeight st * 16 + 1) <= length (mFramebuffer st))%nat ->
  printable (printed (mMessageText st) 0) ->
  0 <= GetMasterVolume pSynth' < 256 ->
  exists st1 st2,
    Update Font6x8 VelocityLevel (Some pSynth) st = Some st1 /\
    Update Font6x8 VelocityLevel (Some pSynth') (ClearMessage st1) = Some st2 /\
    status_shown Font6x8 (mFramebuffer st2) pSynth' /\
    forall x, 0 <= x < 6 ->
      (forall c, printed (mMessageText st) 0 !! Z.to_nat (2 * x + 1) = Some c ->
                 cell_shows Font6x8 (mFramebuffer st2) c (2 * x + 1) 0) /\
      (Z.of_nat (length (printed (mMessageText st) 0)) <= 2 * x + 1 ->
       cell_shows Font6x8 (mFramebuffer st2) 32 (2 * x + 1) 0).
Proof.
  intros Hflag Hfont Hh Hcount Hp Hvol.
  destruct (Update_explicit pSynth st Hfont Hh Hcount)
    as (fb1 & lv & pk & tm & _ & Hup1 & Hl1 & _ & Hover1 & _).
  { unfold overlay_drawable. rewrite Hflag. exact Hp. }
  rewrite Hflag in Hover1. destruct Hover1 as [Hmsg Hblank].
  rewrite Hup1. set (st1 := set_bus _ _).
  destruct (Update_explicit pSynth' (ClearMessage st1))
    as (fb2 & lv2 & pk2 & tm2 & _ & Hup2 & Hl2 & _ & Hover2 & Hframe2);
    try assumption.
  { cbn [ClearMessage set_message st1 set_bus set_fb set_meters mFramebuffer mHeight].
    rewrite Hl1. exact Hcount. }
  exists st1. eexists. rewrite Hup2. split; [reflexivity|]. split; [reflexivity|].
  cbn [ClearMessage set_message mMessageFlag] in Hover2.
  cbn [mFramebuffer set_bus set_fb]. split; [exact Hover2|].
  assert (Hodd : forall x c, 0 <= x < 6 ->
             cell_shows Font6x8 fb1 c (2 * x + 1) 0 ->
             cell_shows Font6x8 fb2 c (2 * x + 1) 0).
  { intros x c Hx Hshow.
    apply (cell_shows_frame Font6x8 fb1); try lia; [exact Hshow|].
    intros idx Hin.
    change (mFramebuffer (ClearMessage st1)) with fb1 in Hframe2.
    apply Hframe2.
    - intros i j Hi Hj. unfold in_cell, cell_offset in Hin. lia.
    - unfold overlay_cell. cbn [ClearMessage set_message mMessageFlag].
      intros x' Hx'.
      assert (Hne : 2 * x + 1 <> x').
      { destruct Hx' as [[_ Heven]|Hcells]; [|lia].
        intros <-. rewrite Z.add_comm, Z.mul_comm, Z.mod_add in Heven by lia.
        discriminate. }
      assert (Hr : 0 <= x' <= 20) by (destruct Hx' as [[? _]|?]; lia).
      apply (cells_disjoint (2 * x + 1) x' 0 idx); try lia. exact Hin. }
  intros x Hx. split.
  - intros c Hc. apply Hodd; [exact Hx|].
    specialize (Hmsg _ _ Hc). rewrite Z2Nat.id in Hmsg by lia. exact Hmsg.
  - intros Hshort. apply Hodd; [exact Hx|]. apply Hblank. lia.
Qed.

End UpdateCycle.

(** *** What reachable states look like *)

Lemma land_255_u8 (x : Z) : 0 <= Z.land x 0xFF < 256.
Proof.
  change 0xFF with (Z.ones 8). rewrite Z.land_ones by lia.
  change (2 ^ 8) with 256. apply Z.mod_pos_bound. lia.
Qed.

Lemma to_u8_range (x : Z) : 0 <= to_u8 x < 256.
Proof. unfold to_u8. apply Z.mod_pos_bound. lia. Qed.

Lemma bar_bytes_u8 (level peak : Z) :
  0 <= fst (bar_bytes level peak) < 256 /\ 0 <= snd (bar_bytes level peak) < 256.
Proof.
  unfold bar_bytes.
  destruct (8 <? level), (8 <? peak); cbn [fst snd];
    repeat split; try apply to_u8_range; lia.
Qed.

Section ByteCells.
Variable Font6x8 : list (list Z).
Variable VelocityLevel : Z -> Z.
Context {B : Type} `{I2CMaster B}.
Implicit Types (st : CSSD1306 B) (c x y : Z).

Lemma store_bytes i v st st' :
  0 <= v < 256 -> store i v st = Some st' ->
  bytes (mFramebuffer st) -> bytes (mFramebuffer st').
Proof.
  intros Hv Hs Hb. apply store_inv in Hs as [Hi ->]. cbn [mFramebuffer set_fb].
  apply Forall_insert; assumption.
Qed.

Lemma load_bytes i v st :
  load i st = Some v -> bytes (mFramebuffer st) -> 0 <= v < 256.
Proof.
  unfold load. destruct (decide _); [|discriminate].
  intros Hl Hb. eapply Forall_lookup_1 in Hb; eauto.
Qed.

Lemma loop_bytes (body : Z -> CSSD1306 B -> option (CSSD1306 B)) (n : nat) (lo : Z) st st' :
  (forall k s1 s2, lo <= k < lo + Z.of_nat n -> body k s1 = Some s2 ->
                   bytes (mFramebuffer s1) -> bytes (mFramebuffer s2)) ->
  for_loop_opt n lo body st = Some st' ->
  bytes (mFramebuffer st) -> bytes (mFramebuffer st').
Proof.
  intros Hb. apply (for_loop_opt_pres (fun s => bytes (mFramebuffer s))). exact Hb.
Qed.

Lemma SetPixel_bytes x y st st' :
  SetPixel x y st = Some st' -> bytes (mFramebuffer st) -> bytes (mFramebuffer st').
Proof.
  unfold SetPixel. destruct (load _ st); [|discriminate].
  apply store_bytes, to_u8_range.
Qed.

Lemma ClearPixel_bytes x y st st' :
  ClearPixel x y st = Some st' -> bytes (mFramebuffer st) -> bytes (mFramebuffer st').
Proof.
  unfold ClearPixel. destruct (load _ st); [|discriminate].
  apply store_bytes, to_u8_range.
Qed.

Lemma DrawChar_bytes c x y (inv dw : bool) st st' :
  DrawChar Font6x8 c x y inv dw st = Some st' ->
  bytes (mFramebuffer st) -> bytes (mFramebuffer st').
Proof.
  unfold DrawChar. apply loop_bytes.
  intros k s1 s2 Hk.
  destruct (font_column Font6x8 c k) as [col|]; [|discriminate].
  set (fc := if (0 <? k) && inv then _ else _).
  set (offset := y * 128 * 2 + _ + _).
  destruct (store offset _ s1) as [sa|] eqn:Ea; [|discriminate].
  destruct (store (offset + 128) _ sa) as [sb|] eqn:Eb; [|discriminate].
  pose proof (store_bytes _ _ _ _ (land_255_u8 _) Ea) as Ha.
  pose proof (store_bytes _ _ _ _ (land_255_u8 _) Eb) as Hb.
  destruct dw.
  - destruct (load offset sb) as [a|] eqn:La; [|discriminate].
    destruct (store (offset + 1) a sb) as [sc|] eqn:Ec; [|discriminate].
    destruct (load (offset + 128) sc) as [b|] eqn:Lb; [|discriminate].
    intros Ed Hb0.
    assert (Hsb : bytes (mFramebuffer sb)) by auto.
    assert (Hsc : bytes (mFramebuffer sc))
      by exact (store_bytes _ _ _ _ (load_bytes _ _ _ La Hsb) Ec Hsb).
    exact (store_bytes _ _ _ _ (load_bytes _ _ _ Lb Hsc) Ed Hsc).
  - intros [= <-] Hb0. auto.
Qed.

Lemma Print_text_bytes (pText : list Z) :
  forall x y st x' st',
    Print_text Font6x8 pText x y st = Some (x', st') ->
    bytes (mFramebuffer st) -> bytes (mFramebuffer st').
Proof.
  induction pText as [|c rest IH]; intros x y st x' st'; cbn [Print_text].
  - intros [= <- <-]. auto.
  - destruct (negb (c =? 0) && (x <? 20)).
    + destruct (DrawChar Font6x8 c x y _ _ st) as [s1|] eqn:Ed; [|discriminate].
      intros Hr Hb. eapply IH; [exact Hr|]. eapply DrawChar_bytes; eauto.
    + intros [= <- <-]. auto.
Qed.

Lemma WriteFramebuffer_bytes st st' :
  WriteFramebuffer st = Some st' -> mFramebuffer st' = mFramebuffer st.
Proof.
  unfold WriteFramebuffer. destruct (decide _); [|discriminate].
  intros [= <-]. reflexivity.
Qed.

Lemma Print_bytes (pText : list Z) x y (cl imm : bool) st st' :
  Print Font6x8 pText x y cl imm st = Some st' ->
  bytes (mFramebuffer st) -> bytes (mFramebuffer st').
Proof.
  unfold Print.
  destruct (Print_text Font6x8 pText x y st) as [[x1 s1]|] eqn:E1; [|discriminate].
  destruct (if cl then _ else _) as [s2|] eqn:E2; [|discriminate].
  intros E3 Hb.
  assert (H1 : bytes (mFramebuffer s1)) by (eapply Print_text_bytes; eauto).
  assert (H2 : bytes (mFramebuffer s2)).
  { destruct cl; [|injection E2 as <-; exact H1].
    eapply loop_bytes; [|exact E2|exact H1].
    intros k sa sb _. apply DrawChar_bytes. }
  destruct imm; [|injection E3 as <-; exact H2].
  rewrite (WriteFramebuffer_bytes _ _ E3). exact H2.
Qed.

Lemma DrawStatusLine_bytes pSynth st st' :
  DrawStatusLine Font6x8 pSynth st = Some st' ->
  bytes (mFramebuffer st) -> bytes (mFramebuffer st').
Proof.
  unfold DrawStatusLine. destruct (mMessageFlag st); [intros [= <-]; auto|].
  destruct (for_loop_opt 5 0 _ st) as [s1|] eqn:E1; [|discriminate].
  destruct (DrawChar Font6x8 _ 10 0 _ _ s1) as [s2|] eqn:E2; [|discriminate].
  intros E3 Hb.
  eapply Print_bytes; [exact E3|]. eapply DrawChar_bytes; [exact E2|].
  eapply loop_bytes; [|exact E1|exact Hb].
  intros k sa sb _. apply DrawChar_bytes.
Qed.

Lemma DrawPartLevels_bytes st st' :
  DrawPartLevels st = Some st' -> bytes (mFramebuffer st) -> bytes (mFramebuffer st').
Proof.
  unfold DrawPartLevels. apply loop_bytes.
  intros i s1 s2 _.
  pose proof (bar_bytes_u8 (rd (mPartLevels s1) i) (rd (mPeakLevels s1) i)) as Hu.
  destruct (bar_bytes _ _) as [topVal bottomVal]. cbn [fst snd] in Hu.
  apply loop_bytes.
  intros j sa sb _.
  destruct (store _ topVal sa) as [sc|] eqn:Ea; [|discriminate].
  intros Eb Hb.
  assert (Hc : bytes (mFramebuffer sc))
    by exact (store_bytes _ _ _ _ (proj1 Hu) Ea Hb).
  exact (store_bytes _ _ _ _ (proj2 Hu) Eb Hc).
Qed.

Lemma Clear_bytes st st' :
  Clear st = Some st' -> bytes (mFramebuffer st) -> bytes (mFramebuffer st').
Proof.
  unfold Clear.
  destruct (for_loop_opt _ 1 _ st) as [s1|] eqn:E1; [|discriminate].
  intros E2 Hb. rewrite (WriteFramebuffer_bytes _ _ E2).
  eapply loop_bytes; [|exact E1|exact Hb].
  intros k sa sb _ Es. apply (store_bytes k 0 sa sb); [lia|exact Es].
Qed.

Lemma Update_bytes pSynth st st' :
  Update Font6x8 VelocityLevel pSynth st = Some st' ->
  bytes (mFramebuffer st) -> bytes (mFramebuffer st').
Proof.
  unfold Update. destruct pSynth as [synth|]; [|intros [= <-]; auto].
  destruct (DrawPartLevels _) as [s2|] eqn:E2; [|discriminate].
  destruct (if mMessageFlag s2 then _ else _) as [s3|] eqn:E3; [|discriminate].
  intros E4 Hb. rewrite (WriteFramebuffer_bytes _ _ E4).
  assert (H2 : bytes (mFramebuffer s2)).
  { eapply DrawPartLevels_bytes; [exact E2|].
    rewrite UpdatePartLevels_framebuffer. exact Hb. }
  destruct (mMessageFlag s2);
    [eapply Print_bytes | eapply DrawStatusLine_bytes]; eauto.
Qed.

Lemma run_operation_bytes op st st' :
  run_operation Font6x8 VelocityLevel op st = Some st' ->
  bytes (mFramebuffer st) -> bytes (mFramebuffer st').
Proof.
  destruct op; cbn [run_operation].
  - apply SetPixel_bytes.
  - apply ClearPixel_bytes.
  - apply DrawChar_bytes.
  - apply Print_bytes.
  - apply DrawStatusLine_bytes.
  - apply DrawPartLevels_bytes.
  - apply Clear_bytes.
  - apply Update_bytes.
Qed.

(** Drawing keeps every field but the framebuffer contents and the bus;
    [Update] also steps the meters. *)
Lemma run_operation_fields op st st' :
  operation_args op ->
  run_operation Font6x8 VelocityLevel op st = Some st' ->
  fields_kept
    match op with
    | OpUpdate (Some synth) => UpdatePartLevels VelocityLevel synth st
    | _ => st
    end st'.
Proof.
  pose proof (@fields_kept_refl B) as Hr. pose proof (@fields_kept_trans B) as Ht.
  pose proof (@fields_kept_store B) as Hs. pose proof (@fields_kept_bus B) as Hb.
  destruct op; cbn [run_operation operation_args]; intros Ha.
  - apply SetPixel_frame; assumption.
  - apply ClearPixel_frame; assumption.
  - apply DrawChar_frame; (assumption || lia).
  - apply Print_frame; (assumption || lia).
  - apply DrawStatusLine_frame; assumption.
  - apply DrawPartLevels_frame; assumption.
  - apply Clear_frame; assumption.
  - destruct pSynth as [synth|]; [|cbn; intros [= <-]; apply Hr].
    apply Update_frame; assumption.
Qed.

End ByteCells.

Section Reachable.
Variable Font6x8 : list (list Z).
Variable FramebufferSize : nat.
Variable VelocityLevel : Z -> Z.
Context {B : Type} `{I2CMaster B}.
Implicit Types (st : CSSD1306 B) (x y : Z).

Lemma run_operations_bytes (ops : list Operation) :
  forall st st',
    run_operations Font6x8 VelocityLevel ops st = Some st' ->
    bytes (mFramebuffer st) -> bytes (mFramebuffer st').
Proof.
  induction ops as [|op rest IH]; intros st st'; cbn [run_operations].
  - intros [= <-]. auto.
  - destruct (run_operation Font6x8 VelocityLevel op st) as [s1|] eqn:E1; [|discriminate].
    intros E2 Hb. eapply IH; [exact E2|].
    eapply run_operation_bytes; eauto.
Qed.

Lemma run_operations_settings (ops : list Operation) :
  forall st st',
    Forall operation_args ops ->
    run_operations Font6x8 VelocityLevel ops st = Some st' ->
    mMessageFlag st' = mMessageFlag st /\ mMessageText st' = mMessageText st /\
    mAddress st' = mAddress st /\ mHeight st' = mHeight st /\
    length (mFramebuffer st') = length (mFramebuffer st).
Proof.
  induction ops as [|op rest IH]; intros st st' Hargs; cbn [run_operations].
  - intros [= <-]. repeat split.
  - apply Forall_cons in Hargs as [Ha Hrest].
    destruct (run_operation Font6x8 VelocityLevel op st) as [s1|] eqn:E1; [|discriminate].
    intros E2. apply IH in E2 as (F2 & T2 & A2 & H2 & L2); [|exact Hrest].
    apply run_operation_fields in E1 as (_ & F1 & T1 & A1 & H1 & L1); [|exact Ha].
    rewrite F2, T2, A2, H2, L2, F1, T1, A1, H1, L1.
    destruct op as [| | | | | | |[synth|]]; try (repeat split; reflexivity).
    destruct (UpdatePartLevels_fields VelocityLevel synth st) as (lv & pk & tm & ->).
    repeat split.
Qed.

(** X16. A drawing operation that completes changes nothing but the
    framebuffer contents and the bus; [Update] with a synthesizer also
    steps the meters, to the values [UpdatePartLevels] gives them. *)
Theorem operations_keep_settings (op : Operation) st st' :
  operation_args op ->
  run_operation Font6x8 VelocityLevel op st = Some st' ->
  mMessageFlag st' = mMessageFlag st /\ mMessageText st' = mMessageText st /\
  mAddress st' = mAddress st /\ mHeight st' = mHeight st /\
  length (mFramebuffer st') = length (mFramebuffer st) /\
  meters st'
  = match op with
    | OpUpdate (Some synth) => meters (UpdatePartLevels VelocityLevel synth st)
    | _ => meters st
    end.
Proof.
  intros Ha E1.
  apply run_operation_fields in E1 as (M1 & F1 & T1 & A1 & H1 & L1); [|exact Ha].
  rewrite F1, T1, A1, H1, L1.
  destruct op as [| | | | | | |[synth|]]; try (repeat split; (reflexivity || exact M1)).
  destruct (UpdatePartLevels_fields VelocityLevel synth st) as (lv & pk & tm & E).
  rewrite E in *. repeat split. exact M1.
Qed.

(** X17. After any sequence of drawing operations on a new display, a
    framebuffer transfer is one write to the display's address whose
    first byte is the control byte 0x40, followed by the [16 * height]
    data bytes that follow it in the framebuffer, each below 256. *)
Theorem transfers_begin_with_control_byte
    (pI2CMaster : B) (pAddress pHeight : Z) (ops : list Operation) st st' :
  (0 < FramebufferSize)%nat -> 0 <= pHeight ->
  Forall operation_args ops ->
  run_operations Font6x8 VelocityLevel ops
    (CSSD1306_new FramebufferSize pI2CMaster pAddress pHeight) = Some st ->
  WriteFramebuffer st = Some st' ->
  exists payload,
    payload = take (Z.to_nat (pHeight * 16)) (drop 1 (mFramebuffer st)) /\
    length payload = Z.to_nat (pHeight * 16) /\
    bytes payload /\
    st' = set_bus st (fst (Write (mI2CMaster st) pAddress (0x40 :: payload))).
Proof.
  intros Hsize Hh Hargs Hrun Hw.
  pose proof (run_operations_control Font6x8 VelocityLevel ops _ _ Hargs Hrun) as Hc.
  pose proof (run_operations_bytes ops _ _ Hrun (bytes_new _ _ _ _)) as Hb.
  destruct (run_operations_settings ops _ _ Hargs Hrun) as (_ & _ & Ha & Hhe & Hl).
  cbn [CSSD1306_new mAddress mHeight] in Ha, Hhe.
  unfold control_kept in Hc. cbn [CSSD1306_new mFramebuffer] in Hc.
  rewrite list_lookup_insert_eq in Hc by (rewrite length_replicate; exact Hsize).
  unfold WriteFramebuffer in Hw. rewrite Ha, Hhe in Hw.
  destruct (decide _) as [Hcount|]; [|discriminate].
  injection Hw as <-.
  destruct (mFramebuffer st) as [|b0 rest] eqn:Efb; [discriminate|].
  cbn in Hc. injection Hc as ->.
  replace (Z.to_nat (pHeight * 16 + 1)) with (S (Z.to_nat (pHeight * 16))) in * by lia.
  cbn [length] in Hcount.
  exists (take (Z.to_nat (pHeight * 16)) rest).
  split; [reflexivity|].
  split; [rewrite length_take; lia|].
  split; [|reflexivity].
  apply Forall_take. unfold bytes in Hb. apply Forall_cons in Hb as [_ Hb]. exact Hb.
Qed.

(** X18. Every state reached from a new display by drawing operations
    has a framebuffer of the constructed size whose cells are all below
    256, and the address and height it was constructed with; when the
    framebuffer has 1025 cells, [SetPixel] and [ClearPixel] complete on
    it for all coordinates. *)
Theorem reachable_framebuffer
    (pI2CMaster : B) (pAddress pHeight : Z) (ops : list Operation) st :
  Forall operation_args ops ->
  run_operations Font6x8 VelocityLevel ops
    (CSSD1306_new FramebufferSize pI2CMaster pAddress pHeight) = Some st ->
  bytes (mFramebuffer st) /\
  length (mFramebuffer st) = FramebufferSize /\
  mAddress st = pAddress /\ mHeight st = pHeight /\
  ((1025 <= FramebufferSize)%nat ->
   forall x y, 0 <= x < 256 -> 0 <= y < 256 ->
               is_Some (SetPixel x y st) /\ is_Some (ClearPixel x y st)).
Proof.
  intros Hargs Hrun.
  pose proof (run_operations_bytes ops _ _ Hrun (bytes_new _ _ _ _)) as Hb.
  destruct (run_operations_settings ops _ _ Hargs Hrun) as (_ & _ & Ha & Hhe & Hl).
  rewrite length_new in Hl. cbn [CSSD1306_new mAddress mHeight] in Ha, Hhe.
  split; [exact Hb|]. split; [exact Hl|]. split; [exact Ha|]. split; [exact Hhe|].
  intros Hsize x y Hx Hy. rewrite <- Hl in Hsize.
  pose proof (pixel_byte_lt x y _ Hsize) as Hlt.
  destruct (lookup_lt_is_Some_2 (mFramebuffer st) (pixel_byte x y)) as [old Hold];
    [exact Hlt|].
  assert (Ho : 0 <= old < 256) by (eapply Forall_lookup_1 in Hb; eauto).
  rewrite (SetPixel_spec st x y old), (ClearPixel_spec st x y old) by assumption.
  split; eauto.
Qed.

End Reachable.

(** *** What reaches the display *)

Lemma take_agree (n : nat) (l l' : list Z) :
  length l' = length l ->
  (forall j : nat, (j < n)%nat -> l' !! j = l !! j) ->
  take n l' = take n l.
Proof.
  intros Hl Hj. apply list_eq. intros j.
  destruct (decide (j < n)%nat) as [Hlt|Hge].
  - rewrite !lookup_take_lt by exact Hlt. apply Hj, Hlt.
  - rewrite !lookup_take_ge by lia. reflexivity.
Qed.

Lemma pixel_byte_rows (x y h : Z) :
  h = 32 \/ h = 64 ->
  (y mod 64 < h -> (1 <= pixel_byte x y <= Z.to_nat (h * 16))%nat) /\
  (h <= y mod 64 -> (Z.to_nat (h * 16) < pixel_byte x y)%nat).
Proof.
  intros Hh. unfold pixel_byte.
  pose proof (Z.mod_pos_bound x 128). pose proof (Z.mod_pos_bound y 64).
  destruct Hh as [-> | ->]; split; intros Hy;
    assert (0 <= y mod 64 / 8 < 8)
      by (split; [apply Z.div_pos; lia | apply Z.div_lt_upper_bound; lia]).
  - assert (y mod 64 / 8 < 4) by (apply Z.div_lt_upper_bound; lia). lia.
  - assert (4 <= y mod 64 / 8) by (apply Z.div_le_lower_bound; lia). lia.
  - lia.
  - lia.
Qed.

Section Screen.
Variable Font6x8 : list (list Z).
Context {B : Type} `{I2CMaster B}.
Implicit Types (st : CSSD1306 B) (x y c : Z).

(** X19. Coordinates are never checked against the height.  On a
    32-row display with the full framebuffer, a pixel set in rows 32 to
    63 and a character drawn in text row 2 or 3 are stored, but past the
    513 bytes that are transferred: the display would receive the same
    bytes as before. *)
Theorem off_screen_drawing st x y c cx cy (inv : bool) (g : list Z) :
  mHeight st = 32 ->
  (1025 <= length (mFramebuffer st))%nat -> bytes (mFramebuffer st) ->
  0 <= x < 256 -> 0 <= y < 256 -> 32 <= y mod 64 ->
  0 <= cx < 20 -> 2 <= cy < 4 ->
  Font6x8 !! Z.to_nat (to_u8 (c - 32)) = Some g ->
  (exists st1,
      SetPixel x y st = Some st1 /\
      pixel_lit (mFramebuffer st1) x y = true /\
      transferred st1 = transferred st) /\
  (exists st2,
      DrawChar Font6x8 c cx cy inv false st = Some st2 /\
      (forall i, 0 <= i < 6 ->
         mFramebuffer st2 !! Z.to_nat (cell_offset cx cy + i)
         = Some (column_lo (drawn_column inv i (DoubleColumn g i)))) /\
      transferred st2 = transferred st).
Proof.
  intros Hh Hlen Hb Hx Hy Hrow Hcx Hcy Hg.
  split.
  - pose proof (pixel_byte_lt x y _ Hlen) as Hlt.
    destruct (lookup_lt_is_Some_2 (mFramebuffer st) (pixel_byte x y)) as [old Hold];
      [exact Hlt|].
    assert (Ho : 0 <= old < 256) by (eapply Forall_lookup_1 in Hb; eauto).
    pose proof (Z.mod_pos_bound y 8).
    destruct (pixel_byte_rows x y 32) as [_ Hpast]; [auto|].
    eexists. split; [apply (SetPixel_spec st x y old); assumption|].
    unfold transferred, pixel_lit. cbn [mFramebuffer mHeight set_fb]. rewrite Hh.
    split.
    + rewrite list_lookup_insert_eq by exact Hlt. cbn. apply Z.setbit_eq. lia.
    + apply take_insert_ge. specialize (Hpast Hrow). lia.
  - destruct (DrawChar_single Font6x8 st c cx cy inv _ ltac:(lia) ltac:(lia)
                (FontDouble_glyph Font6x8 _ _ Hg))
      as (fb' & Hrun & Hl & Hcols & Hframe).
    { unfold cell_offset. lia. }
    exists (set_fb st fb'). split; [exact Hrun|].
    cbn [mFramebuffer set_fb]. split.
    + intros i Hi. destruct (Hcols i Hi) as [-> _].
      assert (E : rd (map (DoubleColumn g) (seqZ 0 6)) i = DoubleColumn g i).
      { unfold rd. change (map ?f ?l) with (f <$> l).
        rewrite list_lookup_fmap, lookup_seqZ_lt by lia.
        replace (0 + Z.of_nat (Z.to_nat i)) with i by lia. reflexivity. }
      rewrite E. reflexivity.
    + unfold transferred. cbn [mFramebuffer mHeight set_fb]. rewrite Hh.
      apply take_agree; [exact Hl|].
      intros j Hj. apply Hframe. unfold in_cell, cell_offset. lia.
Qed.

(** X20. [Clear] on a display of height 32 or 64 blanks every pixel of
    the rows below the height and sends the control byte followed by
    [16 * height] zero bytes; pixels stored in rows from the height on
    (of a 32-row display) are not erased. *)
Theorem Clear_blanks_screen st :
  mHeight st = 32 \/ mHeight st = 64 ->
  (Z.to_nat (mHeight st * 16 + 1) <= length (mFramebuffer st))%nat ->
  exists st',
    Clear st = Some st' /\
    (forall x y, y mod 64 < mHeight st -> pixel_lit (mFramebuffer st') x y = false) /\
    (forall x y, mHeight st <= y mod 64 ->
                 pixel_lit (mFramebuffer st') x y = pixel_lit (mFramebuffer st) x y) /\
    transferred st'
    = take 1 (mFramebuffer st) ++ replicate (Z.to_nat (mHeight st * 16)) 0 /\
    mI2CMaster st'
    = fst (Write (mI2CMaster st) (mAddress st) (transferred st')).
Proof.
  intros Hh Hlen.
  assert (Hpos : 0 <= mHeight st) by (destruct Hh as [-> | ->]; lia).
  destruct (fill_zero st (Z.to_nat (mHeight st * 16))) as (fb' & Hrun & Hl & Hbytes);
    [lia|].
  eexists. split.
  { unfold Clear. rewrite Hrun. rewrite WriteFramebuffer_ok by (cbn; lia). reflexivity. }
  unfold transferred. cbn [mFramebuffer mHeight mI2CMaster mAddress set_fb set_bus].
  split; [|split; [|split; [|reflexivity]]].
  - intros x y Hy. destruct (pixel_byte_rows x y _ Hh) as [Hin _].
    unfold pixel_lit. rewrite Hbytes, decide_True by auto. apply Z.testbit_0_l.
  - intros x y Hy. destruct (pixel_byte_rows x y _ Hh) as [_ Hout].
    unfold pixel_lit. rewrite Hbytes, decide_False by (specialize (Hout Hy); lia).
    reflexivity.
  - replace (Z.to_nat (mHeight st * 16 + 1)) with (S (Z.to_nat (mHeight st * 16))) in *
      by lia.
    set (n := Z.to_nat (mHeight st * 16)) in *.
    apply list_eq. intros j.
    destruct (decide (j = 0%nat)) as [->|Hj0].
    + rewrite lookup_take_lt, Hbytes, decide_False by lia.
      rewrite lookup_app_l by (rewrite length_take; lia).
      rewrite lookup_take_lt by lia. reflexivity.
    + destruct (decide (j <= n)%nat) as [Hjn|Hjn].
      * rewrite lookup_take_lt, Hbytes, decide_True by lia.
        rewrite lookup_app_r by (rewrite length_take; lia).
        symmetry. apply lookup_replicate_2. rewrite length_take. lia.
      * rewrite lookup_take_ge by lia. symmetry. apply lookup_ge_None_2.
        rewrite length_app, length_take, length_replicate. lia.
Qed.

End Screen.

(** *** The further properties at work *)

Lemma pixel_read_back_witness :
  exists st1 st0 : CSSD1306 RecordingBus,
    SetPixel 3 10 sample_display = Some st1 /\
    ClearPixel 3 10 sample_display = Some st0 /\
    pixel_lit (mFramebuffer st1) 3 10 = true /\
    pixel_lit (mFramebuffer st0) 3 10 = false /\
    forall x' y',
      x' mod 128 <> 3 mod 128 \/ y' mod 64 <> 10 mod 64 ->
      pixel_lit (mFramebuffer st1) x' y' = pixel_lit (mFramebuffer sample_display) x' y' /\
      pixel_lit (mFramebuffer st0) x' y' = pixel_lit (mFramebuffer sample_display) x' y'.
Proof.
  apply (pixel_read_back sample_display 3 10).
  - lia.
  - lia.
  - unfold sample_display. apply bytes_new.
  - unfold sample_display. rewrite length_new. lia.
Defined.

Lemma pixel_coordinates_wrap_witness :
  SetPixel 200 100 sample_display = SetPixel (200 mod 128) (100 mod 64) sample_display /\
  ClearPixel 200 100 sample_display = ClearPixel (200 mod 128) (100 mod 64) sample_display.
Proof.
  apply (pixel_coordinates_wrap sample_display 200 100); lia.
Defined.

Lemma pixel_ops_commute_witness :
  (do s <- SetPixel 3 10 sample_display; SetPixel 3 11 s)
  = (do s <- SetPixel 3 11 sample_display; SetPixel 3 10 s) /\
  (3 mod 128 <> 3 mod 128 \/ 11 mod 64 <> 10 mod 64 ->
   (do s <- SetPixel 3 10 sample_display; ClearPixel 3 11 s)
   = (do s <- ClearPixel 3 11 sample_display; SetPixel 3 10 s)).
Proof.
  apply (pixel_ops_commute sample_display 3 10 3 11).
  - lia.
  - lia.
  - lia.
  - lia.
  - unfold sample_display. apply bytes_new.
  - unfold sample_display. rewrite length_new. lia.
Defined.

Lemma DrawChar_pixels_witness :
  exists fb',
    DrawChar SampleFont 65 2 1 true false sample_display = Some (set_fb sample_display fb') /\
    (forall j m, 0 <= j < 6 -> 0 <= m < 16 ->
       pixel_lit fb' (2 * 6 + 3 + j) (1 * 16 + m)
       = xorb (Z.testbit (rd (sample_glyph 33) (m / 2)) (5 - j))
              (true && (0 <? j) && (m <? 14))) /\
    forall k, ~ in_cell 2 1 k -> fb' !! k = mFramebuffer sample_display !! k.
Proof.
  apply (DrawChar_pixels SampleFont sample_display 65 2 1 true (sample_glyph 33)).
  - lia.
  - lia.
  - reflexivity.
  - unfold sample_display. rewrite length_new. unfold cell_offset. lia.
Defined.

Lemma DrawChar_double_width_pixels_witness :
  exists fb',
    DrawChar SampleFont 65 1 0 false true sample_display = Some (set_fb sample_display fb') /\
    (forall k m, 0 <= k < 12 -> 0 <= m < 16 ->
       pixel_lit fb' (1 * 12 + 3 + k) (0 * 16 + m)
       = xorb (Z.testbit (rd (sample_glyph 33) (m / 2)) (5 - k / 2))
              (false && (0 <? k / 2) && (m <? 14))) /\
    forall j, ~ in_wide_cell 1 0 j -> fb' !! j = mFramebuffer sample_display !! j.
Proof.
  apply (DrawChar_double_width_pixels SampleFont sample_display 65 1 0 false (sample_glyph 33)).
  - lia.
  - lia.
  - reflexivity.
  - unfold sample_display. rewrite length_new. lia.
Defined.

Lemma bar_bytes_rows_witness :
  Z.testbit (if 9 <? 8 then fst (bar_bytes 10 12) else snd (bar_bytes 10 12)) (9 mod 8)
  = bar_row 10 12 9 /\
  0 <= fst (bar_bytes 10 12) < 256 /\ 0 <= snd (bar_bytes 10 12) < 256.
Proof.
  apply (bar_bytes_rows 10 12 9); lia.
Defined.



Lemma active_ticks_witness :
  let st' := ticks sample_level [loud_synth; loud_synth] sample_display in
  rd (mPeakLevels st') 0
  = fold_left Z.max (map (fun sy => level_of sample_level sy 0) [loud_synth; loud_synth])
              (rd (mPeakLevels sample_display) 0) /\
  (forall front sy, [loud_synth; loud_synth] = front ++ [sy] ->
                    rd (mPartLevels st') 0 = level_of sample_level sy 0) /\
  (Forall (fun sy => level_of sample_level sy 0 <= rd (mPeakLevels sample_display) 0)
          [loud_synth; loud_synth] ->
   rd (mPeakTimes st') 0 = rd (mPeakTimes sample_display) 0) /\
  (forall front sy,
      [loud_synth; loud_synth] = front ++ [sy] ->
      rd (mPeakLevels (ticks sample_level front sample_display)) 0
      < level_of sample_level sy 0 ->
      rd (mPeakTimes st') 0 = 100).
Proof.
  apply (active_ticks sample_level sample_display 0 [loud_synth; loud_synth]).
  - repeat split.
  - lia.
  - repeat constructor.
Defined.

Lemma DrawStatusLine_cells_witness :
  exists fb',
    DrawStatusLine SampleFont scenario_synth sample_display
    = Some (set_fb sample_display fb') /\
    (forall i, 0 <= i < 5 ->
       cell_shows SampleFont fb'
         (if Z.testbit (GetPartStates scenario_synth) i then 0x80 else 49 + i) (i * 2) 0) /\
    cell_shows SampleFont fb'
      (if GetPartStates scenario_synth <? 256 then 82 else 0x80) 10 0 /\
    text_shows SampleFont fb' (sprintf_vol (GetMasterVolume scenario_synth)) 12 0 /\
    length (sprintf_vol (GetMasterVolume scenario_synth)) = 8%nat /\
    forall j, (forall x, status_cell x -> ~ in_cell x 0 j) ->
              fb' !! j = mFramebuffer sample_display !! j.
Proof.
  apply (DrawStatusLine_cells SampleFont scenario_synth sample_display).
  - reflexivity.
  - apply Nat.leb_le. vm_compute. reflexivity.
  - change (0 <= 5). lia.
  - change (0 <= 75 < 256). lia.
  - unfold sample_display. rewrite length_new. lia.
Defined.

Lemma Print_draws_fitting_prefix_witness :
  Print SampleFont loading 15 0 true false sample_display
  = Print SampleFont (take (Z.to_nat (20 - 15)) (cstr loading)) 15 0 true false
      sample_display /\
  (20 <= 15 -> Print SampleFont loading 15 0 false false sample_display
               = Some sample_display).
Proof.
  apply (Print_draws_fitting_prefix SampleFont loading 15 0 true false sample_display).
  lia.
Defined.

Lemma SetMessage_then_Update_witness :
  cstr (mMessageText (SetMessage 21 loading sample_display)) = take 21 (cstr loading) /\
  mFramebuffer (SetMessage 21 loading sample_display) = mFramebuffer sample_display /\
  mI2CMaster (SetMessage 21 loading sample_display) = mI2CMaster sample_display /\
  exists st',
    Update SampleFont sample_level (Some scenario_synth)
      (SetMessage 21 loading sample_display) = Some st' /\
    text_shows SampleFont (mFramebuffer st') (take 20 (cstr loading)) 0 0 /\
    forall x, Z.of_nat (length (take 20 (cstr loading))) <= x < 20 ->
              cell_shows SampleFont (mFramebuffer st') 32 x 0.
Proof.
  apply (SetMessage_then_Update SampleFont 21 sample_level loading scenario_synth
           sample_display).
  - apply Nat.leb_le. vm_compute. reflexivity.
  - lia.
  - left. reflexivity.
  - apply Nat.leb_le. vm_compute. reflexivity.
  - apply Forall_forall. intros c Hc.
    apply list_elem_of_In in Hc. vm_compute in Hc.
    repeat (destruct Hc as [<-|Hc]; [lia|]). destruct Hc.
Defined.

Lemma Update_cycle_witness :
  let st1 := UpdatePartLevels sample_level loud_synth sample_display in
  exists fb',
    Update SampleFont sample_level (Some loud_synth) sample_display
    = Some (set_bus (set_fb st1 fb')
              (fst (Write (mI2CMaster sample_display) (mAddress sample_display)
                      (take (Z.to_nat (mHeight sample_display * 16 + 1)) fb')))) /\
    length fb' = length (mFramebuffer sample_display) /\
    (forall i j k, 0 <= i < 9 -> 0 <= j < 12 -> 0 <= k < 16 ->
       0 <= rd (mPartLevels st1) i <= 16 -> 0 <= rd (mPeakLevels st1) i <= 16 ->
       pixel_lit fb' (i * 14 + 2 + j) (16 + k)
       = bar_row (rd (mPartLevels st1) i) (rd (mPeakLevels st1) i) k) /\
    (if mMessageFlag sample_display
     then message_shown SampleFont fb' (mMessageText sample_display)
     else status_shown SampleFont fb' loud_synth).
Proof.
  apply (Update_cycle SampleFont sample_level loud_synth sample_display).
  - apply Nat.leb_le. vm_compute. reflexivity.
  - left. reflexivity.
  - apply Nat.leb_le. vm_compute. reflexivity.
  - change (0 <= 100 < 256). lia.
Defined.

Lemma message_leftovers_witness :
  exists st1 st2,
    Update SampleFont sample_level (Some scenario_synth)
      (SetMessage 21 loading sample_display) = Some st1 /\
    Update SampleFont sample_level (Some loud_synth) (ClearMessage st1) = Some st2 /\
    status_shown SampleFont (mFramebuffer st2) loud_synth /\
    forall x, 0 <= x < 6 ->
      (forall c,
          printed (mMessageText (SetMessage 21 loading sample_display)) 0
            !! Z.to_nat (2 * x + 1) = Some c ->
          cell_shows SampleFont (mFramebuffer st2) c (2 * x + 1) 0) /\
      (Z.of_nat (length (printed (mMessageText (SetMessage 21 loading sample_display)) 0))
       <= 2 * x + 1 ->
       cell_shows SampleFont (mFramebuffer st2) 32 (2 * x + 1) 0).
Proof.
  apply (message_leftovers SampleFont sample_level scenario_synth loud_synth
           (SetMessage 21 loading sample_display)).
  - reflexivity.
  - apply Nat.leb_le. vm_compute. reflexivity.
  - left. reflexivity.
  - apply Nat.leb_le. vm_compute. reflexivity.
  - apply Forall_forall. intros c Hc.
    apply list_elem_of_In in Hc. vm_compute in Hc.
    repeat (destruct Hc as [<-|Hc]; [lia|]). destruct Hc.
  - change (0 <= 100 < 256). lia.
Defined.

Lemma operations_keep_settings_witness :
  let st' :=
    default sample_display
      (run_operation SampleFont sample_level (OpUpdate (Some loud_synth)) sample_display) in
  mMessageFlag st' = mMessageFlag sample_display /\
  mMessageText st' = mMessageText sample_display /\
  mAddress st' = mAddress sample_display /\
  mHeight st' = mHeight sample_display /\
  length (mFramebuffer st') = length (mFramebuffer sample_display) /\
  meters st' = meters (UpdatePartLevels sample_level loud_synth sample_display).
Proof.
  intros st'.
  apply (operations_keep_settings SampleFont sample_level
           (OpUpdate (Some loud_synth)) sample_display st').
  - exact I.
  - vm_compute. reflexivity.
Defined.

Lemma transfers_begin_with_control_byte_witness :
  let ops := [OpSetPixel 3 10; OpUpdate (Some loud_synth)] in
  let st := default sample_display
              (run_operations SampleFont sample_level ops sample_display) in
  let st' := default sample_display (WriteFramebuffer st) in
  exists payload,
    payload = take (Z.to_nat (32 * 16)) (drop 1 (mFramebuffer st)) /\
    length payload = Z.to_nat (32 * 16) /\
    bytes payload /\
    st' = set_bus st (fst (Write (mI2CMaster st) 0x3C (0x40 :: payload))).
Proof.
  intros ops st st'.
  apply (transfers_begin_with_control_byte SampleFont 1025 sample_level
           [] 0x3C 32 ops st st').
  - lia.
  - lia.
  - repeat constructor; lia.
  - vm_compute. reflexivity.
  - vm_compute. reflexivity.
Defined.

Lemma reachable_framebuffer_witness :
  let ops := [OpDrawChar 65 2 1 true false; OpClear; OpUpdate (Some scenario_synth)] in
  let st := default sample_display
              (run_operations SampleFont sample_level ops sample_display) in
  bytes (mFramebuffer st) /\
  length (mFramebuffer st) = 1025%nat /\
  mAddress st = 0x3C /\ mHeight st = 32 /\
  ((1025 <= 1025)%nat ->
   forall x y, 0 <= x < 256 -> 0 <= y < 256 ->
               is_Some (SetPixel x y st) /\ is_Some (ClearPixel x y st)).
Proof.
  intros ops st.
  apply (reachable_framebuffer SampleFont 1025 sample_level [] 0x3C 32 ops st).
  - repeat constructor; lia.
  - vm_compute. reflexivity.
Defined.

Lemma off_screen_drawing_witness :
  (exists st1,
      SetPixel 3 40 sample_display = Some st1 /\
      pixel_lit (mFramebuffer st1) 3 40 = true /\
      transferred st1 = transferred sample_display) /\
  (exists st2,
      DrawChar SampleFont 65 2 2 true false sample_display = Some st2 /\
      (forall i, 0 <= i < 6 ->
         mFramebuffer st2 !! Z.to_nat (cell_offset 2 2 + i)
         = Some (column_lo (drawn_column true i (DoubleColumn (sample_glyph 33) i)))) /\
      transferred st2 = transferred sample_display).
Proof.
  apply (off_screen_drawing SampleFont sample_display 3 40 65 2 2 true (sample_glyph 33)).
  - reflexivity.
  - unfold sample_display. rewrite length_new. lia.
  - unfold sample_display. apply bytes_new.
  - lia.
  - lia.
  - change (32 <= 40). lia.
  - lia.
  - lia.
  - reflexivity.
Defined.

Lemma Clear_blanks_screen_witness :
  exists st',
    Clear lit_display = Some st' /\
    (forall x y, y mod 64 < mHeight lit_display ->
                 pixel_lit (mFramebuffer st') x y = false) /\
    (forall x y, mHeight lit_display <= y mod 64 ->
                 pixel_lit (mFramebuffer st') x y
                 = pixel_lit (mFramebuffer lit_display) x y) /\
    transferred st'
    = take 1 (mFramebuffer lit_display)
      ++ replicate (Z.to_nat (mHeight lit_display * 16)) 0 /\
    mI2CMaster st'
    = fst (Write (mI2CMaster lit_display) (mAddress lit_display) (transferred st')).
Proof.
  apply (Clear_blanks_screen lit_display).
  - left. reflexivity.
  - apply Nat.leb_le. vm_compute. reflexivity.
Defined.
